(** * ZotLink: metadata normalisation, creator building, extraction

    A shallow embedding of the decision logic of the ZotLink repository:

    - [debug_tools/trace_url.py]: [patched_convert_to_zotero_format] (the
      record built for Zotero) and [trace_url_processing], which feeds it;
    - [zotlink/extractors/biorxiv_direct_extractor.py]:
      [BioRxivDirectExtractor];
    - [zotlink/legacy/mcp_server.py] and [debug_title_issue.py]: the title
      shown to the user;
    - [zotlink/tools/zip_extractor.py]: the choice of a PDF in an archive;
    - [cleanup_nature.py]: the rewriting of the extractor manager;
    - [zotlink/legacy/downloader.py]: the parsing of a cookie string.

    Conventions.  A Python [str] is a [string].  ASCII text is held one
    character per character.  Text outside ASCII, which the sources have
    in a few literals, is held as the bytes of its UTF-8 encoding:
    equality, concatenation and the search for a substring are on the
    bytes what they are on the characters; lengths, slices, the classes
    [\d], [\w] and [\s] of [re] and [str.lower] are not.  These are given
    here on ASCII characters, where they are Python's.  Outside ASCII
    Python follows the Unicode database (a no-break space is in [\s], an
    Arabic-Indic digit in [\d], a letter with an accent in [\w]), which is
    not modelled: a byte from 0x80 on is in no class and is left alone by
    [lower].  So a property that depends on what a class holds is stated
    for ASCII text ([ascii_text]), or for text cut into runs of ASCII
    characters.  A Python [dict] with string keys is a [gmap string value].
    A Python call that may raise returns a [result]. *)

From Stdlib Require Import ZArith Ascii String List Bool Lia.
From stdpp Require Import base option list gmap strings fin_maps.

Local Open Scope string_scope.
#[local] Arguments String.append !s1 s2 / : simpl nomatch.

(** ** Strings *)

Module Str.

Fixpoint take (n : nat) (s : string) : string :=
  match n, s with
  | S n', String c s' => String c (take n' s')
  | _, _ => EmptyString
  end.

Fixpoint drop (n : nat) (s : string) : string :=
  match n, s with
  | S n', String _ s' => drop n' s'
  | _, _ => s
  end.

Fixpoint map (f : ascii -> ascii) (s : string) : string :=
  match s with
  | EmptyString => EmptyString
  | String c s' => String (f c) (map f s')
  end.

Fixpoint forallb (f : ascii -> bool) (s : string) : bool :=
  match s with
  | EmptyString => true
  | String c s' => f c && forallb f s'
  end.

Fixpoint existsb (f : ascii -> bool) (s : string) : bool :=
  match s with
  | EmptyString => false
  | String c s' => f c || existsb f s'
  end.

Fixpoint repeat (c : ascii) (n : nat) : string :=
  match n with
  | O => EmptyString
  | S n' => String c (repeat c n')
  end.

(** [needle in hay] on two strings. *)
Fixpoint contains (needle hay : string) : bool :=
  String.prefix needle hay ||
  match hay with
  | EmptyString => false
  | String _ hay' => contains needle hay'
  end.

Definition nonempty (s : string) : bool :=
  match s with EmptyString => false | _ => true end.

Definition code (c : ascii) : nat := nat_of_ascii c.

Definition between (lo hi : nat) (c : ascii) : bool :=
  (lo <=? code c)%nat && (code c <=? hi)%nat.

(** An ASCII character: a code point below 128. *)
Definition is_ascii (c : ascii) : bool := (code c <? 128)%nat.

(** [\d], on ASCII characters: the digits [0] to [9].  (On other text
    Python's [\d] also holds the decimal digits of other scripts.) *)
Definition is_digit (c : ascii) : bool := between 48 57 c.

(** [\w], on ASCII characters: letters, digits and [_].  (On other text
    Python's [\w] also holds the letters and digits of other scripts.) *)
Definition is_word (c : ascii) : bool :=
  is_digit c || between 65 90 c || between 97 122 c || (code c =? 95)%nat.

(** [\s], on ASCII characters: tab, newline, vertical tab, form feed,
    carriage return, the separators 0x1c to 0x1f and the space; also the
    characters [str.split()] and [str.strip()] remove.  (On other text
    Python's [\s] also holds the white space of Unicode, the no-break
    space for one.) *)
Definition is_space (c : ascii) : bool :=
  between 9 13 c || between 28 32 c.

Definition lower_char (c : ascii) : ascii :=
  if between 65 90 c then ascii_of_nat (code c + 32) else c.

(** [s.lower()], on ASCII text *)
Definition lower (s : string) : string := map lower_char s.

(** [s.zfill(width)] *)
Definition zfill (width : nat) (s : string) : string :=
  let pad := repeat "0"%char (width - String.length s) in
  match s with
  | String c s' =>
      if (Ascii.eqb c "+" || Ascii.eqb c "-")%bool
      then String c (pad ++ s')
      else pad ++ s
  | EmptyString => pad
  end.

End Str.

(** ** Regular expressions

    Every pattern of the sources is a sequence of character classes, each
    repeated between [lo] and [hi] times (greedy), with at most the anchors
    [^] and [$] around it, and every capturing group encloses exactly one
    such repetition.  [match_here] is the backtracking matcher of [re] on
    that fragment. *)

Module Re.

Inductive atom : Type :=
  | Rep (cap : bool) (cls : ascii -> bool) (lo : nat) (hi : option nat)
  | Bol
  | Eol.

Definition pattern : Type := list atom.

(** Number of leading characters of [s] in [cls], at most [hi]. *)
Fixpoint run_length (cls : ascii -> bool) (hi : option nat) (s : string) : nat :=
  match hi, s with
  | Some O, _ => O
  | _, EmptyString => O
  | _, String c s' =>
      if cls c then S (run_length cls (pred <$> hi) s') else O
  end.

(** Try the counts [n], [n-1], ..., [lo] in that order. *)
Fixpoint backtrack {R} (f : nat -> option R) (lo n : nat) : option R :=
  if (n <? lo)%nat then None
  else match f n with
       | Some r => Some r
       | None => match n with
                 | O => None
                 | S n' => backtrack f lo n'
                 end
       end.

(** [$] without [re.MULTILINE]: at the end, or before a final newline. *)
Definition at_eol (s : string) : bool :=
  match s with
  | EmptyString => true
  | String c EmptyString => Ascii.eqb c "010"%char
  | _ => false
  end.

(** [match_here p bol s]: match [p] at the start of [s]; [bol] tells
    whether [s] starts the subject.  Returns the groups and what is left
    of [s] after the match. *)
Fixpoint match_here (p : pattern) (bol : bool) (s : string)
  : option (list string * string) :=
  match p with
  | [] => Some ([], s)
  | Bol :: p' => if bol then match_here p' bol s else None
  | Eol :: p' => if at_eol s then match_here p' bol s else None
  | Rep cap cls lo hi :: p' =>
      backtrack
        (fun k =>
           match match_here p' (bol && (k =? 0)%nat) (Str.drop k s) with
           | Some (gs, rest) =>
               Some (if cap then Str.take k s :: gs else gs, rest)
           | None => None
           end)
        lo (run_length cls hi s)
  end.

Fixpoint search_from (p : pattern) (bol : bool) (s : string)
  : option (list string) :=
  match match_here p bol s with
  | Some (gs, _) => Some gs
  | None =>
      match s with
      | EmptyString => None
      | String _ s' => search_from p false s'
      end
  end.

(** [re.search(p, s)]: the groups of the leftmost match. *)
Definition search (p : pattern) (s : string) : option (list string) :=
  search_from p true s.

(** [re.search(p, s)] used as a condition. *)
Definition matches (p : pattern) (s : string) : bool :=
  match search p s with Some _ => true | None => false end.

Definition lit (c : ascii) : atom := Rep false (Ascii.eqb c) 1 (Some 1).

Definition lits (s : string) : pattern :=
  List.map lit (list_ascii_of_string s).

Definition digits (cap : bool) (lo : nat) (hi : option nat) : atom :=
  Rep cap Str.is_digit lo hi.

End Re.

(** ** Date normalisation ([trace_url.py], lines 75 to 93) *)

(** [(\d{1,2})\s+(\w+)\s+(\d{4})] *)
Definition DATE_DMY : Re.pattern :=
  [ Re.digits true 1 (Some 2); Re.Rep false Str.is_space 1 None;
    Re.Rep true Str.is_word 1 None; Re.Rep false Str.is_space 1 None;
    Re.digits true 4 (Some 4) ].

Definition is_date_sep (c : ascii) : bool :=
  (Ascii.eqb c "-" || Ascii.eqb c "/")%bool.

(** [(\d{4})[-/](\d{1,2})[-/](\d{1,2})] *)
Definition DATE_YMD : Re.pattern :=
  [ Re.digits true 4 (Some 4); Re.Rep false is_date_sep 1 (Some 1);
    Re.digits true 1 (Some 2); Re.Rep false is_date_sep 1 (Some 1);
    Re.digits true 1 (Some 2) ].

(** [^\d{4}$] *)
Definition DATE_YEAR : Re.pattern :=
  [ Re.Bol; Re.digits false 4 (Some 4); Re.Eol ].

Definition months : list (string * string) :=
  [ ("Jan", "01"); ("Feb", "02"); ("Mar", "03"); ("Apr", "04");
    ("May", "05"); ("Jun", "06"); ("Jul", "07"); ("Aug", "08");
    ("Sep", "09"); ("Oct", "10"); ("Nov", "11"); ("Dec", "12") ].

(** [table.get(key, default)] on a literal table *)
Fixpoint table_get (table : list (string * string)) (key default : string) : string :=
  match table with
  | [] => default
  | (k, v) :: table' => if String.eqb k key then v else table_get table' key default
  end.

Definition UNKNOWN_DATE : string := "未知日期".

(** The body of [if date and date != '未知日期': try: ...] for a [str]. *)
Definition parse_date (date : string) : string :=
  match Re.search DATE_DMY date with
  | Some [day; month_name; year] =>
      let month := table_get months (Str.take 3 month_name) "01" in
      year ++ "-" ++ month ++ "-" ++ Str.zfill 2 day
  | Some _ => date
  | None =>
      if Re.matches DATE_YMD date then date
      else if Re.matches DATE_YEAR date then date ++ "-01-01"
      else date
  end.

Definition normalize_date (date : string) : string :=
  if Str.nonempty date && negb (String.eqb date UNKNOWN_DATE)
  then parse_date date
  else date.

(** ** Python values, dictionaries and exceptions *)

Record creator : Type := Creator {
  creatorType : string;
  firstName : string;
  lastName : string
}.

(** The values found in the dictionaries of the sources: [None], integers,
    strings, [bytes] and lists of creator objects. *)
Inductive value : Type :=
| VNone
| VInt (n : Z)
| VStr (s : string)
| VBytes (b : list Byte.byte)
| VList (l : list creator).

(** [bool(v)] *)
Definition truthy (v : value) : bool :=
  match v with
  | VNone => false
  | VInt n => negb (n =? 0)%Z
  | VStr s => Str.nonempty s
  | VBytes b => match b with [] => false | _ => true end
  | VList l => match l with [] => false | _ => true end
  end.

Inductive exn : Type :=
| TypeError
| KeyError (key : string).

Inductive result (A : Type) : Type :=
| Ok (a : A)
| Raise (e : exn).

Arguments Ok {A} a.
Arguments Raise {A} e.

#[global] Instance result_ret : MRet result := fun _ a => Ok a.

#[global] Instance result_bind : MBind result := fun _ _ k r =>
  match r with
  | Ok a => k a
  | Raise e => Raise e
  end.

Module Py.

(** [d.get(key, default)] *)
Definition get (d : gmap string value) (key : string) (default : value) : value :=
  from_option id default (d !! key).

(** [d.get(key)] *)
Definition get_none (d : gmap string value) (key : string) : value :=
  get d key VNone.

(** [d[key]] *)
Definition item (d : gmap string value) (key : string) : result value :=
  match d !! key with
  | Some v => Ok v
  | None => Raise (KeyError key)
  end.

(** [a or b] *)
Definition or (a b : value) : value := if truthy a then a else b.

(** [needle in v] for a string [needle]: substring test on a [str];
    on a list, comparison with its elements (a creator object is never
    equal to a string); [TypeError] on [None], [int] and [bytes]. *)
Definition contains (needle : string) (v : value) : result bool :=
  match v with
  | VStr s => Ok (Str.contains needle s)
  | VList _ => Ok false
  | VNone | VInt _ | VBytes _ => Raise TypeError
  end.

(** [isinstance(v, list)] *)
Definition is_list (v : value) : bool :=
  match v with VList _ => true | _ => false end.

(** The elements of a value known to be a list. *)
Definition elements (v : value) : list creator :=
  match v with VList l => l | _ => [] end.

(** The values that have a length and can be sliced: [str], [bytes] and
    lists, not [None] and not an [int]. *)
Definition sized (v : value) : bool :=
  match v with
  | VStr _ | VBytes _ | VList _ => true
  | VNone | VInt _ => false
  end.

(** [len(v)], for its effect: [TypeError] on [None] and on an [int]. *)
Definition check_len (v : value) : result unit :=
  if sized v then Ok tt else Raise TypeError.

(** [v[:n]], for its effect: [TypeError] on [None] and on an [int]. *)
Definition check_slice (v : value) : result unit :=
  if sized v then Ok tt else Raise TypeError.

(** [for x in v: x['firstName']], for its effect: the elements of a list
    are creator objects, which have the key; a character of a [str] and a
    byte of a [bytes] cannot be indexed by a string, so any non-empty
    [str] or [bytes] raises [TypeError], as do [None] and an [int]. *)
Definition check_names (v : value) : result unit :=
  match v with
  | VList _ | VStr EmptyString | VBytes [] => Ok tt
  | VStr _ | VBytes _ | VNone | VInt _ => Raise TypeError
  end.

End Py.

(** ** [patched_convert_to_zotero_format] ([trace_url.py], lines 51 to 123) *)

(** Lines 75 to 93 on an arbitrary value: [re.search] raises [TypeError] on
    anything but a [str], and the bare [except] leaves [date] as it was. *)
Definition normalize_date_value (date : value) : value :=
  match date with
  | VStr s => VStr (normalize_date s)
  | _ => date
  end.

(** [if paper_info.get(key): zotero_item[key] = paper_info[key]] *)
Definition copy_if_set (paper_info : gmap string value) (key : string)
    (zotero_item : gmap string value) : gmap string value :=
  if truthy (Py.get_none paper_info key)
  then <[key := Py.get_none paper_info key]> zotero_item
  else zotero_item.

(** [{k: v for k, v in zotero_item.items() if v}] *)
Definition strip_empty (zotero_item : gmap string value) : gmap string value :=
  filter (fun kv => truthy kv.2 = true) zotero_item.

(** Lines 96 to 118: the fields of [zotero_item] before the empty ones are
    removed, around the creators [authors]; [is_arxiv] is the outcome of
    ['arxiv.org' in paper_info.get('url', '')] and [today] the value of
    [time.strftime('%Y-%m-%d')]. *)
Definition zotero_item_fields (today : string) (authors : list creator)
    (paper_info : gmap string value) (is_arxiv : bool) : gmap string value :=
  let date := normalize_date_value (Py.get paper_info "date" (VStr "")) in
  let item_type := Py.get paper_info "itemType" (VStr "journalArticle") in
  let item_type := if is_arxiv then VStr "preprint" else item_type in
  let zotero_item : gmap string value :=
    <["itemType" := item_type]>
    (<["title" := Py.get paper_info "title" (VStr "")]>
    (<["creators" := VList authors]>
    (<["abstractNote" := Py.or (Py.get_none paper_info "abstractNote")
                               (Py.get paper_info "abstract" (VStr ""))]>
    (<["url" := Py.get paper_info "url" (VStr "")]>
    (<["date" := date]> ∅))))) in
  let zotero_item := copy_if_set paper_info "DOI" zotero_item in
  let zotero_item := copy_if_set paper_info "repository" zotero_item in
  let zotero_item := copy_if_set paper_info "libraryCatalog" zotero_item in
  <["accessDate" := VStr today]> zotero_item.

(** Lines 73 to 123: the record built around the creators [authors]. *)
Definition build_item (today : string) (authors : list creator)
    (paper_info : gmap string value) : result (gmap string value) :=
  is_arxiv ← Py.contains "arxiv.org" (Py.get paper_info "url" (VStr ""));
  mret (strip_empty (zotero_item_fields today authors paper_info is_arxiv)).

Section Patched.

(** [original_convert]: the method the patch replaces, called for a
    result that only has an [authors] string. *)
Variable original_convert : gmap string value -> result (gmap string value).

Definition patched_convert_to_zotero_format (today : string)
    (paper_info : gmap string value) : result (gmap string value) :=
  if truthy (Py.get_none paper_info "creators")
     && Py.is_list (Py.get_none paper_info "creators")
  then
    build_item today
      (take 15 (Py.elements (Py.get_none paper_info "creators"))) paper_info
  else if truthy (Py.get_none paper_info "authors")
  then original_convert paper_info
  else build_item today [] paper_info.

End Patched.

(** ** The creator list builder and the method the patch wraps *)

Module Authors.

(** [s.split(sep)] for a separator class: the pieces between separators,
    empty ones included. *)
Fixpoint split_on (sep : ascii -> bool) (s : string) : list string :=
  match s with
  | EmptyString => [EmptyString]
  | String c s' =>
      if sep c then EmptyString :: split_on sep s'
      else match split_on sep s' with
           | piece :: pieces => String c piece :: pieces
           | [] => [String c EmptyString]
           end
  end.

(** [s.split()]: the words of [s]. *)
Definition words (s : string) : list string :=
  List.filter Str.nonempty (split_on Str.is_space s).

(** Modelled from the spec: section 4.3, the literal word [and] as a
    further separator; a list of words is cut at every word [and]. *)
Fixpoint split_at_and (ws : list string) : list (list string) :=
  match ws with
  | [] => [[]]
  | w :: ws' =>
      if String.eqb w "and" then [] :: split_at_and ws'
      else match split_at_and ws' with
           | name :: names => (w :: name) :: names
           | [] => [[w]]
           end
  end.

(** Modelled from the spec: section 4.3, one name token, given as its
    words; no word, no creator; otherwise the last word is the last name
    and the words before it, joined by spaces, the first name. *)
Definition name_of_words (ws : list string) : option creator :=
  match ws with
  | [] => None
  | _ :: _ =>
      Some (Creator "author"
              (String.concat " " (removelast ws))
              (List.last ws EmptyString))
  end.

Definition is_semicolon (c : ascii) : bool := Ascii.eqb c ";".

Definition is_comma_or_amp (c : ascii) : bool :=
  (Ascii.eqb c "," || Ascii.eqb c "&")%bool.

(** Modelled from the spec: section 4.3, the name tokens of an author
    string, each as its list of words; cut at [;] if there is one,
    otherwise at [,], [&] and the word [and]. *)
Definition tokens (authors : string) : list (list string) :=
  if Str.existsb is_semicolon authors
  then List.map words (split_on is_semicolon authors)
  else List.flat_map split_at_and
         (List.map words (split_on is_comma_or_amp authors)).

(** Modelled from the spec: the parsing of a free-text author string by
    [ZoteroConnector._convert_to_zotero_format], whose file
    ([zotlink/zotero_integration.py]) is not among the sources.  Section
    4.3, Branch B: split on [;] if present, otherwise on [,] with the word
    [and] and [&] as further separators; per token, trim, split into
    words, last word is the last name, the words before it joined by
    spaces are the first name; empty tokens are discarded. *)
Definition parse_authors (authors : string) : list creator :=
  omap name_of_words (tokens authors).

End Authors.

(** Modelled from the spec: [build_creators] of section 4.3, which
    [zotlink/zotero_integration.py] (not among the sources) implements.
    Branch A: a non-empty [creators] list is used as it is; Branch B: a
    non-empty [authors] string is parsed; Branch C: no creators.  Both
    branches are capped at 15 entries. *)
Definition build_creators (paper_info : gmap string value) : list creator :=
  match Py.get_none paper_info "creators" with
  | VList (c :: cs) => take 15 (c :: cs)
  | _ =>
      match Py.get_none paper_info "authors" with
      | VStr authors => take 15 (Authors.parse_authors authors)
      | _ => []
      end
  end.

(** Modelled from the spec: [ZoteroConnector._convert_to_zotero_format]
    ([zotlink/zotero_integration.py], not among the sources), the
    normaliser of section 4.2.  Its creators are those of section 4.3; the
    rest of the record is built as the patch above rebuilds it by hand
    (dates, item type with the arXiv override, omission of empty fields). *)
Definition _convert_to_zotero_format (today : string)
    (paper_info : gmap string value) : result (gmap string value) :=
  build_item today (build_creators paper_info) paper_info.

(** The normaliser as [trace_url.py] installs it on the connector. *)
Definition normalize (today : string) (paper_info : gmap string value)
  : result (gmap string value) :=
  patched_convert_to_zotero_format (_convert_to_zotero_format today)
    today paper_info.

(** ** [trace_url_processing] ([trace_url.py], lines 39 to 227)

    The trace of one URL: the extraction, the check for a failed
    extraction, the initial [paper_info], the arXiv enhancement, the
    conversion, and the values shown in between, whose [len] and slices
    may raise.  What is printed is left out; what is kept is the calls made
    to the connector and how the function ends. *)

(** [if key in metadata: paper_info[key] = metadata[key]] *)
Definition copy_if_present (metadata : gmap string value) (key : string)
    (paper_info : gmap string value) : gmap string value :=
  match metadata !! key with
  | Some v => <[key := v]> paper_info
  | None => paper_info
  end.

(** Lines 165 to 175 *)
Definition initial_paper_info (url : string) (metadata : gmap string value)
  : gmap string value :=
  let paper_info : gmap string value :=
    <["title" := Py.get metadata "title" (VStr "Unknown")]>
    (<["url" := VStr url]> ∅) in
  let paper_info := copy_if_present metadata "authors" paper_info in
  copy_if_present metadata "creators" paper_info.

(** Lines 137 to 147: the metadata rebuilt from what the arXiv extractor
    returned. *)
Definition arxiv_metadata (url : string) (metadata : gmap string value)
  : gmap string value :=
  <["title" := Py.get metadata "title" (VStr "Unknown")]>
  (<["authors" := Py.get metadata "authors_string" (VStr "")]>
  (<["date" := Py.get metadata "date" (VStr "")]>
  (<["abstract" := Py.get metadata "abstract" (VStr "")]>
  (<["url" := Py.get metadata "abs_url" (VStr url)]>
  (<["pdf_url" := Py.get metadata "pdf_url" (VStr "")]>
  (<["arxiv_id" := Py.get metadata "arxiv_id" (VStr "")]>
  (<["extractor" := VStr "arXiv专用提取器"]>
  (<["DOI" := Py.get metadata "doi" (VStr "")]> ∅)))))))).

(** [not metadata or 'error' in metadata] (line 160) *)
Definition faulted (metadata : gmap string value) : bool :=
  bool_decide (metadata = ∅) || bool_decide (is_Some (metadata !! "error")).

(** Lines 178 to 183: the length and the first three of [creators]. *)
Definition show_initial (paper_info : gmap string value) : result unit :=
  match paper_info !! "creators" with
  | Some creators => _ ← Py.check_len creators; Py.check_slice creators
  | None => Ok tt
  end.

(** Lines 198 to 205: the first hundred characters of [authors], the
    length and the first three of [creators]. *)
Definition show_input (paper_info : gmap string value) : result unit :=
  _ ← match paper_info !! "authors" with
      | Some authors => Py.check_slice authors
      | None => Ok tt
      end;
  match paper_info !! "creators" with
  | Some creators => _ ← Py.check_len creators; Py.check_slice creators
  | None => Ok tt
  end.

(** Lines 222 to 225: the number of creators of the record and their
    names. *)
Definition show_creators (zotero_item : gmap string value) : result unit :=
  let creators := Py.get zotero_item "creators" (VList []) in
  _ ← Py.check_len creators; Py.check_names creators.

(** A call to a method of the connector, with the [paper_info] it gets. *)
Inductive call : Type :=
| Enhance (paper_info : gmap string value)
| Convert (paper_info : gmap string value).

(** How the function ends: the early [return] after a failed extraction, an
    exception, or the record it has shown. *)
Inductive outcome : Type :=
| Stopped
| Failed (e : exn)
| Traced (zotero_item : gmap string value).

Section Trace.

(** [extractor_manager.extract_metadata], and three methods of the
    connector: [_extract_arxiv_metadata], [_enhance_paper_info_for_arxiv]
    and the [_convert_to_zotero_format] that the patch wraps.  None of them
    is among the sources; the trace only calls them. *)
Variable extract_metadata : string -> result (gmap string value).
Variable _extract_arxiv_metadata : string -> result (gmap string value).
Variable _enhance_paper_info_for_arxiv
  : gmap string value -> result (gmap string value).
Variable original_convert : gmap string value -> result (gmap string value).

(** Lines 132 to 156: the extracted metadata; [None] is the [return] of
    the two [except] clauses. *)
Definition extracted_metadata (url : string) : option (gmap string value) :=
  if Str.contains "arxiv.org" url
  then match _extract_arxiv_metadata url with
       | Ok metadata =>
           Some (if bool_decide (is_Some (metadata !! "error"))
                 then metadata
                 else arxiv_metadata url metadata)
       | Raise _ => None
       end
  else match extract_metadata url with
       | Ok metadata => Some metadata
       | Raise _ => None
       end.

(** Lines 164 to 225, for metadata that passed the check of line 160. *)
Definition convert_extracted (today url : string)
    (metadata : gmap string value) : list call * outcome :=
  let paper_info := initial_paper_info url metadata in
  match show_initial paper_info with
  | Raise e => ([], Failed e)
  | Ok _ =>
      let enhanced :=
        if Str.contains "arxiv.org" url
        then ([Enhance paper_info], _enhance_paper_info_for_arxiv paper_info)
        else ([], Ok paper_info) in
      match enhanced.2 with
      | Raise e => (enhanced.1, Failed e)
      | Ok paper_info =>
          match show_input paper_info with
          | Raise e => (enhanced.1, Failed e)
          | Ok _ =>
              (enhanced.1 ++ [Convert paper_info],
               match patched_convert_to_zotero_format original_convert
                       today paper_info with
               | Raise e => Failed e
               | Ok zotero_item =>
                   match show_creators zotero_item with
                   | Raise e => Failed e
                   | Ok _ => Traced zotero_item
                   end
               end)%list
          end
      end
  end.

Definition trace_url_processing (today url : string) : list call * outcome :=
  match extracted_metadata url with
  | None => ([], Stopped)
  | Some metadata =>
      if faulted metadata then ([], Stopped)
      else convert_extracted today url metadata
  end.

End Trace.

(** ** The title shown to the user ([mcp_server.py], lines 852 and 870;
    [debug_title_issue.py], lines 62 and 65) *)

Definition TITLE_PENDING : string := "标题提取中...".

(** [result.get('title') or paper_title or placeholder] *)
Definition title_or (placeholder : string) (result : gmap string value)
    (paper_title : value) : value :=
  Py.or (Py.or (Py.get_none result "title") paper_title) (VStr placeholder).

Definition actual_title (result : gmap string value) (paper_title : value)
  : value :=
  title_or TITLE_PENDING result paper_title.

(** The arXiv branch of [save_to_zotero]:
    [f'arXiv:{arxiv_id} (标题提取中...)'] as the placeholder. *)
Definition actual_title_arxiv (arxiv_id : string)
    (result : gmap string value) (paper_title : value) : value :=
  title_or ("arXiv:" ++ arxiv_id ++ " (" ++ TITLE_PENDING ++ ")")
    result paper_title.

(** ** [BioRxivDirectExtractor] ([biorxiv_direct_extractor.py]) *)

Module BioRxivDirectExtractor.

Definition can_handle (url : string) : bool :=
  Str.contains "biorxiv.org" (Str.lower url).

(** [10\.1101/(\d{4})\.(\d{2})\.(\d{2})\.(\d+)] *)
Definition DOI_PATTERN : Re.pattern :=
  (Re.lits "10.1101/" ++
   [ Re.digits true 4 (Some 4); Re.lit "."; Re.digits true 2 (Some 2);
     Re.lit "."; Re.digits true 2 (Some 2); Re.lit ".";
     Re.digits true 1 None ])%list.

Definition NO_DOI : string := "无法从URL提取DOI".

Definition metadata_of (url year month day version : string)
    : gmap string value :=
  let doi := "10.1101/" ++ year ++ "." ++ month ++ "." ++ day ++ "." ++ version in
  let paper_id := year ++ "." ++ month ++ "." ++ day ++ "." ++ version in
  <["itemType" := VStr "preprint"]>
  (<["title" := VStr ("bioRxiv preprint " ++ paper_id)]>
  (<["creators" := VList [Creator "author" "Unknown" "Author"]]>
  (<["abstractNote" := VStr "bioRxiv preprint - PDF auto-downloaded"]>
  (<["url" := VStr url]>
  (<["DOI" := VStr doi]>
  (<["repository" := VStr "bioRxiv"]>
  (<["archiveID" := VStr paper_id]>
  (<["date" := VStr (year ++ "-" ++ month ++ "-" ++ day)]>
  (<["libraryCatalog" := VStr "bioRxiv"]>
  (<["pdf_url" := VStr ("https://www.biorxiv.org/content/10.1101/"
                        ++ paper_id ++ ".full.pdf")]>
  (<["extractor" := VStr "BioRxiv-Direct"]> ∅))))))))))).

Definition _extract_from_url (url : string) : gmap string value :=
  match Re.search DOI_PATTERN url with
  | Some [year; month; day; version] => metadata_of url year month day version
  | _ => {[ "error" := VStr NO_DOI ]}
  end.

Section Download.

(** [_download_pdf_content]: the browser download, which returns the
    bytes it got or [None] and catches every exception itself. *)
Variable _download_pdf_content : value -> option (list Byte.byte).

Definition extract_metadata (url : string) : result (gmap string value) :=
  if negb (can_handle url) then Ok ∅
  else
    let basic_info := _extract_from_url url in
    pdf_url ← Py.item basic_info "pdf_url";
    match _download_pdf_content pdf_url with
    | Some pdf_content =>
        if truthy (VBytes pdf_content)
        then Ok (<["pdf_size" := VInt (Z.of_nat (length pdf_content))]>
                 (<["pdf_content" := VBytes pdf_content]> basic_info))
        else Ok basic_info
    | None => Ok basic_info
    end.

End Download.

End BioRxivDirectExtractor.

(** ** Notions used to state the properties *)

(** [s] is ASCII text. *)
Definition ascii_text (s : string) : bool := Str.forallb Str.is_ascii s.

(** [s] does not go on with a character of [cls]. *)
Definition stops_at (cls : ascii -> bool) (s : string) : bool :=
  match s with
  | EmptyString => true
  | String c _ => negb (cls c)
  end.

(** [s] is made of at least [lo] and at most [hi] characters of [cls]. *)
Definition run_of (cls : ascii -> bool) (lo : nat) (hi : option nat)
    (s : string) : bool :=
  Str.forallb cls s && (lo <=? String.length s)%nat
  && match hi with
     | Some h => (String.length s <=? h)%nat
     | None => true
     end.

(** A word of a name: not empty, free of white space and of the separators
    [,], [&] and [;], and not the word [and]. *)
Definition plain_char (c : ascii) : bool :=
  negb (Str.is_space c) && negb (Authors.is_comma_or_amp c)
  && negb (Authors.is_semicolon c).

Definition plain_word (w : string) : bool :=
  Str.nonempty w && Str.forallb plain_char w && negb (String.eqb w "and").

(** A name: one plain word or more. *)
Definition plain_name (ws : list string) : bool :=
  match ws with
  | [] => false
  | _ :: _ => List.forallb plain_word ws
  end.

(** The creator a name stands for: last word as last name, the words
    before it, joined by spaces, as first name. *)
Definition creator_of_name (ws : list string) : creator :=
  Creator "author" (String.concat " " (removelast ws)) (List.last ws EmptyString).

(** ** Further notions for the properties of dates *)

(** Number of white-space characters of [s]. *)
Fixpoint count_spaces (s : string) : nat :=
  match s with
  | EmptyString => 0
  | String c s' => (if Str.is_space c then 1 else 0) + count_spaces s'
  end.

(** [s] is a canonical date [YYYY-MM-DD]. *)
Definition canonical_date (s : string) : Prop :=
  exists year month day,
    s = year ++ "-" ++ month ++ "-" ++ day
    /\ run_of Str.is_digit 4 (Some 4) year = true
    /\ run_of Str.is_digit 2 (Some 2) month = true
    /\ run_of Str.is_digit 2 (Some 2) day = true.

(** A day-month-year date occurs in [date]: one or two digits, white
    space, a word, white space and four digits, with anything before and
    after. *)
Definition dmy_occurs (date : string) : Prop :=
  exists before day ws1 month_name ws2 year after,
    date = before ++ day ++ ws1 ++ month_name ++ ws2 ++ year ++ after
    /\ run_of Str.is_digit 1 (Some 2) day = true
    /\ run_of Str.is_space 1 None ws1 = true
    /\ run_of Str.is_word 1 None month_name = true
    /\ run_of Str.is_space 1 None ws2 = true
    /\ run_of Str.is_digit 4 (Some 4) year = true.




(** ** Further notions for the properties of author strings *)

(** The separators between two names of an author string written with
    commas. *)
Inductive name_sep : Type :=
| Comma
| And
| Ampersand
| CommaAnd.

Definition sep_text (sep : name_sep) : string :=
  match sep with
  | Comma => ", "
  | And => " and "
  | Ampersand => " & "
  | CommaAnd => ", and "
  end.

(** An author string: a name, its words joined by single spaces, then
    separators and names. *)
Fixpoint authors_text (name : list string)
    (more : list (name_sep * list string)) : string :=
  String.concat " " name ++
  match more with
  | [] => ""
  | (sep, name') :: more' => sep_text sep ++ authors_text name' more'
  end.

(** A word free of white space and of the separator class [sep], and a
    name made of such words. *)
Definition word_free_of (sep : ascii -> bool) (w : string) : bool :=
  Str.nonempty w && negb (Str.existsb Str.is_space w)
  && negb (Str.existsb sep w).

Definition name_free_of (sep : ascii -> bool) (ws : list string) : bool :=
  match ws with
  | [] => false
  | _ :: _ => List.forallb (word_free_of sep) ws
  end.

(** The tokens of an author string that has no [;]: the second branch of
    [Authors.tokens]. *)
Definition comma_tokens (authors : string) : list (list string) :=
  List.flat_map Authors.split_at_and
    (List.map Authors.words
       (Authors.split_on Authors.is_comma_or_amp authors)).

(** ** Further notions for the properties of the record *)

(** The keys [patched_convert_to_zotero_format] writes ([trace_url.py],
    lines 101 to 118). *)
Definition RECORD_KEYS : list string :=
  [ "itemType"; "title"; "creators"; "abstractNote"; "url"; "date";
    "DOI"; "repository"; "libraryCatalog"; "accessDate" ].

(** The branches of [patched_convert_to_zotero_format] that build the
    record themselves: a non-empty [creators] list, or no [authors]. *)
Definition builds_record (paper_info : gmap string value) : bool :=
  (truthy (Py.get_none paper_info "creators")
   && Py.is_list (Py.get_none paper_info "creators"))
  || negb (truthy (Py.get_none paper_info "authors")).

(** The [creators] and the [authors] of the metadata, where present, have
    a length and can be sliced: what the steps of the trace that show
    them need. *)
Definition displayable (metadata : gmap string value) : bool :=
  from_option Py.sized true (metadata !! "creators")
  && from_option Py.sized true (metadata !! "authors").

(** [d.get(key)] with an omitted falsy value: what the filter of line 121
    leaves of a field. *)
Definition kept (v : value) : option value :=
  if truthy v then Some v else None.

(** ** [ZipPDFExtractor] ([zotlink/tools/zip_extractor.py]) *)

Module Seq.

(** [data.startswith(prefix)] on [bytes] *)
Fixpoint starts_with (prefix data : list Byte.byte) : bool :=
  match prefix, data with
  | [], _ => true
  | p :: prefix', d :: data' => Byte.eqb p d && starts_with prefix' data'
  | _ :: _, [] => false
  end.

(** [l.sort(key=key, reverse=True)]: a stable sort by decreasing key;
    elements with equal keys keep the order they had.  [insert] puts [x],
    which came before the elements of [l], before the first element whose
    key is not larger. *)
Fixpoint insert {A} (key : A -> Z) (x : A) (l : list A) : list A :=
  match l with
  | [] => [x]
  | y :: l' => if (key x <? key y)%Z then y :: insert key x l' else x :: l
  end.

Definition sort_desc {A} (key : A -> Z) (l : list A) : list A :=
  List.fold_right (insert key) [] l.

End Seq.

Module Path.

(** [s.endswith(suffix)] *)
Definition ends_with (suffix s : string) : bool :=
  (String.length suffix <=? String.length s)%nat
  && String.eqb (Str.drop (String.length s - String.length suffix) s) suffix.

(** [s.split(sep)] for a one-character separator *)
Fixpoint split (sep : ascii) (s : string) : list string :=
  match s with
  | EmptyString => [EmptyString]
  | String c s' =>
      if Ascii.eqb c sep then EmptyString :: split sep s'
      else match split sep s' with
           | piece :: pieces => String c piece :: pieces
           | [] => [String c EmptyString]
           end
  end.

(** [s.split(sep)[-1]] *)
Definition last_piece (sep : ascii) (s : string) : string :=
  List.last (split sep s) EmptyString.

End Path.

Module ZipPDFExtractor.

Definition supported_pdf_extensions : list string := [".pdf"; ".PDF"].

(** [b'PK\x03\x04'], [b'PK\x05\x06'], [b'PK\x07\x08'] *)
Definition _is_zip_data (data : list Byte.byte) : bool :=
  Seq.starts_with [Byte.x50; Byte.x4b; Byte.x03; Byte.x04] data
  || Seq.starts_with [Byte.x50; Byte.x4b; Byte.x05; Byte.x06] data
  || Seq.starts_with [Byte.x50; Byte.x4b; Byte.x07; Byte.x08] data.

(** [b'%PDF'] *)
Definition _is_pdf_data (data : list Byte.byte) : bool :=
  Seq.starts_with [Byte.x25; Byte.x50; Byte.x44; Byte.x46] data.

Definition word_indicators : list string :=
  ["[Content_Types].xml"; "word/document.xml"; "_rels/.rels"].

Definition _is_word_document (file_list : list string) : bool :=
  List.forallb (fun indicator => bool_decide (indicator ∈ file_list))
    word_indicators
  && (3 <=? length (List.filter
                      (fun f => String.prefix "word/" f
                                && Path.ends_with ".xml" f)
                      file_list))%nat.

Definition is_pdf_name (filename : string) : bool :=
  List.existsb
    (fun ext => Path.ends_with (Str.lower ext) (Str.lower filename))
    supported_pdf_extensions.

Definition _find_pdf_files (file_list : list string) : list string :=
  List.filter is_pdf_name file_list.

Definition main_keywords : list string :=
  ["main"; "paper"; "article"; "manuscript"; "full"].

Definition supplement_keywords : list string :=
  ["supplement"; "appendix"; "si"; "supporting"; "additional"].

Definition _get_pdf_priority (pdf_filename : string) : Z :=
  let priority := 0%Z in
  let filename_lower := Str.lower pdf_filename in
  let priority :=
    if negb (Str.contains "/" pdf_filename) then (priority + 100)%Z
    else priority in
  let priority :=
    if List.existsb (fun keyword => Str.contains keyword filename_lower)
         main_keywords
    then (priority + 50)%Z else priority in
  let priority :=
    if List.existsb (fun keyword => Str.contains keyword filename_lower)
         supplement_keywords
    then (priority - 50)%Z else priority in
  priority.

(** The result of an extraction from a plain archive (lines 162 to 170). *)
Record pdf_result : Type := PdfResult {
  pdf_data : list Byte.byte;
  filename : string;
  size : Z;
  extracted_from : string;
  format : string;
  original_path : string;
  zip_file_count : Z
}.

Section Archive.

(** [zip_file.open(name).read()]; [None] when it raises, which
    [extract_pdf_from_zip] answers with [None]. *)
Variable read : string -> option (list Byte.byte).

(** Lines 137 to 177 of [extract_pdf_from_zip]: the choice and extraction
    of the PDF among the names [file_list] of an archive that is not a
    Word document. *)
Definition extract_pdf_entry (file_list : list string) (source_url : string)
  : option pdf_result :=
  let pdf_files := _find_pdf_files file_list in
  match pdf_files with
  | [] => None
  | _ :: _ =>
      match Seq.sort_desc _get_pdf_priority pdf_files with
      | [] => None
      | target_pdf :: _ =>
          match read target_pdf with
          | None => None
          | Some data =>
              if negb (_is_pdf_data data) then None
              else Some (PdfResult data
                           (Path.last_piece "/" target_pdf)
                           (Z.of_nat (length data))
                           ("ZIP文件 (来源: " ++ source_url ++ ")")
                           "PDF"
                           target_pdf
                           (Z.of_nat (length file_list)))
          end
      end
  end.

End Archive.

End ZipPDFExtractor.

(** An archive used to illustrate the choice: names, and a reader that
    finds a PDF under [paper.pdf] only. *)
Definition sample_names : list string :=
  ["supp/SI_figures.pdf"; "README.txt"; "paper.pdf"; "main.PDF"].

Definition sample_read (name : string) : option (list Byte.byte) :=
  if String.eqb name "paper.pdf"
  then Some [Byte.x25; Byte.x50; Byte.x44; Byte.x46; Byte.x2d]
  else None.

Definition sample_result : ZipPDFExtractor.pdf_result :=
  ZipPDFExtractor.PdfResult
    [Byte.x25; Byte.x50; Byte.x44; Byte.x46; Byte.x2d]
    "paper.pdf" 5 "ZIP文件 (来源: u)" "PDF" "paper.pdf" 4.

(** ** [option_b_remove_nature] ([cleanup_nature.py], lines 138 to 155):
    the rewriting of [extractor_manager.py] *)

Module Cleanup.

Definition IMPORT_LINE : string := "from .nature_extractor import NatureExtractor".
Definition CONSTRUCTION : string := "nature_extractor = NatureExtractor".
Definition REGISTRATION : string := "self.extractors.append(nature_extractor)".
Definition REGISTRATION_COMMENT : string := "注册Nature提取器".

(** The loop of lines 142 to 153; [skip_next] is its flag. *)
Fixpoint filter_lines (skip_next : bool) (lines : list string) : list string :=
  match lines with
  | [] => []
  | line :: lines' =>
      if Str.contains IMPORT_LINE line then filter_lines skip_next lines'
      else if Str.contains CONSTRUCTION line then filter_lines true lines'
      else if skip_next && (Str.contains REGISTRATION line
                            || Str.contains REGISTRATION_COMMENT line)
      then filter_lines skip_next lines'
      else line :: filter_lines false lines'
  end.

Definition NEWLINE : ascii := "010"%char.

(** [content.split('\n')], the loop, ['\n'.join(new_lines)] *)
Definition rewrite_manager (content : string) : string :=
  String.concat (String NEWLINE "")
    (filter_lines false (Path.split NEWLINE content)).

End Cleanup.

(** A manager file without the Nature extractor, used to illustrate the
    rewriting. *)
Definition sample_manager : string :=
  String.concat (String Cleanup.NEWLINE "")
    [ "from .biorxiv_extractor import BioRxivExtractor";
      "biorxiv = BioRxivExtractor(self.session)";
      "self.extractors.append(biorxiv)";
      "" ].

(** ** [LightweightNatureDownloader._parse_cookie_string]
    ([zotlink/legacy/downloader.py], lines 77 to 87) *)

Module Cookies.

(** [s.lstrip()] *)
Fixpoint lstrip (s : string) : string :=
  match s with
  | EmptyString => EmptyString
  | String c s' => if Str.is_space c then lstrip s' else s
  end.

(** [s.rstrip()] *)
Fixpoint rstrip (s : string) : string :=
  match s with
  | EmptyString => EmptyString
  | String c s' =>
      match rstrip s' with
      | EmptyString => if Str.is_space c then EmptyString else String c EmptyString
      | r => String c r
      end
  end.

(** [s.strip()] *)
Definition strip (s : string) : string := lstrip (rstrip s).

(** [s.split(sep, 1)] for an [s] that contains [sep]: what comes before
    the first [sep] and what comes after it. *)
Fixpoint split_once (sep : ascii) (s : string) : string * string :=
  match s with
  | EmptyString => (EmptyString, EmptyString)
  | String c s' =>
      if Ascii.eqb c sep then (EmptyString, s')
      else let (before, after) := split_once sep s' in (String c before, after)
  end.

(** The body of the loop: one [item] of the cookie string. *)
Definition add_item (cookies : gmap string string) (item : string)
  : gmap string string :=
  if Str.existsb (fun c => Ascii.eqb c "=") item
  then let (key, value) := split_once "=" (strip item) in
       <[key := value]> cookies
  else cookies.

Definition _parse_cookie_string (cookie_string : string) : gmap string string :=
  List.fold_left add_item (Path.split ";" cookie_string) ∅.

(** A cookie header: [k1=v1; k2=v2; ...]. *)
Definition render (pairs : list (string * string)) : string :=
  String.concat "; " (List.map (fun kv => fst kv ++ "=" ++ snd kv) pairs).

(** A name as a browser writes it: ASCII, no [;], no [=], no white space
    in front. *)
Definition plain_key (k : string) : bool :=
  ascii_text k
  && negb (Str.existsb (fun c => Ascii.eqb c ";") k)
  && negb (Str.existsb (fun c => Ascii.eqb c "=") k)
  && String.eqb (lstrip k) k.

(** A value as a browser writes it: ASCII, no [;], no white space at the
    end. *)
Definition plain_value (v : string) : bool :=
  ascii_text v
  && negb (Str.existsb (fun c => Ascii.eqb c ";") v)
  && String.eqb (rstrip v) v.

End Cookies.

(** ** Tactics *)


(** * Properties *)

(** ** The code on the inputs of the specification *)

Example date_sep_2025 : normalize_date "21 Sep 2025" = "2025-09-21".
Proof. reflexivity. Qed.

Example date_year_2024 : normalize_date "2024" = "2024-01-01".
Proof. reflexivity. Qed.

Example date_iso : normalize_date "2024/3/7" = "2024/3/7".
Proof. reflexivity. Qed.

Example date_lower : normalize_date "21 sep 2025" = "2025-01-21".
Proof. reflexivity. Qed.

Example date_year_newline :
  normalize_date (String.append "2024" (String "010" ""))
  = String.append "2024" (String "010" "-01-01").
Proof. reflexivity. Qed.

Example date_unknown : normalize_date UNKNOWN_DATE = UNKNOWN_DATE.
Proof. reflexivity. Qed.

Example date_search : normalize_date "121 Sep 20256" = "2025-09-21".
Proof. reflexivity. Qed.

Example parse_jane_john :
  Authors.parse_authors "Jane A. Doe, John Smith"
  = [Creator "author" "Jane A." "Doe"; Creator "author" "John" "Smith"].
Proof. reflexivity. Qed.

Example parse_x_y_and_z :
  Authors.parse_authors "X, Y and Z"
  = [Creator "author" "" "X"; Creator "author" "" "Y"; Creator "author" "" "Z"].
Proof. reflexivity. Qed.

Example parse_semicolons :
  Authors.parse_authors "Doe Jane; Smith John and Mary;"
  = [Creator "author" "Doe" "Jane"; Creator "author" "Smith John and" "Mary"].
Proof. reflexivity. Qed.

Example normalize_error_only :
  normalize "2026-01-02" {[ "error" := VStr "timeout" ]}
  = Ok (<["itemType" := VStr "journalArticle"]>
        {[ "accessDate" := VStr "2026-01-02" ]}).
Proof. vm_compute. reflexivity. Qed.

Example biorxiv_url_fields :
  let r := BioRxivDirectExtractor._extract_from_url
             "https://www.biorxiv.org/content/10.1101/2024.06.26.600822v2" in
  r !! "DOI" = Some (VStr "10.1101/2024.06.26.600822")
  /\ r !! "date" = Some (VStr "2024-06-26")
  /\ r !! "pdf_url"
     = Some (VStr "https://www.biorxiv.org/content/10.1101/2024.06.26.600822.full.pdf").
Proof. vm_compute. auto. Qed.


Example rewrite_manager_nature :
  Cleanup.rewrite_manager
    (String.concat (String Cleanup.NEWLINE "")
       [ "from .nature_extractor import NatureExtractor";
         "from .biorxiv_extractor import BioRxivExtractor";
         "        nature_extractor = NatureExtractor(self.session)";
         "        self.extractors.append(nature_extractor)";
         "        self.extractors.append(biorxiv)" ])
  = String.concat (String Cleanup.NEWLINE "")
       [ "from .biorxiv_extractor import BioRxivExtractor";
         "        self.extractors.append(biorxiv)" ].
Proof. vm_compute. reflexivity. Qed.
(** ** Strings and matching *)

Lemma app_assoc_str (a b c : string) : (a ++ b) ++ c = a ++ (b ++ c).
Proof. induction a as [| x a IH]; simpl; [done | by rewrite IH]. Qed.

Lemma app_nil_r_str (a : string) : a ++ "" = a.
Proof. induction a as [| x a IH]; simpl; [done | by rewrite IH]. Qed.

Lemma length_app_str (a b : string) :
  String.length (a ++ b) = String.length a + String.length b.
Proof. induction a as [| x a IH]; simpl; [done | by rewrite IH]. Qed.

Lemma take_app_length (a b : string) : Str.take (String.length a) (a ++ b) = a.
Proof. induction a as [| x a IH]; simpl; [by destruct b | by rewrite IH]. Qed.

Lemma drop_app_length (a b : string) : Str.drop (String.length a) (a ++ b) = b.
Proof. induction a as [| x a IH]; simpl; [by destruct b | done]. Qed.

Lemma existsb_app (f : ascii -> bool) (a b : string) :
  Str.existsb f (a ++ b) = Str.existsb f a || Str.existsb f b.
Proof.
  induction a as [| x a IH]; simpl; [done |]. by rewrite IH, orb_assoc.
Qed.

Lemma existsb_drop (f : ascii -> bool) (k : nat) (s : string) :
  Str.existsb f (Str.drop k s) = true -> Str.existsb f s = true.
Proof.
  revert s. induction k as [| k IH]; intros [| c s]; simpl; try done.
  intros H. rewrite (IH _ H). apply orb_true_r.
Qed.

Lemma existsb_none (f g : ascii -> bool) (s : string) :
  (forall c, g c = true -> f c = false) ->
  Str.forallb g s = true -> Str.existsb f s = false.
Proof.
  intros Hfg. induction s as [| c s IH]; simpl; [done |].
  intros [Hc Hs]%andb_true_iff. by rewrite (Hfg _ Hc), IH.
Qed.

Lemma concat_cons sep (p q : string) (qs : list string) :
  String.concat sep (p :: q :: qs) = p ++ sep ++ String.concat sep (q :: qs).
Proof. reflexivity. Qed.

(** *** Character classes *)

Lemma digit_is_word c : Str.is_digit c = true -> Str.is_word c = true.
Proof. unfold Str.is_word. by intros ->. Qed.

Lemma space_not_word c : Str.is_space c = true -> Str.is_word c = false.
Proof.
  unfold Str.is_space, Str.is_word, Str.is_digit, Str.between.
  destruct (Str.code c <=? 32)%nat eqn:E.
  - apply Nat.leb_le in E. intros _.
    repeat match goal with
           | |- context [(?a <=? ?b)%nat] =>
               destruct (Nat.leb_spec a b)
           | |- context [(?a =? ?b)%nat] =>
               destruct (Nat.eqb_spec a b)
           end; simpl; try done; lia.
  - rewrite !andb_false_r. apply Nat.leb_gt in E. simpl.
    destruct (Nat.leb_spec (Str.code c) 13); [lia |].
    by rewrite andb_false_r.
Qed.

Lemma word_not_space c : Str.is_word c = true -> Str.is_space c = false.
Proof.
  intros Hw. destruct (Str.is_space c) eqn:Hs; [| done].
  apply space_not_word in Hs. congruence.
Qed.

Lemma digit_not_space c : Str.is_digit c = true -> Str.is_space c = false.
Proof. intros H. by apply word_not_space, digit_is_word. Qed.

Lemma space_not_digit c : Str.is_space c = true -> Str.is_digit c = false.
Proof.
  intros Hs. destruct (Str.is_digit c) eqn:Hd; [| done].
  apply digit_not_space in Hd. congruence.
Qed.

Lemma digit_not_sep c : Str.is_digit c = true -> is_date_sep c = false.
Proof.
  unfold is_date_sep. destruct (Ascii.eqb_spec c "-") as [-> |]; [done |].
  destruct (Ascii.eqb_spec c "/") as [-> |]; done.
Qed.

Lemma sep_not_digit c : is_date_sep c = true -> Str.is_digit c = false.
Proof.
  intros Hs. destruct (Str.is_digit c) eqn:Hd; [| done].
  apply digit_not_sep in Hd. congruence.
Qed.

Lemma sep_not_space c : is_date_sep c = true -> Str.is_space c = false.
Proof.
  unfold is_date_sep. destruct (Ascii.eqb_spec c "-") as [-> |]; [done |].
  destruct (Ascii.eqb_spec c "/") as [-> |]; done.
Qed.

(** *** Runs *)

Lemma run_length_app cls (hi : option nat) (run rest : string) :
  Str.forallb cls run = true ->
  (forall h, hi = Some h -> String.length run <= h) ->
  hi = Some (String.length run) \/ stops_at cls rest = true ->
  Re.run_length cls hi (run ++ rest) = String.length run.
Proof.
  revert hi. induction run as [| c run IH]; intros hi Hall Hhi Hstop; simpl.
  - destruct Hstop as [-> | Hstop]; [by destruct rest |].
    destruct rest as [| c rest]; [by destruct hi as [[| h] |] |].
    simpl in Hstop. destruct hi as [[| h] |]; [done | |];
      simpl; by destruct (cls c).
  - simpl in Hall. apply andb_true_iff in Hall as [Hc Hall].
    destruct hi as [[| h] |].
    + specialize (Hhi 0 eq_refl). simpl in Hhi. lia.
    + rewrite Hc. f_equal. apply IH; [done | |].
      * intros h' [= <-]. specialize (Hhi (S h) eq_refl). simpl in Hhi. lia.
      * destruct Hstop as [[= ->] | Hstop]; [by left | by right].
    + rewrite Hc. f_equal. apply IH; [done | done |].
      destruct Hstop as [? | Hstop]; [done | by right].
Qed.

Lemma run_length_take cls (hi : option nat) (s : string) (k : nat) :
  k <= Re.run_length cls hi s ->
  Str.forallb cls (Str.take k s) = true
  /\ String.length (Str.take k s) = k
  /\ Str.take k s ++ Str.drop k s = s.
Proof.
  revert hi s. induction k as [| k IH]; intros hi s Hk; [by destruct s |].
  destruct s as [| c s].
  - exfalso. destruct hi as [[| h] |]; simpl in Hk; lia.
  - assert (Hc : cls c = true /\ k <= Re.run_length cls (pred <$> hi) s).
    { destruct hi as [[| h] |]; simpl in Hk |- *; [lia | |];
        revert Hk; destruct (cls c); intros Hk; (split; [done || lia | lia]). }
    destruct Hc as [Hc Hk'].
    destruct (IH _ _ Hk') as (H1 & H2 & H3).
    simpl. rewrite Hc, H1, H2, H3. done.
Qed.

Lemma run_length_bound cls (h : nat) (s : string) :
  Re.run_length cls (Some h) s <= h.
Proof.
  revert s. induction h as [| h IH]; intros s.
  - by destruct s.
  - destruct s as [| c s]; simpl; [lia |]. destruct (cls c); [| lia].
    specialize (IH s). lia.
Qed.

(** *** Backtracking *)

Lemma backtrack_first {R} (f : nat -> option R) (lo n : nat) (r : R) :
  lo <= n -> f n = Some r -> Re.backtrack f lo n = Some r.
Proof.
  intros Hlo Hf. destruct n; simpl.
  - destruct (Nat.ltb_spec 0 lo); [lia |]. by rewrite Hf.
  - destruct (Nat.ltb_spec (S n) lo); [lia |]. by rewrite Hf.
Qed.

Lemma backtrack_Some {R} (f : nat -> option R) (lo n : nat) (r : R) :
  Re.backtrack f lo n = Some r -> exists k, lo <= k <= n /\ f k = Some r.
Proof.
  induction n as [| n IH]; simpl.
  - destruct (Nat.ltb_spec 0 lo); [done |].
    destruct (f 0) eqn:E; [| done]. intros [= <-]. exists 0. split; [lia | done].
  - destruct (Nat.ltb_spec (S n) lo); [done |].
    destruct (f (S n)) eqn:E.
    + intros [= <-]. exists (S n). split; [lia | done].
    + intros H'. destruct (IH H') as (k & Hk & Hf). exists k. split; [lia | done].
Qed.

Lemma backtrack_None {R} (f : nat -> option R) (lo n : nat) :
  (forall k, lo <= k <= n -> f k = None) -> Re.backtrack f lo n = None.
Proof.
  induction n as [| n IH]; intros Hk; simpl.
  - destruct (Nat.ltb_spec 0 lo); [done |]. by rewrite (Hk 0) by lia.
  - destruct (Nat.ltb_spec (S n) lo); [done |].
    rewrite (Hk (S n)) by lia. apply IH. intros k ?. apply Hk. lia.
Qed.

(** The greedy attempt succeeds: a full run of the class followed by a
    match of the rest of the pattern. *)
Lemma match_rep_greedy cap cls lo hi p bol (run rest : string) gs rest' :
  Str.forallb cls run = true ->
  lo <= String.length run ->
  (forall h, hi = Some h -> String.length run <= h) ->
  hi = Some (String.length run) \/ stops_at cls rest = true ->
  Re.match_here p (bol && (String.length run =? 0)%nat) rest = Some (gs, rest') ->
  Re.match_here (Re.Rep cap cls lo hi :: p) bol (run ++ rest)
  = Some (if cap then run :: gs else gs, rest').
Proof.
  intros Hall Hlo Hhi Hstop Hrest. simpl.
  rewrite run_length_app by done.
  apply backtrack_first; [done |].
  by rewrite drop_app_length, take_app_length, Hrest.
Qed.

(** What a successful repetition has matched. *)
Lemma match_rep_inv cap cls lo hi p bol (s : string) gs rest :
  Re.match_here (Re.Rep cap cls lo hi :: p) bol s = Some (gs, rest) ->
  exists k gs',
    lo <= k <= Re.run_length cls hi s
    /\ Re.match_here p (bol && (k =? 0)%nat) (Str.drop k s) = Some (gs', rest)
    /\ gs = if cap then Str.take k s :: gs' else gs'.
Proof.
  simpl. intros H. apply backtrack_Some in H as (k & Hk & Hf).
  destruct (Re.match_here p _ _) as [[gs' rest''] |] eqn:E; [| done].
  injection Hf as <- <-. by exists k, gs'.
Qed.

Lemma search_from_here p bol (s : string) gs rest :
  Re.match_here p bol s = Some (gs, rest) -> Re.search_from p bol s = Some gs.
Proof. intros H. destruct s; simpl; by rewrite H. Qed.

Lemma search_from_None p (P : string -> bool) :
  (forall bol s, P s = true -> Re.match_here p bol s = None) ->
  (forall c s, P (String c s) = true -> P s = true) ->
  forall bol s, P s = true -> Re.search_from p bol s = None.
Proof.
  intros Hm Htail bol s. revert bol.
  induction s as [| c s IH]; intros bol HP; simpl; rewrite (Hm _ _ HP); [done |].
  apply IH. by apply (Htail c).
Qed.
(** ** Dictionaries *)

Lemma strip_empty_lookup (m : gmap string value) (k : string) (v : value) :
  strip_empty m !! k = Some v <-> m !! k = Some v /\ truthy v = true.
Proof. unfold strip_empty. by rewrite map_lookup_filter_Some. Qed.

Lemma strip_empty_lookup_None (m : gmap string value) (k : string) :
  strip_empty m !! k = None <->
  m !! k = None \/ exists v, m !! k = Some v /\ truthy v = false.
Proof.
  unfold strip_empty. rewrite map_lookup_filter_None. split.
  - intros [H | H]; [by left |].
    destruct (m !! k) as [v |] eqn:E; [right | by left].
    exists v. split; [done |]. specialize (H v eq_refl). simpl in H.
    by destruct (truthy v).
  - intros [H | (v & H & Hv)]; [by left | right].
    intros v' Hv'. simpl. congruence.
Qed.

Lemma copy_if_set_lookup_ne (p : gmap string value) (key k : string)
    (m : gmap string value) :
  key <> k -> copy_if_set p key m !! k = m !! k.
Proof.
  intros Hne. unfold copy_if_set.
  destruct (truthy _); [by rewrite lookup_insert_ne | done].
Qed.

Lemma build_item_Ok today authors p item :
  build_item today authors p = Ok item ->
  exists is_arxiv,
    Py.contains "arxiv.org" (Py.get p "url" (VStr "")) = Ok is_arxiv
    /\ item = strip_empty (zotero_item_fields today authors p is_arxiv).
Proof.
  unfold build_item.
  destruct (Py.contains _ _) as [b | e]; simpl; [| discriminate].
  intros [= <-]. by exists b.
Qed.

Lemma fields_lookup today authors p b (k : string) :
  k <> "accessDate" -> k <> "libraryCatalog" -> k <> "repository" -> k <> "DOI" ->
  zotero_item_fields today authors p b !! k
  = (<["itemType" := if b then VStr "preprint"
                     else Py.get p "itemType" (VStr "journalArticle")]>
     (<["title" := Py.get p "title" (VStr "")]>
     (<["creators" := VList authors]>
     (<["abstractNote" := Py.or (Py.get_none p "abstractNote")
                                (Py.get p "abstract" (VStr ""))]>
     (<["url" := Py.get p "url" (VStr "")]>
     (<["date" := normalize_date_value (Py.get p "date" (VStr ""))]>
        (∅ : gmap string value))))))) !! k.
Proof.
  intros H1 H2 H3 H4. unfold zotero_item_fields.
  rewrite lookup_insert_ne by done.
  by rewrite !copy_if_set_lookup_ne by done.
Qed.

(** Every result of the normaliser comes out of [build_item]. *)
Lemma normalize_built today p item :
  normalize today p = Ok item ->
  exists authors, build_item today authors p = Ok item.
Proof.
  unfold normalize, patched_convert_to_zotero_format, _convert_to_zotero_format.
  destruct (_ && _); [eauto |].
  destruct (truthy _); eauto.
Qed.
(** ** The normaliser *)

Lemma patched_is_build_item orig today p :
  truthy (Py.get_none p "authors") = false
  \/ (truthy (Py.get_none p "creators") && Py.is_list (Py.get_none p "creators")) = true ->
  exists authors,
    patched_convert_to_zotero_format orig today p = build_item today authors p.
Proof.
  unfold patched_convert_to_zotero_format. intros [H | H].
  - destruct (_ && _); [eauto |]. rewrite H. eauto.
  - rewrite H. eauto.
Qed.

Lemma normalize_is_build_item today p :
  exists authors, normalize today p = build_item today authors p.
Proof.
  unfold normalize, patched_convert_to_zotero_format, _convert_to_zotero_format.
  destruct (_ && _); [eauto |].
  destruct (truthy _); eauto.
Qed.

Lemma built_lookup today authors p b (k : string) (v : value) :
  strip_empty (zotero_item_fields today authors p b) !! k = Some v ->
  truthy v = true.
Proof. rewrite strip_empty_lookup. tauto. Qed.

Lemma truthy_not_empty (v : value) :
  truthy v = true ->
  v <> VNone /\ v <> VStr "" /\ v <> VList [] /\ v <> VBytes [] /\ v <> VInt 0.
Proof. intros H. repeat split; intros ->; discriminate. Qed.

(** The normaliser returns whenever the [url] field is a string, a list or
    missing. *)
Lemma normalize_returns today p :
  (forall b, Py.contains "arxiv.org" (Py.get p "url" (VStr "")) = Ok b ->
     exists item, normalize today p = Ok item).
Proof.
  intros b Hb. destruct (normalize_is_build_item today p) as [authors ->].
  unfold build_item. rewrite Hb. simpl. eauto.
Qed.

(** C3: the record returned by the normaliser holds no key whose value is
    falsy: no empty string, no [None], no empty collection (nor [0]). *)
Theorem normalize_omits_empty today p item (k : string) (v : value) :
  normalize today p = Ok item ->
  item !! k = Some v ->
  truthy v = true
  /\ v <> VNone /\ v <> VStr "" /\ v <> VList [] /\ v <> VBytes [] /\ v <> VInt 0.
Proof.
  intros Hn Hk.
  destruct (normalize_built _ _ _ Hn) as [authors Hb].
  destruct (build_item_Ok _ _ _ _ Hb) as (b & _ & ->).
  apply built_lookup in Hk. split; [done |]. by apply truthy_not_empty.
Qed.

Lemma normalize_omits_empty_witness :
  let p : gmap string value :=
    <["title" := VStr ""]> (<["DOI" := VNone]> {[ "date" := VStr "2024" ]}) in
  let item : gmap string value :=
    <["itemType" := VStr "journalArticle"]>
    (<["date" := VStr "2024-01-01"]> {[ "accessDate" := VStr "2026-11-03" ]}) in
  normalize "2026-11-03" p = Ok item
  /\ item !! "date" = Some (VStr "2024-01-01")
  /\ truthy (VStr "2024-01-01") = true.
Proof.
  intros p item.
  assert (Hn : normalize "2026-11-03" p = Ok item) by (vm_compute; reflexivity).
  assert (Hk : item !! "date" = Some (VStr "2024-01-01"))
    by (vm_compute; reflexivity).
  split; [exact Hn |]. split; [exact Hk |].
  exact (proj1 (normalize_omits_empty "2026-11-03" p item "date"
                  (VStr "2024-01-01") Hn Hk)).
Defined.

(** C7: a result whose url contains the arXiv marker ['arxiv.org'] is
    normalised to a record of item type ['preprint'], whatever its
    [itemType], [repository] and other fields say. *)
Theorem arxiv_url_is_preprint today p (u : string) :
  p !! "url" = Some (VStr u) ->
  Str.contains "arxiv.org" u = true ->
  exists item,
    normalize today p = Ok item /\ item !! "itemType" = Some (VStr "preprint").
Proof.
  intros Hu Hc. destruct (normalize_is_build_item today p) as [authors ->].
  unfold build_item, Py.get. rewrite Hu. simpl. rewrite Hc. simpl.
  eexists. split; [reflexivity |].
  apply strip_empty_lookup. split; [| done].
  rewrite fields_lookup by done. by rewrite lookup_insert_eq.
Qed.

Lemma arxiv_url_is_preprint_witness :
  exists item,
    normalize "2026-11-03"
      (<["url" := VStr "https://arxiv.org/abs/2301.00001"]>
        (<["itemType" := VStr "journalArticle"]> {[ "repository" := VStr "" ]}))
    = Ok item
    /\ item !! "itemType" = Some (VStr "preprint").
Proof.
  apply (arxiv_url_is_preprint "2026-11-03" _ "https://arxiv.org/abs/2301.00001").
  - vm_compute. reflexivity.
  - vm_compute. reflexivity.
Defined.
(** ** Structured creators *)

Lemma fields_ignore_authors today authors p b (a : value) :
  zotero_item_fields today authors (<["authors" := a]> p) b
  = zotero_item_fields today authors p b.
Proof.
  unfold zotero_item_fields, copy_if_set, Py.get_none, Py.get.
  by rewrite !lookup_insert_ne by done.
Qed.

Lemma build_item_ignores_authors today authors p (a : value) :
  build_item today authors (<["authors" := a]> p) = build_item today authors p.
Proof.
  unfold build_item.
  replace (Py.get (<["authors" := a]> p) "url" (VStr ""))
    with (Py.get p "url" (VStr ""))
    by (unfold Py.get; by rewrite lookup_insert_ne).
  destruct (Py.contains _ _); simpl; [| done].
  by rewrite fields_ignore_authors.
Qed.

Lemma patched_with_creators orig today p (l : list creator) :
  p !! "creators" = Some (VList l) -> l <> [] ->
  patched_convert_to_zotero_format orig today p
  = build_item today (take 15 l) p.
Proof.
  intros Hc Hl. unfold patched_convert_to_zotero_format, Py.get_none, Py.get.
  rewrite Hc. simpl. by destruct l.
Qed.

(** C1: when [creators] is a non-empty list, the record's creators are that
    list cut to its first 15 entries (same entries, same order), the
    [authors] string plays no part and the string parser is not called. *)
Theorem creators_used_directly orig today p (l : list creator) :
  p !! "creators" = Some (VList l) -> l <> [] ->
  (forall item,
     patched_convert_to_zotero_format orig today p = Ok item ->
     item !! "creators" = Some (VList (take 15 l)))
  /\ (forall b, Py.contains "arxiv.org" (Py.get p "url" (VStr "")) = Ok b ->
      exists item, patched_convert_to_zotero_format orig today p = Ok item)
  /\ length (take 15 l) <= 15
  /\ take 15 l `prefix_of` l
  /\ (forall i, i < 15 -> take 15 l !! i = l !! i)
  /\ (forall a : value,
        patched_convert_to_zotero_format orig today (<["authors" := a]> p)
        = patched_convert_to_zotero_format orig today p)
  /\ (forall orig',
        patched_convert_to_zotero_format orig' today p
        = patched_convert_to_zotero_format orig today p).
Proof.
  intros Hc Hl. repeat split.
  - intros item. rewrite (patched_with_creators _ _ _ _ Hc Hl).
    intros Hb. destruct (build_item_Ok _ _ _ _ Hb) as (b & _ & ->).
    apply strip_empty_lookup. split.
    + rewrite fields_lookup by done.
      rewrite lookup_insert_ne by done. rewrite lookup_insert_ne by done.
      by rewrite lookup_insert_eq.
    + by destruct l.
  - intros b Hb. rewrite (patched_with_creators _ _ _ _ Hc Hl).
    unfold build_item. rewrite Hb. simpl. eauto.
  - rewrite length_take. lia.
  - apply prefix_take.
  - intros i Hi. by apply lookup_take_lt.
  - intros a.
    rewrite (patched_with_creators orig today (<["authors" := a]> p) l);
      [| by rewrite lookup_insert_ne | done].
    rewrite (patched_with_creators _ _ _ _ Hc Hl).
    apply build_item_ignores_authors.
  - intros orig'. by rewrite !(patched_with_creators _ _ _ _ Hc Hl).
Qed.

Lemma creators_used_directly_witness :
  let l := [Creator "author" "Jane A." "Doe"; Creator "author" "John" "Smith"] in
  let p : gmap string value :=
    <["creators" := VList l]>
    (<["authors" := VStr "Somebody Else"]>
    {[ "url" := VStr "https://www.nature.com/articles/x" ]}) in
  p !! "creators" = Some (VList l) /\ l <> []
  /\ forall item,
       patched_convert_to_zotero_format (_convert_to_zotero_format "2026-11-03")
         "2026-11-03" p = Ok item ->
       item !! "creators" = Some (VList (take 15 l)).
Proof.
  intros l p.
  assert (Hc : p !! "creators" = Some (VList l)) by (vm_compute; reflexivity).
  assert (Hl : l <> []) by discriminate.
  split; [exact Hc |]. split; [exact Hl |].
  exact (proj1 (creators_used_directly
                  (_convert_to_zotero_format "2026-11-03") "2026-11-03" p l Hc Hl)).
Defined.

(** ** Titles *)

Lemma built_title today authors p b :
  strip_empty (zotero_item_fields today authors p b) !! "title"
  = if truthy (Py.get p "title" (VStr ""))
    then Some (Py.get p "title" (VStr "")) else None.
Proof.
  destruct (truthy (Py.get p "title" (VStr ""))) eqn:Ht.
  - apply strip_empty_lookup. split; [| done].
    rewrite fields_lookup by done.
    rewrite lookup_insert_ne by done. by rewrite lookup_insert_eq.
  - apply strip_empty_lookup_None. right. eexists. split; [| exact Ht].
    rewrite fields_lookup by done.
    rewrite lookup_insert_ne by done. by rewrite lookup_insert_eq.
Qed.

Lemma title_or_cases placeholder result paper_title :
  title_or placeholder result paper_title
  = if truthy (Py.get_none result "title") then Py.get_none result "title"
    else if truthy paper_title then paper_title
    else VStr placeholder.
Proof.
  unfold title_or, Py.or.
  destruct (truthy (Py.get_none result "title")) eqn:H1; [by rewrite H1 | done].
Qed.

(** C5: the title shown is the first non-empty of the extractor's title,
    the caller's title and the placeholder, on the plain branch as on the
    arXiv branch (whose placeholder names the arXiv identifier); the record
    itself carries the title of [paper_info] or none at all: the
    placeholder is never written into it, and an empty title stays
    empty. *)
Theorem title_precedence :
  (forall result paper_title,
     (truthy (Py.get_none result "title") = true ->
      actual_title result paper_title = Py.get_none result "title")
     /\ (truthy (Py.get_none result "title") = false ->
         truthy paper_title = true ->
         actual_title result paper_title = paper_title)
     /\ (truthy (Py.get_none result "title") = false ->
         truthy paper_title = false ->
         actual_title result paper_title = VStr TITLE_PENDING))
  /\ (forall arxiv_id result paper_title,
        (truthy (Py.get_none result "title") = true ->
         actual_title_arxiv arxiv_id result paper_title
         = Py.get_none result "title")
        /\ (truthy (Py.get_none result "title") = false ->
            truthy paper_title = true ->
            actual_title_arxiv arxiv_id result paper_title = paper_title)
        /\ (truthy (Py.get_none result "title") = false ->
            truthy paper_title = false ->
            actual_title_arxiv arxiv_id result paper_title
            = VStr ("arXiv:" ++ arxiv_id ++ " (" ++ TITLE_PENDING ++ ")")))
  /\ (forall today p item,
        normalize today p = Ok item ->
        item !! "title"
        = if truthy (Py.get p "title" (VStr ""))
          then Some (Py.get p "title" (VStr "")) else None)
  /\ (forall today p item,
        normalize today p = Ok item ->
        Py.get p "title" (VStr "") = VStr "" ->
        item !! "title" = None /\ Py.get item "title" (VStr "") = VStr "")
  /\ (forall today p item,
        normalize today p = Ok item ->
        item !! "title" = Some (VStr TITLE_PENDING) ->
        p !! "title" = Some (VStr TITLE_PENDING)).
Proof.
  assert (Ht : forall today p item,
            normalize today p = Ok item ->
            item !! "title"
            = if truthy (Py.get p "title" (VStr ""))
              then Some (Py.get p "title" (VStr "")) else None).
  { intros today p item Hn.
    destruct (normalize_built _ _ _ Hn) as [authors Hb].
    destruct (build_item_Ok _ _ _ _ Hb) as (b & _ & ->).
    apply built_title. }
  split; [| split; [| split; [| split]]].
  - intros result paper_title. unfold actual_title. rewrite title_or_cases.
    repeat split; intros H1; rewrite H1; try done; by intros ->.
  - intros arxiv_id result paper_title. unfold actual_title_arxiv.
    rewrite title_or_cases.
    repeat split; intros H1; rewrite H1; try done; by intros ->.
  - exact Ht.
  - intros today p item Hn He. pose proof (Ht _ _ _ Hn) as H.
    rewrite He in H. simpl in H. split; [done |].
    unfold Py.get. by rewrite H.
  - intros today p item Hn Hs. pose proof (Ht _ _ _ Hn) as H.
    rewrite Hs in H. unfold Py.get in H.
    destruct (p !! "title") as [v |]; simpl in H.
    + destruct (truthy v); congruence.
    + discriminate.
Qed.

Lemma title_precedence_witness :
  let p : gmap string value :=
    <["title" := VStr ""]> {[ "url" := VStr "https://www.biorxiv.org/x" ]} in
  let item : gmap string value :=
    <["itemType" := VStr "journalArticle"]>
    (<["url" := VStr "https://www.biorxiv.org/x"]>
    {[ "accessDate" := VStr "2026-11-03" ]}) in
  normalize "2026-11-03" p = Ok item
  /\ Py.get p "title" (VStr "") = VStr ""
  /\ item !! "title" = None /\ Py.get item "title" (VStr "") = VStr "".
Proof.
  intros p item.
  assert (Hn : normalize "2026-11-03" p = Ok item) by (vm_compute; reflexivity).
  assert (He : Py.get p "title" (VStr "") = VStr "") by (vm_compute; reflexivity).
  split; [exact Hn |]. split; [exact He |].
  exact (proj1 (proj2 (proj2 (proj2 title_precedence))) "2026-11-03" p item Hn He).
Defined.
(** ** Faulted results *)


Lemma initial_paper_info_lookup url metadata (k : string) :
  initial_paper_info url metadata !! k
  = if decide (k = "creators") then metadata !! "creators"
    else if decide (k = "authors") then metadata !! "authors"
    else if decide (k = "title")
         then Some (Py.get metadata "title" (VStr "Unknown"))
    else if decide (k = "url") then Some (VStr url)
    else None.
Proof.
  unfold initial_paper_info, copy_if_present.
  repeat case_decide; subst;
    repeat match goal with
           | |- context [match metadata !! ?key with _ => _ end] =>
               destruct (metadata !! key) eqn:?
           end;
    repeat (first [ rewrite lookup_insert_eq | rewrite lookup_insert_ne by done ]);
    try done; by rewrite ?lookup_empty.
Qed.



Section TraceFacts.

Variable extract arxiv : string -> result (gmap string value).
Variable enhance orig : gmap string value -> result (gmap string value).



End TraceFacts.


(** ** The bioRxiv extractor *)

Section BioRxiv.

Variable download : value -> option (list Byte.byte).

Lemma biorxiv_not_handled url :
  BioRxivDirectExtractor.can_handle url = false ->
  BioRxivDirectExtractor.extract_metadata download url = Ok ∅.
Proof.
  intros H. unfold BioRxivDirectExtractor.extract_metadata. by rewrite H.
Qed.

(** The full record, possibly with the downloaded PDF added. *)
Lemma biorxiv_with_doi url year month day version :
  BioRxivDirectExtractor.can_handle url = true ->
  Re.search BioRxivDirectExtractor.DOI_PATTERN url
  = Some [year; month; day; version] ->
  exists r,
    BioRxivDirectExtractor.extract_metadata download url = Ok r
    /\ r !! "itemType" = Some (VStr "preprint")
    /\ r !! "DOI"
       = Some (VStr ("10.1101/" ++ year ++ "." ++ month ++ "." ++ day
                     ++ "." ++ version))
    /\ r !! "date" = Some (VStr (year ++ "-" ++ month ++ "-" ++ day))
    /\ r !! "archiveID"
       = Some (VStr (year ++ "." ++ month ++ "." ++ day ++ "." ++ version))
    /\ r !! "pdf_url"
       = Some (VStr ("https://www.biorxiv.org/content/10.1101/"
                     ++ (year ++ "." ++ month ++ "." ++ day ++ "." ++ version)
                     ++ ".full.pdf"))
    /\ r !! "error" = None.
Proof.
  intros Hc Hs. unfold BioRxivDirectExtractor.extract_metadata.
  rewrite Hc. simpl.
  unfold BioRxivDirectExtractor._extract_from_url. rewrite Hs.
  set (m := BioRxivDirectExtractor.metadata_of url year month day version).
  assert (Hm : forall k : string,
             k <> "pdf_size" -> k <> "pdf_content" ->
             forall b, (<["pdf_size" := VInt (Z.of_nat (length b))]>
                          (<["pdf_content" := VBytes b]> m)) !! k = m !! k).
  { intros k H1 H2 b. by rewrite !lookup_insert_ne by done. }
  assert (Hp : Py.item m "pdf_url"
               = Ok (VStr ("https://www.biorxiv.org/content/10.1101/"
                      ++ (year ++ "." ++ month ++ "." ++ day ++ "." ++ version)
                      ++ ".full.pdf"))).
  { unfold Py.item, m, BioRxivDirectExtractor.metadata_of.
    rewrite !lookup_insert_ne by done. by rewrite lookup_insert_eq. }
  rewrite Hp. simpl.
  assert (Hfields :
    m !! "itemType" = Some (VStr "preprint")
    /\ m !! "DOI"
       = Some (VStr ("10.1101/" ++ year ++ "." ++ month ++ "." ++ day
                     ++ "." ++ version))
    /\ m !! "date" = Some (VStr (year ++ "-" ++ month ++ "-" ++ day))
    /\ m !! "archiveID"
       = Some (VStr (year ++ "." ++ month ++ "." ++ day ++ "." ++ version))
    /\ m !! "pdf_url"
       = Some (VStr ("https://www.biorxiv.org/content/10.1101/"
                     ++ (year ++ "." ++ month ++ "." ++ day ++ "." ++ version)
                     ++ ".full.pdf"))
    /\ m !! "error" = None).
  { unfold m, BioRxivDirectExtractor.metadata_of.
    repeat split;
      repeat (first [ by rewrite lookup_insert_eq
                    | rewrite lookup_insert_ne by done ]);
      by rewrite lookup_empty. }
  destruct (download _) as [[| b bs] |]; [eauto | | eauto].
  eexists. split; [reflexivity |].
  by rewrite !Hm by done.
Qed.

(** A bioRxiv URL without a DOI: [_extract_from_url] answers with the
    error record, which has no ['pdf_url'], and the lookup of that key in
    [extract_metadata] raises. *)
Lemma biorxiv_without_doi url :
  BioRxivDirectExtractor.can_handle url = true ->
  Re.search BioRxivDirectExtractor.DOI_PATTERN url = None ->
  BioRxivDirectExtractor._extract_from_url url
  = {[ "error" := VStr BioRxivDirectExtractor.NO_DOI ]}
  /\ BioRxivDirectExtractor.extract_metadata download url
     = Raise (KeyError "pdf_url").
Proof.
  intros Hc Hs. unfold BioRxivDirectExtractor.extract_metadata.
  rewrite Hc. simpl.
  unfold BioRxivDirectExtractor._extract_from_url. rewrite Hs.
  split; [done |]. unfold Py.item.
  by rewrite lookup_singleton_ne.
Qed.

End BioRxiv.

(** C10: on a bioRxiv URL with a DOI of the older form [10.1101/NNNNNN],
    which the pattern does not match, [extract_metadata] does not return
    the record with the [error] field that [_extract_from_url] made: it
    raises [KeyError('pdf_url')]. *)
Theorem biorxiv_error_record_raises download :
  let url := "https://www.biorxiv.org/content/10.1101/622803v1" in
  BioRxivDirectExtractor.can_handle url = true
  /\ BioRxivDirectExtractor._extract_from_url url
     = {[ "error" := VStr BioRxivDirectExtractor.NO_DOI ]}
  /\ BioRxivDirectExtractor.extract_metadata download url
     = Raise (KeyError "pdf_url").
Proof.
  intros url.
  assert (Hc : BioRxivDirectExtractor.can_handle url = true)
    by (vm_compute; reflexivity).
  split; [exact Hc |].
  apply biorxiv_without_doi; [exact Hc |]. vm_compute. reflexivity.
Qed.
(** ** Dates: matching lemmas *)

Lemma run_of_spec cls lo hi (s : string) :
  run_of cls lo hi s = true ->
  Str.forallb cls s = true
  /\ lo <= String.length s
  /\ (forall h, hi = Some h -> String.length s <= h).
Proof.
  unfold run_of. intros [[H1 H2]%andb_true_iff H3]%andb_true_iff.
  apply Nat.leb_le in H2. repeat split; [done.. |].
  intros h ->. by apply Nat.leb_le.
Qed.

Lemma run_of_head cls lo hi (s : string) :
  run_of cls (S lo) hi s = true ->
  exists c s', s = String c s' /\ cls c = true.
Proof.
  intros (Hall & Hlo & _)%run_of_spec. destruct s as [| c s]; simpl in *; [lia |].
  apply andb_true_iff in Hall as [Hc _]. eauto.
Qed.

(** A run, then something that stops it, then a match of the rest. *)
Lemma match_run cap cls lo hi p bol (run rest : string) gs rest' :
  run_of cls (S lo) hi run = true ->
  hi = Some (String.length run) \/ stops_at cls rest = true ->
  Re.match_here p false rest = Some (gs, rest') ->
  Re.match_here (Re.Rep cap cls (S lo) hi :: p) bol (run ++ rest)
  = Some (if cap then run :: gs else gs, rest').
Proof.
  intros Hrun Hstop Hrest.
  destruct (run_of_spec _ _ _ _ Hrun) as (Hall & Hlo & Hhi).
  apply match_rep_greedy; try done.
  destruct run; simpl in *; [lia |]. by rewrite andb_false_r.
Qed.

Lemma stops_at_app cls (f : ascii -> bool) lo hi (s rest : string) :
  (forall c, f c = true -> cls c = false) ->
  run_of f (S lo) hi s = true ->
  stops_at cls (s ++ rest) = true.
Proof.
  intros Hf (c & s' & -> & Hc)%run_of_head. simpl. by rewrite (Hf _ Hc).
Qed.

(** The day-month-year pattern on a string that begins with such a date. *)
Lemma dmy_match bol (day ws1 month_name ws2 year rest : string) :
  run_of Str.is_digit 1 (Some 2) day = true ->
  run_of Str.is_space 1 None ws1 = true ->
  run_of Str.is_word 1 None month_name = true ->
  run_of Str.is_space 1 None ws2 = true ->
  run_of Str.is_digit 4 (Some 4) year = true ->
  Re.match_here DATE_DMY bol (day ++ ws1 ++ month_name ++ ws2 ++ year ++ rest)
  = Some ([day; month_name; year], rest).
Proof.
  intros Hd H1 Hm H2 Hy. unfold DATE_DMY, Re.digits.
  apply (match_run true); [done | | ].
  { right. by apply (stops_at_app _ _ _ _ _ _ space_not_digit H1). }
  apply (match_run false); [done | | ].
  { right. by apply (stops_at_app _ _ _ _ _ _ word_not_space Hm). }
  apply (match_run true); [done | | ].
  { right. by apply (stops_at_app _ _ _ _ _ _ space_not_word H2). }
  apply (match_run false); [done | | ].
  { right. by apply (stops_at_app _ _ _ _ _ _ digit_not_space Hy). }
  apply (match_run true); [done | | done].
  left. destruct (run_of_spec _ _ _ _ Hy) as (_ & Hlo & Hhi).
  specialize (Hhi 4 eq_refl). f_equal. lia.
Qed.

(** The day-month-year pattern needs white space in the subject. *)
Lemma dmy_needs_space bol (s : string) r :
  Re.match_here DATE_DMY bol s = Some r -> Str.existsb Str.is_space s = true.
Proof.
  destruct r as [gs rest]. unfold DATE_DMY, Re.digits.
  intros (k1 & gs1 & Hk1 & H & _)%match_rep_inv.
  apply match_rep_inv in H as (k2 & gs2 & Hk2 & _ & _).
  apply (existsb_drop _ k1).
  destruct (Str.drop k1 s) as [| c s']; simpl in Hk2; [lia |].
  simpl. destruct (Str.is_space c); [done | lia].
Qed.

Lemma dmy_search_needs_space (s : string) :
  Str.existsb Str.is_space s = false -> Re.search DATE_DMY s = None.
Proof.
  intros Hs. unfold Re.search.
  apply (search_from_None DATE_DMY (fun s => negb (Str.existsb Str.is_space s))).
  - intros bol s' Hs'. destruct (Re.match_here DATE_DMY bol s') eqn:E; [| done].
    apply dmy_needs_space in E. by rewrite E in Hs'.
  - intros c s'. simpl. by destruct (Str.is_space c).
  - by rewrite Hs.
Qed.

Lemma run_of_weaken cls lo lo' hi (s : string) :
  lo' <= lo -> run_of cls lo hi s = true -> run_of cls lo' hi s = true.
Proof.
  unfold run_of. intros Hlo [[H1 H2]%andb_true_iff H3]%andb_true_iff.
  rewrite H1, H3. apply Nat.leb_le in H2.
  by rewrite (proj2 (Nat.leb_le _ _)) by lia.
Qed.

Lemma run_of_no_space cls lo hi (s : string) :
  (forall c, cls c = true -> Str.is_space c = false) ->
  run_of cls lo hi s = true -> Str.existsb Str.is_space s = false.
Proof.
  intros Hcls (Hall & _)%run_of_spec. by apply (existsb_none _ cls).
Qed.

(** The guard [date and date != '未知日期'] on a date that starts with a digit. *)
Lemma guard_digit (date rest : string) lo hi :
  run_of Str.is_digit (S lo) hi date = true ->
  Str.nonempty (date ++ rest)
  && negb (String.eqb (date ++ rest) UNKNOWN_DATE) = true.
Proof.
  intros (c & s & -> & Hc)%run_of_head. simpl.
  destruct (Ascii.eqb_spec c "230") as [-> | _]; [by vm_compute in Hc | done].
Qed.

Lemma normalize_date_no_rule (date : string) :
  Re.search DATE_DMY date = None ->
  Re.matches DATE_YEAR date = false ->
  normalize_date date = date.
Proof.
  intros H1 H3. unfold normalize_date, parse_date. rewrite H1, H3.
  destruct (_ && _); [| done]. by destruct (Re.matches DATE_YMD date).
Qed.

Lemma normalize_date_ymd (date : string) :
  Re.search DATE_DMY date = None ->
  Re.matches DATE_YMD date = true ->
  normalize_date date = date.
Proof.
  intros H1 H2. unfold normalize_date, parse_date. rewrite H1, H2.
  by destruct (_ && _).
Qed.

(** The year-month-day pattern on an ISO-like date. *)
Lemma ymd_match bol (year sep1 month sep2 day : string) :
  run_of Str.is_digit 4 (Some 4) year = true ->
  run_of is_date_sep 1 (Some 1) sep1 = true ->
  run_of Str.is_digit 1 (Some 2) month = true ->
  run_of is_date_sep 1 (Some 1) sep2 = true ->
  run_of Str.is_digit 1 (Some 2) day = true ->
  Re.match_here DATE_YMD bol (year ++ sep1 ++ month ++ sep2 ++ day ++ "")
  = Some ([year; month; day], "").
Proof.
  intros Hy H1 Hm H2 Hd. unfold DATE_YMD, Re.digits.
  assert (Hlen : forall cls n s,
            run_of cls n (Some n) s = true -> Some n = Some (String.length s)).
  { intros cls n s (_ & Hlo & Hhi)%run_of_spec.
    specialize (Hhi n eq_refl). f_equal. lia. }
  apply (match_run true); [done | left; by apply (Hlen _ _ _ Hy) |].
  apply (match_run false); [done | left; by apply (Hlen _ _ _ H1) |].
  apply (match_run true); [done | | ].
  { right. by apply (stops_at_app _ _ _ _ _ _ sep_not_digit H2). }
  apply (match_run false); [done | left; by apply (Hlen _ _ _ H2) |].
  apply (match_run true); [done | by right | done].
Qed.

Lemma iso_like_unchanged (year sep1 month sep2 day : string) :
  run_of Str.is_digit 4 (Some 4) year = true ->
  run_of is_date_sep 1 (Some 1) sep1 = true ->
  run_of Str.is_digit 1 (Some 2) month = true ->
  run_of is_date_sep 1 (Some 1) sep2 = true ->
  run_of Str.is_digit 1 (Some 2) day = true ->
  normalize_date (year ++ sep1 ++ month ++ sep2 ++ day)
  = year ++ sep1 ++ month ++ sep2 ++ day.
Proof.
  intros Hy H1 Hm H2 Hd. apply normalize_date_ymd.
  - apply dmy_search_needs_space. rewrite !existsb_app.
    rewrite (run_of_no_space _ _ _ _ digit_not_space Hy).
    rewrite (run_of_no_space _ _ _ _ sep_not_space H1).
    rewrite (run_of_no_space _ _ _ _ digit_not_space Hm).
    rewrite (run_of_no_space _ _ _ _ sep_not_space H2).
    by rewrite (run_of_no_space _ _ _ _ digit_not_space Hd).
  - unfold Re.matches, Re.search.
    rewrite <- (app_nil_r_str day).
    by rewrite (search_from_here _ _ _ _ _ (ymd_match true _ _ _ _ _ Hy H1 Hm H2 Hd)).
Qed.

Lemma zfill_day (day : string) :
  run_of Str.is_digit 1 (Some 2) day = true ->
  String.length (Str.zfill 2 day) = 2
  /\ Str.forallb Str.is_digit (Str.zfill 2 day) = true
  /\ (String.length day = 2 -> Str.zfill 2 day = day)
  /\ (String.length day = 1 -> Str.zfill 2 day = String "0" day).
Proof.
  intros (Hall & Hlo & Hhi)%run_of_spec. specialize (Hhi 2 eq_refl).
  destruct day as [| c [| c' [| c'' day]]]; simpl in *; try lia.
  - apply andb_true_iff in Hall as [Hc _].
    assert (Hs : (Ascii.eqb c "+" || Ascii.eqb c "-")%bool = false).
    { destruct (Ascii.eqb_spec c "+") as [-> |]; [by vm_compute in Hc |].
      destruct (Ascii.eqb_spec c "-") as [-> |]; [by vm_compute in Hc | done]. }
    unfold Str.zfill. rewrite Hs. simpl. rewrite Hc.
    repeat split; try done; lia.
  - apply andb_true_iff in Hall as [Hc [Hc' _]%andb_true_iff].
    assert (Hs : (Ascii.eqb c "+" || Ascii.eqb c "-")%bool = false).
    { destruct (Ascii.eqb_spec c "+") as [-> |]; [by vm_compute in Hc |].
      destruct (Ascii.eqb_spec c "-") as [-> |]; [by vm_compute in Hc | done]. }
    unfold Str.zfill. rewrite Hs. simpl. rewrite Hc, Hc'.
    repeat split; try done; lia.
Qed.

Lemma table_get_months_key (k v : string) :
  In (k, v) months -> table_get months k "01" = v.
Proof.
  simpl. intros H.
  repeat (destruct H as [[= <- <-] | H]; [reflexivity |]). done.
Qed.

Lemma table_get_months_default (key : string) :
  (forall k v, In (k, v) months -> key <> k) ->
  table_get months key "01" = "01".
Proof.
  intros H. unfold months at 1. cbn [table_get].
  repeat match goal with
         | |- context [String.eqb ?k key] =>
             destruct (String.eqb_spec k key) as [E | _];
             [exfalso; symmetry in E; revert E; eapply (H k); simpl;
              repeat (first [left; reflexivity | right]) |]
         end.
  done.
Qed.

Lemma ymd_needs_sep bol (s : string) r :
  Re.match_here DATE_YMD bol s = Some r -> Str.existsb is_date_sep s = true.
Proof.
  destruct r as [gs rest]. unfold DATE_YMD, Re.digits.
  intros (k1 & gs1 & Hk1 & H & _)%match_rep_inv.
  apply match_rep_inv in H as (k2 & gs2 & Hk2 & _ & _).
  apply (existsb_drop _ k1).
  destruct (Str.drop k1 s) as [| c s']; simpl in Hk2; [lia |].
  simpl. destruct (is_date_sep c); [done | lia].
Qed.

Lemma ymd_search_needs_sep (s : string) :
  Str.existsb is_date_sep s = false -> Re.matches DATE_YMD s = false.
Proof.
  intros Hs. unfold Re.matches, Re.search.
  rewrite (search_from_None DATE_YMD (fun s => negb (Str.existsb is_date_sep s)));
    [done | | | by rewrite Hs].
  - intros bol s' Hs'. destruct (Re.match_here DATE_YMD bol s') eqn:E; [| done].
    apply ymd_needs_sep in E. by rewrite E in Hs'.
  - intros c s'. simpl. by destruct (is_date_sep c).
Qed.

Lemma year_match (year : string) :
  run_of Str.is_digit 4 (Some 4) year = true ->
  Re.matches DATE_YEAR year = true.
Proof.
  intros Hy. unfold Re.matches, Re.search.
  assert (Hm : Re.match_here DATE_YEAR true (year ++ "") = Some ([], "")).
  { change (Re.match_here
              (Re.Rep false Str.is_digit 4 (Some 4) :: [Re.Eol]) true (year ++ "")
            = Some ([], "")).
    apply (match_run false); [done | by right | done]. }
  rewrite app_nil_r_str in Hm. by rewrite (search_from_here _ _ _ _ _ Hm).
Qed.

Lemma search_from_Some p bol (s : string) gs :
  Re.search_from p bol s = Some gs ->
  exists bol' s' rest, Re.match_here p bol' s' = Some (gs, rest).
Proof.
  revert bol. induction s as [| c s IH]; intros bol; simpl.
  - destruct (Re.match_here p bol "") as [[gs' rest] |] eqn:E; [| done].
    intros [= <-]. eauto.
  - destruct (Re.match_here p bol (String c s)) as [[gs' rest] |] eqn:E.
    + intros [= <-]. eauto.
    + apply IH.
Qed.

Lemma run_of_take cls lo hi (s : string) (k : nat) :
  lo <= k <= Re.run_length cls hi s ->
  run_of cls lo hi (Str.take k s) = true.
Proof.
  intros [Hlo Hk]. destruct (run_length_take cls hi s k Hk) as (Hall & Hlen & _).
  unfold run_of. rewrite Hall, Hlen. rewrite (proj2 (Nat.leb_le _ _) Hlo).
  destruct hi as [h |]; [| done]. simpl. apply Nat.leb_le.
  pose proof (run_length_bound cls h s). lia.
Qed.

Lemma count_spaces_drop (k : nat) (s : string) :
  count_spaces (Str.drop k s) <= count_spaces s.
Proof.
  revert s. induction k as [| k IH]; intros [| c s]; simpl; try lia.
  specialize (IH s). lia.
Qed.

Lemma count_spaces_run hi (k : nat) (s : string) :
  k <= Re.run_length Str.is_space hi s ->
  k + count_spaces (Str.drop k s) <= count_spaces s.
Proof.
  revert hi s. induction k as [| k IH]; intros hi s Hk; [by destruct s |].
  destruct s as [| c s].
  - exfalso. destruct hi as [[| h] |]; simpl in Hk; lia.
  - destruct hi as [[| h] |]; simpl in Hk |- *; [lia | |];
      revert Hk; destruct (Str.is_space c); intros Hk; try lia.
    + specialize (IH (Some h) s). simpl in IH. lia.
    + specialize (IH None s). simpl in IH. lia.
Qed.

(** What a match of the day-month-year pattern has captured. *)
Lemma dmy_match_inv bol (s : string) gs rest :
  Re.match_here DATE_DMY bol s = Some (gs, rest) ->
  exists day month_name year,
    gs = [day; month_name; year]
    /\ run_of Str.is_digit 1 (Some 2) day = true
    /\ run_of Str.is_word 1 None month_name = true
    /\ run_of Str.is_digit 4 (Some 4) year = true
    /\ 2 <= count_spaces s.
Proof.
  unfold DATE_DMY, Re.digits.
  intros (k1 & g1 & Hk1 & H & ->)%match_rep_inv.
  apply match_rep_inv in H as (k2 & g2 & Hk2 & H & ->).
  apply match_rep_inv in H as (k3 & g3 & Hk3 & H & ->).
  apply match_rep_inv in H as (k4 & g4 & Hk4 & H & ->).
  apply match_rep_inv in H as (k5 & g5 & Hk5 & H & ->).
  simpl in H. injection H as <- <-.
  eexists _, _, _. split; [reflexivity |].
  split; [by apply run_of_take |].
  split; [by apply run_of_take |].
  split; [by apply run_of_take |].
  pose proof (count_spaces_drop k1 s) as H1.
  pose proof (count_spaces_run None k2 (Str.drop k1 s) (proj2 Hk2)) as H2.
  pose proof (count_spaces_drop k3 (Str.drop k2 (Str.drop k1 s))) as H3.
  pose proof (count_spaces_run None k4 _ (proj2 Hk4)) as H4.
  lia.
Qed.

Lemma count_spaces_tail c (s : string) :
  count_spaces s <= count_spaces (String c s).
Proof. simpl. lia. Qed.

Lemma dmy_search_inv (date : string) gs :
  Re.search DATE_DMY date = Some gs ->
  exists day month_name year,
    gs = [day; month_name; year]
    /\ run_of Str.is_digit 1 (Some 2) day = true
    /\ run_of Str.is_word 1 None month_name = true
    /\ run_of Str.is_digit 4 (Some 4) year = true.
Proof.
  intros (bol & s & rest & H)%search_from_Some.
  apply dmy_match_inv in H as (d & m & y & ? & ? & ? & ? & _). eauto 10.
Qed.

Lemma dmy_search_two_spaces (s : string) :
  count_spaces s < 2 -> Re.search DATE_DMY s = None.
Proof.
  intros Hs. unfold Re.search.
  apply (search_from_None DATE_DMY (fun s => (count_spaces s <? 2)%nat)).
  - intros bol s' Hs'. apply Nat.ltb_lt in Hs'.
    destruct (Re.match_here DATE_DMY bol s') as [[gs rest] |] eqn:E; [| done].
    apply dmy_match_inv in E as (? & ? & ? & _ & _ & _ & _ & ?). lia.
  - intros c s' H. apply Nat.ltb_lt in H. apply Nat.ltb_lt.
    pose proof (count_spaces_tail c s'). lia.
  - by apply Nat.ltb_lt.
Qed.

Lemma dmy_search_guard (date : string) gs :
  Re.search DATE_DMY date = Some gs ->
  Str.nonempty date && negb (String.eqb date UNKNOWN_DATE) = true.
Proof.
  intros H. destruct date as [| c date]; [by vm_compute in H |].
  simpl Str.nonempty. rewrite andb_true_l. apply negb_true_iff.
  destruct (String.eqb_spec (String c date) UNKNOWN_DATE) as [E |]; [| done].
  rewrite E in H. by vm_compute in H.
Qed.

Lemma month_number_two_digits (key : string) :
  run_of Str.is_digit 2 (Some 2) (table_get months key "01") = true.
Proof.
  unfold months. cbn [table_get].
  repeat match goal with
         | |- context [String.eqb ?k key] => destruct (String.eqb k key)
         end; reflexivity.
Qed.

Lemma zfill_day_run (day : string) :
  run_of Str.is_digit 1 (Some 2) day = true ->
  run_of Str.is_digit 2 (Some 2) (Str.zfill 2 day) = true.
Proof.
  intros Hd. destruct (zfill_day _ Hd) as (Hlen & Hall & _).
  unfold run_of. by rewrite Hall, Hlen.
Qed.

Lemma canonical_date_fixed (s : string) :
  canonical_date s -> normalize_date s = s.
Proof.
  intros (y & m & d & -> & Hy & Hm & Hd).
  apply iso_like_unchanged; try done;
    (apply (run_of_weaken _ 2); [lia | done]).
Qed.

Lemma search_from_unfold p bol (s : string) :
  Re.search_from p bol s
  = match Re.match_here p bol s with
    | Some (gs, _) => Some gs
    | None =>
        match s with
        | EmptyString => None
        | String _ s' => Re.search_from p false s'
        end
    end.
Proof. by destruct s. Qed.

Lemma year_search_unanchored (s : string) :
  Re.search_from DATE_YEAR false s = None.
Proof. induction s as [| c s IH]; simpl; [done | exact IH]. Qed.

(** The strings the bare-year pattern accepts: four digits, and four
    digits followed by one newline. *)
Lemma year_match_inv (s : string) :
  Re.matches DATE_YEAR s = true ->
  exists year,
    run_of Str.is_digit 4 (Some 4) year = true
    /\ (s = year \/ s = year ++ String "010" "").
Proof.
  unfold Re.matches, Re.search. intros H.
  assert (Hm : exists gs rest, Re.match_here DATE_YEAR true s = Some (gs, rest)).
  { destruct (Re.match_here DATE_YEAR true s) as [[gs rest] |] eqn:E; [eauto |].
    exfalso. rewrite search_from_unfold, E in H.
    destruct s as [| c s]; [done |].
    by rewrite year_search_unanchored in H. }
  destruct Hm as (gs & rest & Hm).
  change (Re.match_here
            (Re.Rep false Str.is_digit 4 (Some 4) :: [Re.Eol]) true s
          = Some (gs, rest)) in Hm.
  apply match_rep_inv in Hm as (k & gs' & Hk & Hm & _).
  exists (Str.take k s). split; [by apply run_of_take |].
  destruct (run_length_take _ _ _ _ (proj2 Hk)) as (_ & _ & Hs).
  simpl in Hm. destruct (Re.at_eol (Str.drop k s)) eqn:He; [| done].
  destruct (Str.drop k s) as [| c [| c' t]]; simpl in He; [| | done].
  - left. by rewrite app_nil_r_str in Hs.
  - right. revert He. destruct (Ascii.eqb_spec c "010") as [E |]; [| done].
    intros _. by rewrite E in Hs.
Qed.

Lemma count_spaces_app (a b : string) :
  count_spaces (a ++ b) = count_spaces a + count_spaces b.
Proof. induction a as [| c a IH]; simpl; [done | rewrite IH; lia]. Qed.

Lemma count_spaces_none cls lo hi (s : string) :
  (forall c, cls c = true -> Str.is_space c = false) ->
  run_of cls lo hi s = true -> count_spaces s = 0.
Proof.
  intros Hcls (Hall & _)%run_of_spec.
  induction s as [| c s IH]; simpl in *; [done |].
  apply andb_true_iff in Hall as [Hc Hall]. by rewrite (Hcls _ Hc), IH.
Qed.

Lemma run_of_length cls n (s : string) :
  run_of cls n (Some n) s = true -> String.length s = n.
Proof.
  intros (_ & Hlo & Hhi)%run_of_spec. specialize (Hhi n eq_refl). lia.
Qed.

(** A year followed by a newline, once rewritten, is left alone. *)
Lemma year_newline_fixed (year : string) :
  run_of Str.is_digit 4 (Some 4) year = true ->
  normalize_date ((year ++ String "010" "") ++ "-01-01")
  = (year ++ String "010" "") ++ "-01-01".
Proof.
  intros Hy. apply normalize_date_no_rule.
  - apply dmy_search_two_spaces. rewrite !count_spaces_app.
    rewrite (count_spaces_none _ _ _ _ digit_not_space Hy). simpl. lia.
  - destruct (Re.matches DATE_YEAR _) eqn:E; [| done].
    apply year_match_inv in E as (y' & Hy' & [E | E]);
      apply (f_equal String.length) in E;
      rewrite !length_app_str in E;
      rewrite (run_of_length _ _ _ Hy), (run_of_length _ _ _ Hy') in E;
      simpl in E; lia.
Qed.

(** *** Completeness of the search *)

Lemma backtrack_is_Some {R} (f : nat -> option R) (lo n k : nat) :
  lo <= k <= n -> is_Some (f k) -> is_Some (Re.backtrack f lo n).
Proof.
  intros Hk Hf. induction n as [| n IH]; simpl.
  - assert (k = 0) as -> by lia.
    destruct (Nat.ltb_spec 0 lo); [lia |]. destruct Hf as [r ->]. eauto.
  - destruct (Nat.ltb_spec (S n) lo); [lia |].
    destruct (f (S n)) eqn:E; [eauto |]. apply IH.
    destruct (decide (k = S n)) as [-> |]; [| lia].
    rewrite E in Hf. by destruct Hf.
Qed.

Lemma run_length_ge cls (hi : option nat) (run rest : string) :
  Str.forallb cls run = true ->
  (forall h, hi = Some h -> String.length run <= h) ->
  String.length run <= Re.run_length cls hi (run ++ rest).
Proof.
  revert hi. induction run as [| c run IH]; intros hi Hall Hhi; simpl; [lia |].
  simpl in Hall. apply andb_true_iff in Hall as [Hc Hall].
  destruct hi as [[| h] |].
  - specialize (Hhi 0 eq_refl). simpl in Hhi. lia.
  - rewrite Hc. apply le_n_S. apply IH; [done |].
    intros h' [= <-]. specialize (Hhi (S h) eq_refl). simpl in Hhi. lia.
  - rewrite Hc. apply le_n_S. by apply IH.
Qed.

(** A repetition matches whenever some run of the class is followed by a
    match of the rest of the pattern (not necessarily with that run). *)
Lemma match_rep_is_Some cap cls lo hi p bol (run rest : string) :
  run_of cls (S lo) hi run = true ->
  is_Some (Re.match_here p false rest) ->
  is_Some (Re.match_here (Re.Rep cap cls (S lo) hi :: p) bol (run ++ rest)).
Proof.
  intros (Hall & Hlo & Hhi)%run_of_spec Hrest. simpl.
  apply (backtrack_is_Some _ _ _ (String.length run)).
  - split; [done |]. by apply run_length_ge.
  - rewrite drop_app_length.
    destruct (String.length run) eqn:E; [lia |].
    rewrite andb_false_r. destruct Hrest as [[gs r] ->]. eauto.
Qed.

Lemma search_from_is_Some p bol (before s : string) :
  (forall bol', is_Some (Re.match_here p bol' s)) ->
  is_Some (Re.search_from p bol (before ++ s)).
Proof.
  intros Hm. revert bol. induction before as [| c before IH]; intros bol.
  - simpl. rewrite search_from_unfold.
    destruct (Hm bol) as [[gs r] ->]. eauto.
  - change (String c before ++ s) with (String c (before ++ s)).
    rewrite search_from_unfold.
    destruct (Re.match_here p bol (String c (before ++ s))) as [[gs r] |];
      [eauto | apply IH].
Qed.

Lemma dmy_occurs_search (date : string) :
  dmy_occurs date -> is_Some (Re.search DATE_DMY date).
Proof.
  intros (before & day & ws1 & m & ws2 & year & after & -> & Hd & H1 & Hm & H2 & Hy).
  unfold Re.search. apply search_from_is_Some. intros bol.
  unfold DATE_DMY, Re.digits.
  repeat (apply match_rep_is_Some; [done |]).
  simpl. eauto.
Qed.

(** *** Soundness of the search *)





(** *** The result of each rule *)

Lemma dmy_search_canonical (date : string) gs :
  Re.search DATE_DMY date = Some gs ->
  canonical_date (normalize_date date).
Proof.
  intros Hs. unfold normalize_date. rewrite (dmy_search_guard _ _ Hs).
  unfold parse_date. rewrite Hs.
  destruct (dmy_search_inv _ _ Hs) as (d & m & y & -> & Hd & Hm & Hy).
  exists y, (table_get months (Str.take 3 m) "01"), (Str.zfill 2 d).
  split; [done |]. split; [done |].
  split; [apply month_number_two_digits | by apply zfill_day_run].
Qed.






(** ** Dates *)




(** C2, as stated, fails on "matched case-insensitively": ['21 sep 2025']
    has the day-month-year form and its month word is [Sep] up to case, yet
    the table is looked up with the word as written, finds nothing and
    gives month ['01']. *)
Lemma month_lookup_is_case_sensitive :
  Re.search DATE_DMY "21 sep 2025" = Some ["21"; "sep"; "2025"]
  /\ Str.lower (Str.take 3 "sep") = Str.lower "Sep"
  /\ table_get months "Sep" "01" = "09"
  /\ normalize_date "21 sep 2025" = "2025-01-21"
  /\ normalize_date "21 sep 2025" <> "2025-09-21".
Proof. vm_compute. repeat split; discriminate. Qed.

(** C2, amended: a date that begins with one or two digits, white space, a
    word, white space and four digits is rewritten as
    [YYYY-MM-DD], with the day padded to two digits and the month looked up
    under the first three characters of the word, as written, in the table
    [Jan] ... [Dec]; a word that is not found there (for instance [sep] or
    [SEP]) gives month [01]. *)
Theorem date_dmy_normalized (day ws1 month_name ws2 year rest : string) :
  run_of Str.is_digit 1 (Some 2) day = true ->
  run_of Str.is_space 1 None ws1 = true ->
  run_of Str.is_word 1 None month_name = true ->
  run_of Str.is_space 1 None ws2 = true ->
  run_of Str.is_digit 4 (Some 4) year = true ->
  normalize_date (day ++ ws1 ++ month_name ++ ws2 ++ year ++ rest)
  = year ++ "-" ++ table_get months (Str.take 3 month_name) "01"
         ++ "-" ++ Str.zfill 2 day
  /\ String.length (Str.zfill 2 day) = 2
  /\ (forall k v, In (k, v) months -> Str.take 3 month_name = k ->
        table_get months (Str.take 3 month_name) "01" = v)
  /\ ((forall k v, In (k, v) months -> Str.take 3 month_name <> k) ->
        table_get months (Str.take 3 month_name) "01" = "01").
Proof.
  intros Hd H1 Hm H2 Hy. repeat split.
  - unfold normalize_date. rewrite (guard_digit _ _ _ _ Hd).
    unfold parse_date, Re.search.
    by rewrite (search_from_here _ _ _ _ _
                  (dmy_match true _ _ _ _ _ rest Hd H1 Hm H2 Hy)).
  - by destruct (zfill_day _ Hd) as (? & _).
  - intros k v Hin ->. by apply table_get_months_key.
  - apply table_get_months_default.
Qed.

Lemma date_dmy_normalized_witness :
  run_of Str.is_digit 1 (Some 2) "21" = true
  /\ run_of Str.is_space 1 None " " = true
  /\ run_of Str.is_word 1 None "Sep" = true
  /\ run_of Str.is_digit 4 (Some 4) "2025" = true
  /\ normalize_date "21 Sep 2025" = "2025-09-21".
Proof.
  assert (Hd : run_of Str.is_digit 1 (Some 2) "21" = true) by reflexivity.
  assert (Hs : run_of Str.is_space 1 None " " = true) by reflexivity.
  assert (Hm : run_of Str.is_word 1 None "Sep" = true) by reflexivity.
  assert (Hy : run_of Str.is_digit 4 (Some 4) "2025" = true) by reflexivity.
  split; [exact Hd |]. split; [exact Hs |]. split; [exact Hm |].
  split; [exact Hy |].
  exact (proj1 (date_dmy_normalized "21" " " "Sep" " " "2025" "" Hd Hs Hm Hs Hy)).
Defined.

(** ** Author strings *)

Lemma split_on_cons sep (s : string) :
  exists piece pieces, Authors.split_on sep s = piece :: pieces.
Proof.
  induction s as [| c s (p & ps & IH)]; simpl; [eauto |].
  destruct (sep c); [eauto |]. rewrite IH. eauto.
Qed.

(** A piece free of separators, up to the next separator. *)
Lemma split_on_piece sep (a : string) (c : ascii) (rest : string) :
  Str.existsb sep a = false -> sep c = true ->
  Authors.split_on sep (a ++ String c rest) = a :: Authors.split_on sep rest.
Proof.
  intros Ha Hc. induction a as [| x a IH]; simpl.
  - by rewrite Hc.
  - simpl in Ha. apply orb_false_iff in Ha as [Hx Ha].
    rewrite Hx, (IH Ha). done.
Qed.

Lemma split_on_last sep (a : string) :
  Str.existsb sep a = false -> Authors.split_on sep a = [a].
Proof.
  induction a as [| x a IH]; simpl; [done |].
  intros [Hx Ha]%orb_false_iff. by rewrite Hx, (IH Ha).
Qed.

Lemma split_on_prefix sep (a s p : string) ps :
  Str.existsb sep a = false ->
  Authors.split_on sep s = p :: ps ->
  Authors.split_on sep (a ++ s) = (a ++ p) :: ps.
Proof.
  intros Ha E. induction a as [| x a IH]; [done |].
  simpl in Ha. apply orb_false_iff in Ha as [Hx Ha].
  change (String x a ++ s) with (String x (a ++ s)). simpl.
  by rewrite Hx, (IH Ha).
Qed.

Lemma word_free_of_spec sep (w : string) :
  word_free_of sep w = true ->
  Str.nonempty w = true
  /\ Str.existsb Str.is_space w = false
  /\ Str.existsb sep w = false.
Proof.
  unfold word_free_of. intros [[H1 H2]%andb_true_iff H3]%andb_true_iff.
  by apply negb_true_iff in H2, H3.
Qed.

Lemma name_free_of_spec sep (ws : list string) :
  name_free_of sep ws = true ->
  ws <> [] /\ List.forallb (word_free_of sep) ws = true.
Proof. by destruct ws. Qed.

Lemma plain_word_spec (w : string) :
  plain_word w = true ->
  word_free_of Authors.is_comma_or_amp w = true
  /\ word_free_of Authors.is_semicolon w = true
  /\ String.eqb w "and" = false.
Proof.
  unfold plain_word. intros [[Hn Hall]%andb_true_iff Hand]%andb_true_iff.
  apply negb_true_iff in Hand.
  assert (H : forall f, (forall c, plain_char c = true -> f c = false) ->
                        Str.existsb f w = false).
  { intros f Hf. by apply (existsb_none f plain_char). }
  assert (Hsp : Str.existsb Str.is_space w = false).
  { apply H. intros c. unfold plain_char.
    intros [[H1 _]%andb_true_iff _]%andb_true_iff. by apply negb_true_iff. }
  unfold word_free_of. rewrite Hn, Hsp. simpl.
  repeat split; [| | done].
  - rewrite H; [done |]. intros c. unfold plain_char.
    intros [[_ H2]%andb_true_iff _]%andb_true_iff. by apply negb_true_iff.
  - rewrite H; [done |]. intros c. unfold plain_char.
    intros [_ H3]%andb_true_iff. by apply negb_true_iff.
Qed.

Lemma plain_name_spec (ws : list string) :
  plain_name ws = true ->
  ws <> []
  /\ List.forallb (word_free_of Authors.is_comma_or_amp) ws = true
  /\ List.forallb (word_free_of Authors.is_semicolon) ws = true
  /\ (forall w, In w ws -> String.eqb w "and" = false).
Proof.
  intros H. assert (Hne : ws <> []) by (by destruct ws).
  assert (Hall : List.forallb plain_word ws = true) by (by destruct ws).
  rewrite List.forallb_forall in Hall.
  split; [done |]. repeat split.
  - apply List.forallb_forall. intros w Hw.
    by destruct (plain_word_spec _ (Hall _ Hw)) as (? & _).
  - apply List.forallb_forall. intros w Hw.
    by destruct (plain_word_spec _ (Hall _ Hw)) as (_ & ? & _).
  - intros w Hw. by destruct (plain_word_spec _ (Hall _ Hw)) as (_ & _ & ?).
Qed.

(** *** Words *)

Lemma words_leading_space (s : string) :
  Authors.words (String " " s) = Authors.words s.
Proof.
  unfold Authors.words. simpl.
  by destruct (split_on_cons Str.is_space s) as (p & ps & ->).
Qed.

Lemma words_word (w s : string) :
  Str.nonempty w = true -> Str.existsb Str.is_space w = false ->
  Authors.words (w ++ String " " s) = w :: Authors.words s.
Proof.
  intros Hn Hsp. unfold Authors.words.
  rewrite (split_on_piece Str.is_space w " "%char s Hsp eq_refl).
  simpl. by rewrite Hn.
Qed.

Lemma words_single (w : string) :
  Str.nonempty w = true -> Str.existsb Str.is_space w = false ->
  Authors.words w = [w].
Proof.
  intros Hn Hsp. unfold Authors.words.
  rewrite (split_on_last _ _ Hsp). simpl. by rewrite Hn.
Qed.

(** The words of a name written with single spaces, with more text after
    a space. *)
Lemma words_name sep (n : list string) (s : string) :
  List.forallb (word_free_of sep) n = true ->
  Authors.words (String.concat " " n ++ String " " s)
  = (n ++ Authors.words s)%list.
Proof.
  induction n as [| w n IH]; intros Hn.
  - apply words_leading_space.
  - simpl in Hn. apply andb_true_iff in Hn as [Hw Hn].
    destruct (word_free_of_spec _ _ Hw) as (Hne & Hsp & _).
    destruct n as [| w' n].
    + simpl. by rewrite (words_word _ _ Hne Hsp).
    + rewrite concat_cons. rewrite !app_assoc_str.
      change (w ++ " " ++ String.concat " " (w' :: n) ++ String " " s)
        with (w ++ String " " (String.concat " " (w' :: n) ++ String " " s)).
      rewrite (words_word _ _ Hne Hsp). simpl. f_equal. by apply IH.
Qed.

Lemma words_concat sep (n : list string) :
  List.forallb (word_free_of sep) n = true ->
  Authors.words (String.concat " " n) = n.
Proof.
  induction n as [| w n IH]; intros Hn; [done |].
  simpl in Hn. apply andb_true_iff in Hn as [Hw Hn].
  destruct (word_free_of_spec _ _ Hw) as (Hne & Hsp & _).
  destruct n as [| w' n].
  - simpl. by apply words_single.
  - rewrite concat_cons.
    change (w ++ " " ++ String.concat " " (w' :: n))
      with (w ++ String " " (String.concat " " (w' :: n))).
    rewrite (words_word _ _ Hne Hsp). f_equal. by apply IH.
Qed.

Lemma existsb_concat (f : ascii -> bool) (sep : string) (ws : list string) :
  Str.existsb f sep = false ->
  (forall w, In w ws -> Str.existsb f w = false) ->
  Str.existsb f (String.concat sep ws) = false.
Proof.
  intros Hsp. induction ws as [| w ws IH]; intros Hws; [done |].
  destruct ws as [| w' ws]; [apply Hws; by left |].
  rewrite concat_cons. rewrite !existsb_app, Hsp.
  rewrite (Hws w) by (by left). simpl. apply IH.
  intros w0 H0. apply Hws. by right.
Qed.

(** A name written out holds no separator. *)
Lemma name_text_free sep (n : list string) :
  sep " "%char = false ->
  List.forallb (word_free_of sep) n = true ->
  Str.existsb sep (String.concat " " n) = false.
Proof.
  intros Hsp Hn. apply existsb_concat; [by simpl; rewrite Hsp |].
  rewrite List.forallb_forall in Hn. intros w Hw.
  by destruct (word_free_of_spec _ _ (Hn _ Hw)) as (_ & _ & ?).
Qed.

(** *** The word [and] *)

Lemma split_at_and_cons (ws : list string) :
  exists name names, Authors.split_at_and ws = name :: names.
Proof.
  induction ws as [| w ws (x & xs & IH)]; simpl; [eauto |].
  destruct (String.eqb w "and"); [eauto |]. rewrite IH. eauto.
Qed.

Lemma split_at_and_prefix (n ws x : list string) xs :
  (forall w, In w n -> String.eqb w "and" = false) ->
  Authors.split_at_and ws = x :: xs ->
  Authors.split_at_and (n ++ ws) = (n ++ x)%list :: xs.
Proof.
  intros Hn E. induction n as [| w n IH]; [done |].
  simpl. rewrite (Hn w) by (by left).
  rewrite IH; [done |]. intros w' Hw'. apply Hn. by right.
Qed.

Lemma split_at_and_name (n ws : list string) :
  (forall w, In w n -> String.eqb w "and" = false) ->
  Authors.split_at_and (n ++ "and" :: ws) = n :: Authors.split_at_and ws.
Proof.
  intros Hn.
  rewrite (split_at_and_prefix n ("and" :: ws) [] (Authors.split_at_and ws) Hn);
    [by rewrite app_nil_r | done].
Qed.

Lemma split_at_and_plain (n : list string) :
  (forall w, In w n -> String.eqb w "and" = false) ->
  Authors.split_at_and n = [n].
Proof.
  intros Hn. rewrite <- (app_nil_r n) at 1.
  rewrite (split_at_and_prefix n [] [] [] Hn); [by rewrite app_nil_r | done].
Qed.

(** *** Tokens *)

Lemma comma_tokens_prefix (a : string) (wa : list string)
    (pre : list (list string)) (s : string) :
  Str.existsb Authors.is_comma_or_amp a = false ->
  (forall x, Authors.words (a ++ x) = (wa ++ Authors.words x)%list) ->
  (forall ws, Authors.split_at_and (wa ++ ws)
              = (pre ++ Authors.split_at_and ws)%list) ->
  comma_tokens (a ++ s) = (pre ++ comma_tokens s)%list.
Proof.
  intros Ha Hw Hs. unfold comma_tokens.
  destruct (split_on_cons Authors.is_comma_or_amp s) as (p & ps & E).
  rewrite (split_on_prefix _ _ _ _ _ Ha E), E. simpl.
  by rewrite Hw, Hs, app_assoc.
Qed.

Lemma comma_tokens_piece (a : string) (c : ascii) (s : string) :
  Str.existsb Authors.is_comma_or_amp a = false ->
  Authors.is_comma_or_amp c = true ->
  comma_tokens (a ++ String c s)
  = (Authors.split_at_and (Authors.words a) ++ comma_tokens s)%list.
Proof.
  intros Ha Hc. unfold comma_tokens.
  by rewrite (split_on_piece _ _ _ _ Ha Hc).
Qed.

Lemma comma_tokens_last (a : string) :
  Str.existsb Authors.is_comma_or_amp a = false ->
  comma_tokens a = Authors.split_at_and (Authors.words a).
Proof.
  intros Ha. unfold comma_tokens. rewrite (split_on_last _ _ Ha). simpl.
  by rewrite app_nil_r.
Qed.

Lemma comma_tokens_space (s : string) :
  comma_tokens (String " " s) = comma_tokens s.
Proof.
  change (String " " s) with (" " ++ s).
  by apply (comma_tokens_prefix " " [] []); [| intros x; apply words_leading_space |].
Qed.

Lemma name_of_words_plain (ws : list string) :
  ws <> [] -> Authors.name_of_words ws = Some (creator_of_name ws).
Proof. by destruct ws. Qed.

(** The creators of an author string written with commas, [and] and [&]:
    one per name, in order. *)
Lemma comma_tokens_text (name : list string)
    (more : list (name_sep * list string)) :
  plain_name name = true ->
  List.forallb (fun sn => plain_name sn.2) more = true ->
  omap Authors.name_of_words (comma_tokens (authors_text name more))
  = creator_of_name name :: List.map (fun sn => creator_of_name sn.2) more.
Proof.
  revert name. induction more as [| [sep name'] more IH]; intros name Hn Hmore.
  - destruct (plain_name_spec _ Hn) as (Hne & Hc & _ & Hand). simpl.
    rewrite app_nil_r_str.
    rewrite comma_tokens_last by (by apply name_text_free).
    rewrite (words_concat _ _ Hc), (split_at_and_plain _ Hand). simpl.
    by rewrite (name_of_words_plain _ Hne).
  - simpl in Hmore. apply andb_true_iff in Hmore as [Hn' Hmore].
    specialize (IH name' Hn' Hmore).
    destruct (plain_name_spec _ Hn) as (Hne & Hc & _ & Hand).
    pose proof (name_text_free Authors.is_comma_or_amp name eq_refl Hc) as Hfree.
    pose proof (words_concat _ _ Hc) as HwN.
    pose proof (fun s => words_name _ _ s Hc) as HwNs.
    set (N := String.concat " " name) in *.
    set (R := authors_text name' more) in *.
    assert (Hhead : forall tokens,
              omap Authors.name_of_words ([name] ++ tokens)%list
              = creator_of_name name :: omap Authors.name_of_words tokens).
    { intros tokens. simpl. by rewrite (name_of_words_plain _ Hne). }
    change (authors_text name ((sep, name') :: more))
      with (N ++ sep_text sep ++ R).
    destruct sep; simpl sep_text.
    + change (N ++ ", " ++ R) with (N ++ String "," (String " " R)).
      rewrite (comma_tokens_piece N ","%char _ Hfree eq_refl), comma_tokens_space.
      rewrite HwN, (split_at_and_plain _ Hand).
      rewrite Hhead. f_equal. exact IH.
    + replace (N ++ " and " ++ R) with ((N ++ " and ") ++ R)
        by (by rewrite app_assoc_str).
      rewrite (comma_tokens_prefix (N ++ " and ") (name ++ ["and"])%list [name]).
      * rewrite Hhead. f_equal. exact IH.
      * rewrite existsb_app, Hfree. reflexivity.
      * intros x. rewrite app_assoc_str.
        change (N ++ " and " ++ x) with (N ++ String " " ("and" ++ String " " x)).
        rewrite HwNs, (words_word "and" x eq_refl eq_refl).
        by rewrite <- app_assoc.
      * intros ws. rewrite <- app_assoc. simpl.
        by rewrite (split_at_and_name _ _ Hand).
    + replace (N ++ " & " ++ R) with ((N ++ " ") ++ String "&" (String " " R))
        by (by rewrite app_assoc_str).
      rewrite comma_tokens_piece;
        [| by rewrite existsb_app, Hfree | reflexivity].
      rewrite comma_tokens_space.
      change (N ++ " ") with (N ++ String " " "").
      rewrite HwNs. simpl Authors.words at 1.
      rewrite app_nil_r, (split_at_and_plain _ Hand).
      rewrite Hhead. f_equal. exact IH.
    + change (N ++ ", and " ++ R) with (N ++ String "," (" and " ++ R)).
      rewrite (comma_tokens_piece N ","%char _ Hfree eq_refl).
      rewrite HwN, (split_at_and_plain _ Hand).
      rewrite (comma_tokens_prefix " and " ["and"] [[]]).
      * rewrite Hhead. f_equal. exact IH.
      * reflexivity.
      * intros x.
        change (" and " ++ x) with (String " " ("and" ++ String " " x)).
        by rewrite words_leading_space, (words_word "and" x eq_refl eq_refl).
      * intros ws. reflexivity.
Qed.

Lemma authors_text_no_semicolon (name : list string)
    (more : list (name_sep * list string)) :
  plain_name name = true ->
  List.forallb (fun sn => plain_name sn.2) more = true ->
  Str.existsb Authors.is_semicolon (authors_text name more) = false.
Proof.
  revert name. induction more as [| [sep name'] more IH]; intros name Hn Hmore.
  - destruct (plain_name_spec _ Hn) as (_ & _ & Hs & _). simpl.
    rewrite app_nil_r_str. by apply name_text_free.
  - simpl in Hmore. apply andb_true_iff in Hmore as [Hn' Hmore].
    destruct (plain_name_spec _ Hn) as (_ & _ & Hs & _).
    change (authors_text name ((sep, name') :: more))
      with (String.concat " " name ++ sep_text sep ++ authors_text name' more).
    rewrite !existsb_app, (name_text_free _ _ eq_refl Hs), (IH _ Hn' Hmore).
    by destruct sep.
Qed.

(** *** Semicolons *)

(** The pieces of a list of names joined by [; ]. *)
Lemma semicolon_pieces (names : list (list string)) :
  List.forallb (name_free_of Authors.is_semicolon) names = true ->
  names <> [] ->
  List.map Authors.words
    (Authors.split_on Authors.is_semicolon
       (String.concat "; " (List.map (String.concat " ") names)))
  = names.
Proof.
  induction names as [| ws names IH]; [done |].
  intros [Hws Hnames]%andb_true_iff _.
  destruct (name_free_of_spec _ _ Hws) as [_ Hfree].
  pose proof (name_text_free Authors.is_semicolon ws eq_refl Hfree) as Hno.
  destruct names as [| ws' names].
  - simpl. rewrite (split_on_last _ _ Hno). simpl.
    by rewrite (words_concat _ _ Hfree).
  - change (List.map (String.concat " ") (ws :: ws' :: names))
      with (String.concat " " ws
            :: List.map (String.concat " ") (ws' :: names)).
    change (List.map (String.concat " ") (ws' :: names))
      with (String.concat " " ws' :: List.map (String.concat " ") names) at 1.
    rewrite concat_cons.
    change (String.concat " " ws ++ "; "
            ++ String.concat "; "
                 (String.concat " " ws' :: List.map (String.concat " ") names))
      with (String.concat " " ws
            ++ String ";" (String " "
                 (String.concat "; "
                    (List.map (String.concat " ") (ws' :: names))))).
    rewrite (split_on_piece Authors.is_semicolon _ ";"%char _ Hno eq_refl).
    destruct (split_on_cons Authors.is_semicolon
                (String.concat "; "
                   (List.map (String.concat " ") (ws' :: names))))
      as (p & ps & Hp).
    pose proof (split_on_prefix Authors.is_semicolon " " _ p ps eq_refl Hp)
      as Hsp.
    change (" " ++ ?x) with (String " " x) in Hsp. rewrite Hsp.
    simpl List.map at 1. rewrite (words_concat _ _ Hfree).
    change (" " ++ p) with (String " " p). rewrite words_leading_space.
    f_equal. specialize (IH Hnames ltac:(done)). by rewrite Hp in IH.
Qed.

Lemma names_to_creators (names : list (list string)) :
  (forall ws, In ws names -> ws <> []) ->
  omap Authors.name_of_words names = List.map creator_of_name names.
Proof.
  induction names as [| ws names IH]; [done |]. intros Hne.
  simpl. rewrite (name_of_words_plain ws) by (apply Hne; by left).
  simpl. f_equal. apply IH. intros ws' H. apply Hne. by right.
Qed.

(** C8: a free-text author string is cut at [;] if it has one, otherwise
    at [,], [&] and the word [and]; each name token gives a creator whose
    last name is its last word and whose first name is the words before
    it joined by spaces (empty for a single word), in the order of the
    string.  Without [;], names separated by [, ], [ and ], [ & ] or
    [, and ], in any mixture, give one creator each.  With [;], only [;]
    separates: a comma, an [&] or the word [and] inside a name stays in
    the name.  ["Jane A. Doe, John Smith"] gives Jane A. Doe and John
    Smith. *)
Theorem author_string_parsed :
  (forall ws w,
     Authors.name_of_words (ws ++ [w])
     = Some (Creator "author" (String.concat " " ws) w))
  /\ (forall name more,
        plain_name name = true ->
        List.forallb (fun sn => plain_name sn.2) more = true ->
        Authors.parse_authors (authors_text name more)
        = creator_of_name name
          :: List.map (fun sn => creator_of_name sn.2) more)
  /\ (forall n1 n2 names,
        List.forallb (name_free_of Authors.is_semicolon) (n1 :: n2 :: names)
        = true ->
        Authors.parse_authors
          (String.concat "; " (List.map (String.concat " ") (n1 :: n2 :: names)))
        = List.map creator_of_name (n1 :: n2 :: names))
  /\ (forall ws w,
        creator_of_name (ws ++ [w]) = Creator "author" (String.concat " " ws) w)
  /\ Authors.parse_authors "Jane A. Doe, John Smith"
     = [Creator "author" "Jane A." "Doe"; Creator "author" "John" "Smith"]
  /\ build_creators {[ "authors" := VStr "Jane A. Doe, John Smith" ]}
     = [Creator "author" "Jane A." "Doe"; Creator "author" "John" "Smith"].
Proof.
  assert (Hlast : forall ws w,
            creator_of_name (ws ++ [w])
            = Creator "author" (String.concat " " ws) w).
  { intros ws w. unfold creator_of_name.
    by rewrite List.removelast_last, List.last_last. }
  split; [| split; [| split; [| split; [exact Hlast | split; reflexivity]]]].
  - intros ws w. rewrite name_of_words_plain; [by rewrite Hlast |].
    by destruct ws.
  - intros name more Hn Hmore. unfold Authors.parse_authors, Authors.tokens.
    rewrite (authors_text_no_semicolon _ _ Hn Hmore).
    exact (comma_tokens_text _ _ Hn Hmore).
  - intros n1 n2 names Hnames.
    unfold Authors.parse_authors, Authors.tokens.
    assert (Hsemi : Str.existsb Authors.is_semicolon
              (String.concat "; "
                 (List.map (String.concat " ") (n1 :: n2 :: names))) = true).
    { change (List.map (String.concat " ") (n1 :: n2 :: names))
        with (String.concat " " n1
              :: String.concat " " n2 :: List.map (String.concat " ") names).
      rewrite concat_cons, !existsb_app. simpl. by rewrite !orb_true_r. }
    rewrite Hsemi, (semicolon_pieces _ Hnames) by done.
    apply names_to_creators. intros ws Hws.
    rewrite List.forallb_forall in Hnames.
    by destruct (name_free_of_spec _ _ (Hnames _ Hws)).
Qed.

Lemma author_string_parsed_witness :
  let name := ["Jane"; "A."; "Doe"] in
  let more := [(Comma, ["John"; "Smith"]); (And, ["Li"]);
               (CommaAnd, ["Ana"; "Maria"; "Silva"]); (Ampersand, ["Bo"; "Ek"])] in
  plain_name name = true
  /\ List.forallb (fun sn => plain_name sn.2) more = true
  /\ authors_text name more
     = "Jane A. Doe, John Smith and Li, and Ana Maria Silva & Bo Ek"
  /\ Authors.parse_authors (authors_text name more)
     = [Creator "author" "Jane A." "Doe"; Creator "author" "John" "Smith";
        Creator "author" "" "Li"; Creator "author" "Ana Maria" "Silva";
        Creator "author" "Bo" "Ek"].
Proof.
  intros name more.
  assert (Hn : plain_name name = true) by reflexivity.
  assert (Hm : List.forallb (fun sn => plain_name sn.2) more = true)
    by reflexivity.
  split; [exact Hn |]. split; [exact Hm |]. split; [reflexivity |].
  exact (proj1 (proj2 author_string_parsed) name more Hn Hm).
Defined.

(** * Further properties of the code *)

(** ** Dates: bare years, shape of the result, idempotence *)

(** X1: a bare year of four digits becomes the first of January of that
    year. *)
Theorem bare_year_first_of_january (year : string) :
  run_of Str.is_digit 4 (Some 4) year = true ->
  normalize_date year = year ++ "-01-01".
Proof.
  intros Hy. unfold normalize_date.
  pose proof (guard_digit year "" _ _ Hy) as Hg.
  rewrite app_nil_r_str in Hg. rewrite Hg. unfold parse_date.
  rewrite (dmy_search_needs_space year)
    by apply (run_of_no_space _ _ _ _ digit_not_space Hy).
  rewrite (ymd_search_needs_sep year).
  - by rewrite (year_match _ Hy).
  - destruct (run_of_spec _ _ _ _ Hy) as (Hall & _).
    by apply (existsb_none _ Str.is_digit _ digit_not_sep).
Qed.

Lemma bare_year_first_of_january_witness :
  run_of Str.is_digit 4 (Some 4) "1999" = true
  /\ normalize_date "1999" = "1999-01-01".
Proof.
  assert (Hy : run_of Str.is_digit 4 (Some 4) "1999" = true) by reflexivity.
  split; [exact Hy |]. exact (bare_year_first_of_january "1999" Hy).
Defined.

(** X2: when a day-month-year date occurs anywhere in an ASCII date (one
    or two digits, white space, a word, white space, four digits), the
    result is a canonical date: four digits, two digits, two digits,
    joined by [-]. *)
Theorem dmy_result_is_canonical (date : string) :
  ascii_text date = true ->
  dmy_occurs date ->
  canonical_date (normalize_date date).
Proof.
  intros _ Ho. destruct (dmy_occurs_search _ Ho) as [gs Hs].
  by apply (dmy_search_canonical _ gs).
Qed.

Lemma dmy_result_is_canonical_witness :
  ascii_text "Published 7 March 2024 online" = true
  /\ dmy_occurs "Published 7 March 2024 online"
  /\ normalize_date "Published 7 March 2024 online" = "2024-03-07"
  /\ canonical_date (normalize_date "Published 7 March 2024 online").
Proof.
  assert (Ha : ascii_text "Published 7 March 2024 online" = true) by reflexivity.
  assert (Ho : dmy_occurs "Published 7 March 2024 online").
  { exists "Published ", "7", " ", "March", " ", "2024", " online".
    by repeat split. }
  split; [exact Ha |]. split; [exact Ho |]. split; [reflexivity |].
  exact (dmy_result_is_canonical _ Ha Ho).
Defined.

(** X3: normalising a date twice gives what normalising it once gives. *)
Theorem normalize_date_idempotent (date : string) :
  normalize_date (normalize_date date) = normalize_date date.
Proof.
  destruct (Re.search DATE_DMY date) as [gs |] eqn:Hdmy.
  { apply canonical_date_fixed. unfold normalize_date.
    rewrite (dmy_search_guard _ _ Hdmy). unfold parse_date. rewrite Hdmy.
    destruct (dmy_search_inv _ _ Hdmy) as (d & m & y & -> & Hd & Hm & Hy).
    exists y, (table_get months (Str.take 3 m) "01"), (Str.zfill 2 d).
    split; [done |]. split; [done |].
    split; [apply month_number_two_digits | by apply zfill_day_run]. }
  unfold normalize_date at 2. unfold normalize_date at 2.
  destruct (Str.nonempty date && negb (String.eqb date UNKNOWN_DATE)) eqn:Hg.
  2: { unfold normalize_date. by rewrite Hg. }
  unfold parse_date. rewrite Hdmy.
  destruct (Re.matches DATE_YMD date) eqn:Hymd.
  { by apply normalize_date_ymd. }
  destruct (Re.matches DATE_YEAR date) eqn:Hyear.
  2: { by apply normalize_date_no_rule. }
  apply year_match_inv in Hyear as (y & Hy & [-> | ->]).
  - apply canonical_date_fixed. exists y, "01", "01". by repeat split.
  - by apply year_newline_fixed.
Qed.


(** ** The bioRxiv extractor: outcomes, DOI parts, PDF fields *)

Lemma match_lit_inv c p bol (s : string) gs rest :
  Re.match_here (Re.lit c :: p) bol s = Some (gs, rest) ->
  exists s', s = String c s' /\ Re.match_here p false s' = Some (gs, rest).
Proof.
  unfold Re.lit. intros (k & gs' & Hk & H & ->)%match_rep_inv.
  pose proof (run_length_bound (Ascii.eqb c) 1 s) as Hb.
  assert (k = 1) as -> by lia.
  destruct s as [| x s]; simpl in Hk; [lia |].
  destruct (Ascii.eqb_spec c x) as [-> |]; [| lia].
  exists s. split; [done |]. simpl in H. by rewrite andb_false_r in H.
Qed.

Lemma match_digits_inv cap lo hi p bol (s : string) gs rest :
  Re.match_here (Re.digits cap (S lo) hi :: p) bol s = Some (gs, rest) ->
  exists run s' gs',
    s = run ++ s'
    /\ run_of Str.is_digit (S lo) hi run = true
    /\ Re.match_here p false s' = Some (gs', rest)
    /\ gs = if cap then run :: gs' else gs'.
Proof.
  unfold Re.digits. intros (k & gs' & Hk & H & ->)%match_rep_inv.
  destruct (run_length_take _ _ _ _ (proj2 Hk)) as (_ & _ & Hs).
  exists (Str.take k s), (Str.drop k s), gs'.
  split; [done |]. split; [by apply run_of_take |]. split; [| done].
  destruct k; [lia |]. by rewrite andb_false_r in H.
Qed.

(** What a match of the DOI pattern has captured, and where. *)
Lemma doi_match_inv bol (s : string) gs rest :
  Re.match_here BioRxivDirectExtractor.DOI_PATTERN bol s = Some (gs, rest) ->
  exists year month day version,
    gs = [year; month; day; version]
    /\ s = "10.1101/" ++ year ++ "." ++ month ++ "." ++ day ++ "." ++ version
           ++ rest
    /\ run_of Str.is_digit 4 (Some 4) year = true
    /\ run_of Str.is_digit 2 (Some 2) month = true
    /\ run_of Str.is_digit 2 (Some 2) day = true
    /\ run_of Str.is_digit 1 None version = true.
Proof.
  unfold BioRxivDirectExtractor.DOI_PATTERN. simpl Re.lits. simpl app.
  intros H.
  repeat (apply match_lit_inv in H as (? & -> & H)).
  apply match_digits_inv in H as (y & ? & ? & -> & Hy & H & ->).
  apply match_lit_inv in H as (? & -> & H).
  apply match_digits_inv in H as (m & ? & ? & -> & Hm & H & ->).
  apply match_lit_inv in H as (? & -> & H).
  apply match_digits_inv in H as (d & ? & ? & -> & Hd & H & ->).
  apply match_lit_inv in H as (? & -> & H).
  apply match_digits_inv in H as (v & ? & ? & -> & Hv & H & ->).
  simpl in H. injection H as <- <-.
  exists y, m, d, v. by repeat split.
Qed.

Lemma doi_search_inv (url : string) gs :
  Re.search BioRxivDirectExtractor.DOI_PATTERN url = Some gs ->
  exists year month day version,
    gs = [year; month; day; version]
    /\ run_of Str.is_digit 4 (Some 4) year = true
    /\ run_of Str.is_digit 2 (Some 2) month = true
    /\ run_of Str.is_digit 2 (Some 2) day = true
    /\ run_of Str.is_digit 1 None version = true.
Proof.
  intros (bol & s & rest & H)%search_from_Some.
  apply doi_match_inv in H as (y & m & d & v & ? & _ & ? & ? & ? & ?).
  eauto 10.
Qed.

(** X4: on an ASCII URL [extract_metadata] has three outcomes and no
    other: the empty record for a URL it does not handle,
    [KeyError('pdf_url')] for a bioRxiv URL without a dated DOI, and
    otherwise a preprint record whose date is made of the digits of the
    DOI.  It never returns a record with an [error] field. *)
Theorem biorxiv_outcomes download (url : string) :
  ascii_text url = true ->
  (BioRxivDirectExtractor.can_handle url = false
   /\ BioRxivDirectExtractor.extract_metadata download url = Ok ∅)
  \/ (BioRxivDirectExtractor.can_handle url = true
      /\ Re.search BioRxivDirectExtractor.DOI_PATTERN url = None
      /\ BioRxivDirectExtractor.extract_metadata download url
         = Raise (KeyError "pdf_url"))
  \/ (BioRxivDirectExtractor.can_handle url = true
      /\ exists year month day version r,
           Re.search BioRxivDirectExtractor.DOI_PATTERN url
           = Some [year; month; day; version]
           /\ run_of Str.is_digit 4 (Some 4) year = true
           /\ run_of Str.is_digit 2 (Some 2) month = true
           /\ run_of Str.is_digit 2 (Some 2) day = true
           /\ run_of Str.is_digit 1 None version = true
           /\ BioRxivDirectExtractor.extract_metadata download url = Ok r
           /\ r !! "itemType" = Some (VStr "preprint")
           /\ r !! "date" = Some (VStr (year ++ "-" ++ month ++ "-" ++ day))
           /\ r !! "error" = None).
Proof.
  intros _. destruct (BioRxivDirectExtractor.can_handle url) eqn:Hc.
  - right.
    destruct (Re.search BioRxivDirectExtractor.DOI_PATTERN url) as [gs |] eqn:Hs.
    + right. split; [done |].
      destruct (doi_search_inv _ _ Hs) as (y & m & d & v & -> & Hy & Hm & Hd & Hv).
      destruct (biorxiv_with_doi download url y m d v Hc Hs)
        as (r & Hr & Ht & _ & Hdate & _ & _ & He).
      exists y, m, d, v, r. by repeat split.
    + left. split; [done |]. split; [done |].
      by apply biorxiv_without_doi.
  - left. split; [done |]. by apply biorxiv_not_handled.
Qed.

Lemma biorxiv_outcomes_witness :
  let url := "https://www.biorxiv.org/content/10.1101/622803v1" in
  ascii_text url = true
  /\ BioRxivDirectExtractor.extract_metadata (fun _ => None) url
     = Raise (KeyError "pdf_url").
Proof.
  intros url.
  assert (Ha : ascii_text url = true) by reflexivity.
  split; [exact Ha |].
  destruct (biorxiv_outcomes (fun _ => None) url Ha)
    as [[Hc _] | [(_ & _ & H) | (_ & y & m & d & v & r & Hs & _)]].
  - discriminate Hc.
  - exact H.
  - discriminate Hs.
Defined.

(** X5: what the download adds to the record.  [extract_metadata] asks
    for the download of the record's own [pdf_url].  When bytes come back
    (and there is at least one) the record holds them as [pdf_content]
    and their number as [pdf_size]; after a failed download ([None]) or an
    empty one the record holds neither.  The other fields are those read
    from the URL, and there is no [error] field. *)
Theorem biorxiv_record_fields download (url : string) r :
  BioRxivDirectExtractor.can_handle url = true ->
  BioRxivDirectExtractor.extract_metadata download url = Ok r ->
  exists pdf_url,
    BioRxivDirectExtractor._extract_from_url url !! "pdf_url" = Some pdf_url
    /\ r !! "error" = None
    /\ (forall k : string,
          k <> "pdf_content" -> k <> "pdf_size" ->
          r !! k = BioRxivDirectExtractor._extract_from_url url !! k)
    /\ match download pdf_url with
       | Some (b :: bs) =>
           r !! "pdf_content" = Some (VBytes (b :: bs))
           /\ r !! "pdf_size" = Some (VInt (Z.of_nat (length (b :: bs))))
       | Some [] | None =>
           r !! "pdf_content" = None /\ r !! "pdf_size" = None
       end.
Proof.
  intros Hc. unfold BioRxivDirectExtractor.extract_metadata. rewrite Hc. simpl.
  set (base := BioRxivDirectExtractor._extract_from_url url).
  assert (Hbase : forall k : string,
            k = "error" \/ k = "pdf_content" \/ k = "pdf_size" ->
            is_Some (base !! "pdf_url") -> base !! k = None).
  { intros k Hk. unfold base, BioRxivDirectExtractor._extract_from_url.
    destruct (Re.search _ url) as [[| y [| m [| d [| v [| ? ?]]]]] |];
      try (rewrite lookup_singleton_ne by done; by intros [? ?]).
    intros _. unfold BioRxivDirectExtractor.metadata_of.
    destruct Hk as [-> | [-> | ->]];
      rewrite !lookup_insert_ne by done; by rewrite lookup_empty. }
  unfold Py.item. destruct (base !! "pdf_url") as [pdf_url |] eqn:Hp;
    [| discriminate].
  simpl. intros Hr. exists pdf_url. split; [done |].
  assert (Hs : is_Some (Some pdf_url)) by eauto.
  destruct (download pdf_url) as [[| b bs] |]; simpl in Hr;
    injection Hr as <-.
  - rewrite !Hbase by (eauto; tauto). by repeat split.
  - split; [| split; [| split]].
    + rewrite !lookup_insert_ne by done. apply Hbase; [tauto | eauto].
    + intros k H1 H2. by rewrite !lookup_insert_ne by done.
    + rewrite lookup_insert_ne by done. by rewrite lookup_insert_eq.
    + by rewrite lookup_insert_eq.
  - rewrite !Hbase by (eauto; tauto). by repeat split.
Qed.

Lemma biorxiv_record_fields_witness :
  let url := "https://www.biorxiv.org/content/10.1101/2024.06.26.600822v2" in
  let download := fun _ : value => Some [Byte.x25; Byte.x50; Byte.x44; Byte.x46] in
  let r := <["pdf_size" := VInt 4]>
           (<["pdf_content" := VBytes [Byte.x25; Byte.x50; Byte.x44; Byte.x46]]>
              (BioRxivDirectExtractor._extract_from_url url)) in
  BioRxivDirectExtractor.can_handle url = true
  /\ BioRxivDirectExtractor.extract_metadata download url = Ok r
  /\ r !! "pdf_size" = Some (VInt 4)
  /\ r !! "error" = None.
Proof.
  intros url download r.
  assert (Hc : BioRxivDirectExtractor.can_handle url = true) by reflexivity.
  assert (Hr : BioRxivDirectExtractor.extract_metadata download url = Ok r)
    by (vm_compute; reflexivity).
  split; [exact Hc |]. split; [exact Hr |].
  destruct (biorxiv_record_fields download url r Hc Hr)
    as (pdf_url & _ & He & _ & Hd).
  exact (conj (proj2 Hd) He).
Defined.

Lemma match_lit_here c p bol (s : string) r :
  Re.match_here p false s = Some r ->
  Re.match_here (Re.lit c :: p) bol (String c s) = Some r.
Proof.
  intros H. destruct r as [gs rest].
  change (String c s) with (String c "" ++ s). unfold Re.lit.
  apply (match_run false (Ascii.eqb c) 0 (Some 1) p bol (String c "") s gs rest);
    [| by left | done].
  unfold run_of. simpl. by rewrite Ascii.eqb_refl.
Qed.

Lemma search_skip_lit c p bol (x : ascii) (s : string) :
  Ascii.eqb c x = false ->
  Re.search_from (Re.lit c :: p) bol (String x s)
  = Re.search_from (Re.lit c :: p) false s.
Proof.
  intros Hx. rewrite search_from_unfold.
  assert (Hn : Re.match_here (Re.lit c :: p) bol (String x s) = None).
  { unfold Re.lit. simpl. by rewrite Hx. }
  by rewrite Hn.
Qed.

Lemma lits_cons c (l : string) (p : Re.pattern) :
  (Re.lits (String c l) ++ p)%list = Re.lit c :: (Re.lits l ++ p)%list.
Proof. reflexivity. Qed.

Lemma match_lits (l : string) p bol (s : string) r :
  Re.match_here p false s = Some r ->
  l <> "" ->
  Re.match_here (Re.lits l ++ p)%list bol (l ++ s) = Some r.
Proof.
  intros H. revert bol. induction l as [| c l IH]; intros bol Hl; [done |].
  rewrite lits_cons. change (String c l ++ s) with (String c (l ++ s)).
  apply match_lit_here. destruct l as [| c' l]; [exact H |]. by apply IH.
Qed.

Lemma doi_pattern_head :
  exists p, BioRxivDirectExtractor.DOI_PATTERN = Re.lit "1" :: p.
Proof. eexists. unfold BioRxivDirectExtractor.DOI_PATTERN. apply lits_cons. Qed.

(** The DOI pattern on a DOI written out. *)
Lemma doi_match bol (year month day version rest : string) :
  run_of Str.is_digit 4 (Some 4) year = true ->
  run_of Str.is_digit 2 (Some 2) month = true ->
  run_of Str.is_digit 2 (Some 2) day = true ->
  run_of Str.is_digit 1 None version = true ->
  stops_at Str.is_digit rest = true ->
  Re.match_here BioRxivDirectExtractor.DOI_PATTERN bol
    ("10.1101/" ++ (year ++ "." ++ month ++ "." ++ day ++ "." ++ version) ++ rest)
  = Some ([year; month; day; version], rest).
Proof.
  intros Hy Hm Hd Hv Hrest.
  unfold BioRxivDirectExtractor.DOI_PATTERN.
  apply match_lits; [| done]. rewrite !app_assoc_str.
  apply (match_run true); [done | left; f_equal; symmetry; exact (run_of_length _ _ _ Hy) |].
  apply (match_lit_here ".").
  apply (match_run true); [done | left; f_equal; symmetry; exact (run_of_length _ _ _ Hm) |].
  apply (match_lit_here ".").
  apply (match_run true); [done | left; f_equal; symmetry; exact (run_of_length _ _ _ Hd) |].
  apply (match_lit_here ".").
  by apply (match_run true); [| right |].
Qed.

Lemma metadata_of_url (url url' year month day version : string) :
  BioRxivDirectExtractor.metadata_of url' year month day version
  = <["url" := VStr url']>
      (BioRxivDirectExtractor.metadata_of url year month day version).
Proof.
  apply map_eq. intros k. unfold BioRxivDirectExtractor.metadata_of.
  destruct (decide (k = "url")) as [-> |].
  - rewrite lookup_insert_eq. rewrite !lookup_insert_ne by done.
    by rewrite lookup_insert_eq.
  - rewrite (lookup_insert_ne _ "url" k) by done.
    repeat match goal with
           | |- (<[?i := _]> _) !! k = (<[?i := _]> _) !! k =>
               destruct (decide (i = k)) as [<- |];
               [done || by rewrite !lookup_insert_eq
               | rewrite !(lookup_insert_ne _ i k) by done]
           end.
    done.
Qed.

(** X6: the [pdf_url] of a record leads back to the record.  It is again a
    bioRxiv URL, the DOI pattern finds the same four parts in it, and the
    fields extracted from it are those extracted from the first URL, but
    for [url]. *)
Theorem biorxiv_pdf_url_round_trip (url : string) gs :
  Re.search BioRxivDirectExtractor.DOI_PATTERN url = Some gs ->
  exists pdf_url,
    BioRxivDirectExtractor._extract_from_url url !! "pdf_url"
    = Some (VStr pdf_url)
    /\ BioRxivDirectExtractor.can_handle pdf_url = true
    /\ Re.search BioRxivDirectExtractor.DOI_PATTERN pdf_url = Some gs
    /\ BioRxivDirectExtractor._extract_from_url pdf_url
       = <["url" := VStr pdf_url]>
           (BioRxivDirectExtractor._extract_from_url url).
Proof.
  intros Hs.
  destruct (doi_search_inv _ _ Hs) as (y & m & d & v & -> & Hy & Hm & Hd & Hv).
  set (paper_id := y ++ "." ++ m ++ "." ++ d ++ "." ++ v).
  set (pdf_url := "https://www.biorxiv.org/content/10.1101/"
                  ++ paper_id ++ ".full.pdf").
  assert (Hs' : Re.search BioRxivDirectExtractor.DOI_PATTERN pdf_url
                = Some [y; m; d; v]).
  { unfold Re.search, pdf_url.
    pose proof (doi_match false y m d v ".full.pdf" Hy Hm Hd Hv eq_refl) as Hhere.
    destruct doi_pattern_head as [p Hp]. rewrite Hp in Hhere |- *.
    change ("https://www.biorxiv.org/content/10.1101/" ++ paper_id ++ ".full.pdf")
      with ("https://www.biorxiv.org/content/"
            ++ "10.1101/" ++ paper_id ++ ".full.pdf").
    cbn [String.append].
    rewrite !search_skip_lit by reflexivity.
    apply (search_from_here _ _ _ _ ".full.pdf"). exact Hhere. }
  exists pdf_url. split; [| split; [| split]].
  - unfold BioRxivDirectExtractor._extract_from_url. rewrite Hs.
    unfold BioRxivDirectExtractor.metadata_of.
    rewrite !lookup_insert_ne by done. by rewrite lookup_insert_eq.
  - reflexivity.
  - exact Hs'.
  - unfold BioRxivDirectExtractor._extract_from_url. rewrite Hs, Hs'.
    apply metadata_of_url.
Qed.

Lemma biorxiv_pdf_url_round_trip_witness :
  let url := "https://www.biorxiv.org/content/10.1101/2024.06.26.600822v2" in
  Re.search BioRxivDirectExtractor.DOI_PATTERN url
  = Some ["2024"; "06"; "26"; "600822"]
  /\ exists pdf_url,
       BioRxivDirectExtractor._extract_from_url url !! "pdf_url"
       = Some (VStr pdf_url)
       /\ BioRxivDirectExtractor.can_handle pdf_url = true
       /\ Re.search BioRxivDirectExtractor.DOI_PATTERN pdf_url
          = Some ["2024"; "06"; "26"; "600822"]
       /\ BioRxivDirectExtractor._extract_from_url pdf_url
          = <["url" := VStr pdf_url]>
              (BioRxivDirectExtractor._extract_from_url url).
Proof.
  intros url.
  assert (Hs : Re.search BioRxivDirectExtractor.DOI_PATTERN url
               = Some ["2024"; "06"; "26"; "600822"])
    by (vm_compute; reflexivity).
  split; [exact Hs |]. exact (biorxiv_pdf_url_round_trip url _ Hs).
Defined.

(** ** Which URLs the bioRxiv extractor takes *)

Lemma map_app_str f (a b : string) :
  Str.map f (a ++ b) = Str.map f a ++ Str.map f b.
Proof. induction a as [| c a IH]; simpl; [done | by rewrite IH]. Qed.

Lemma map_app_inv f (u a r : string) :
  Str.map f u = a ++ r ->
  exists a' r', u = a' ++ r' /\ Str.map f a' = a /\ Str.map f r' = r.
Proof.
  revert u. induction a as [| c a IH]; intros u H.
  - by exists "", u.
  - destruct u as [| x u]; [done |]. simpl in H. injection H as Hc H.
    destruct (IH _ H) as (a' & r' & -> & Ha & Hr).
    exists (String x a'), r'. simpl. by rewrite Hc, Ha.
Qed.

Lemma prefix_app (n b : string) : String.prefix n (n ++ b) = true.
Proof.
  induction n as [| c n IH]; simpl; [by destruct b |].
  destruct (ascii_dec c c); [exact IH | done].
Qed.

Lemma prefix_inv (n hay : string) :
  String.prefix n hay = true -> exists b, hay = n ++ b.
Proof.
  revert hay. induction n as [| c n IH]; intros hay H; [by exists hay |].
  destruct hay as [| x hay]; [done |]. simpl in H.
  destruct (ascii_dec c x) as [-> |]; [| done].
  destruct (IH _ H) as [b ->]. by exists b.
Qed.

Lemma contains_unfold (n hay : string) :
  Str.contains n hay
  = String.prefix n hay
    || match hay with
       | EmptyString => false
       | String _ hay' => Str.contains n hay'
       end.
Proof. by destruct hay. Qed.

Lemma contains_app (n a b : string) : Str.contains n (a ++ n ++ b) = true.
Proof.
  induction a as [| c a IH].
  - simpl. by rewrite contains_unfold, prefix_app.
  - change (String c a ++ n ++ b) with (String c (a ++ n ++ b)).
    rewrite contains_unfold, IH. apply orb_true_r.
Qed.

Lemma contains_inv (n hay : string) :
  Str.contains n hay = true -> exists a b, hay = a ++ n ++ b.
Proof.
  induction hay as [| c hay IH]; rewrite contains_unfold;
    intros [H | H]%orb_true_iff.
  - destruct (prefix_inv _ _ H) as [b ->]. by exists "", b.
  - done.
  - destruct (prefix_inv _ _ H) as [b ->]. by exists "", b.
  - destruct (IH H) as (a & b & ->). by exists (String c a), b.
Qed.

(** X22: [can_handle] is a test for the text [biorxiv.org], in any letter
    case, anywhere in the URL, and nothing else: it does not look at the
    host name, so a URL of another site that mentions [biorxiv.org] in its
    path or query is taken as well. *)
Theorem can_handle_anywhere (url : string) :
  BioRxivDirectExtractor.can_handle url = true
  <-> exists before s after,
        url = before ++ s ++ after /\ Str.lower s = "biorxiv.org".
Proof.
  unfold BioRxivDirectExtractor.can_handle, Str.lower. split.
  - intros (a & b & H)%contains_inv.
    apply map_app_inv in H as (before & r & -> & <- & H).
    apply map_app_inv in H as (s & after & -> & Hs & <-).
    by exists before, s, after.
  - intros (before & s & after & -> & Hs).
    rewrite !map_app_str, Hs. apply contains_app.
Qed.

Lemma can_handle_anywhere_witness :
  BioRxivDirectExtractor.can_handle
    "https://www.medrxiv.org/content/10.1101/2025.09.22.25336422v1?from=bioRxiv.org"
  = true.
Proof.
  apply (proj2 (can_handle_anywhere _)).
  exists "https://www.medrxiv.org/content/10.1101/2025.09.22.25336422v1?from=",
    "bioRxiv.org", "".
  split; reflexivity.
Defined.

(** ** The record of [patched_convert_to_zotero_format] *)

Lemma patched_builds orig today p :
  builds_record p = true ->
  exists authors,
    patched_convert_to_zotero_format orig today p = build_item today authors p.
Proof.
  unfold builds_record. intros H. apply patched_is_build_item.
  apply orb_true_iff in H as [H | H]; [by right | left].
  by apply negb_true_iff.
Qed.

Lemma patched_built orig today p item :
  builds_record p = true ->
  patched_convert_to_zotero_format orig today p = Ok item ->
  exists authors is_arxiv,
    Py.contains "arxiv.org" (Py.get p "url" (VStr "")) = Ok is_arxiv
    /\ item = strip_empty (zotero_item_fields today authors p is_arxiv).
Proof.
  intros Hb Hp. destruct (patched_builds orig today p Hb) as [authors E].
  rewrite E in Hp. destruct (build_item_Ok _ _ _ _ Hp) as (b & ? & ?). eauto.
Qed.

Lemma strip_empty_kept (m : gmap string value) (k : string) :
  strip_empty m !! k = m !! k ≫= kept.
Proof.
  destruct (m !! k) as [v |] eqn:E; simpl.
  - unfold kept. destruct (truthy v) eqn:Hv.
    + apply strip_empty_lookup. by rewrite E.
    + apply strip_empty_lookup_None. right. eauto.
  - apply strip_empty_lookup_None. by left.
Qed.

Lemma fields_lookup_other today authors p b (k : string) :
  k ∉ RECORD_KEYS -> zotero_item_fields today authors p b !! k = None.
Proof.
  unfold RECORD_KEYS. rewrite !not_elem_of_cons.
  intros (? & ? & ? & ? & ? & ? & ? & ? & ? & ? & _).
  rewrite fields_lookup by done.
  rewrite !lookup_insert_ne by done. apply lookup_empty.
Qed.

(** X7: the record holds no other keys than the ten the converter writes;
    whatever else the input carries ([error], [pdf_url], [authors],
    [extractor], ...) is not passed on.  The access date is the day of the
    conversion. *)
Theorem record_keys orig today p item :
  builds_record p = true ->
  patched_convert_to_zotero_format orig today p = Ok item ->
  (forall k v, item !! k = Some v -> k ∈ RECORD_KEYS)
  /\ item !! "accessDate" = kept (VStr today).
Proof.
  intros Hb Hp. destruct (patched_built _ _ _ _ Hb Hp) as (authors & b & _ & ->).
  split.
  - intros k v Hk. destruct (decide (k ∈ RECORD_KEYS)) as [| Hn]; [done |].
    apply strip_empty_lookup in Hk as [Hk _].
    by rewrite (fields_lookup_other _ _ _ _ _ Hn) in Hk.
  - rewrite strip_empty_kept. unfold zotero_item_fields.
    by rewrite lookup_insert_eq.
Qed.

Lemma record_keys_witness :
  let p : gmap string value :=
    <["error" := VStr "timeout"]>
    (<["pdf_url" := VStr "https://x/y.pdf"]> {[ "title" := VStr "T" ]}) in
  let item : gmap string value :=
    <["itemType" := VStr "journalArticle"]>
    (<["title" := VStr "T"]> {[ "accessDate" := VStr "2026-11-03" ]}) in
  builds_record p = true
  /\ patched_convert_to_zotero_format (fun _ => Raise TypeError) "2026-11-03" p
     = Ok item
  /\ (forall k v, item !! k = Some v -> k ∈ RECORD_KEYS)
  /\ item !! "accessDate" = kept (VStr "2026-11-03").
Proof.
  intros p item.
  assert (Hb : builds_record p = true) by (vm_compute; reflexivity).
  assert (Hp : patched_convert_to_zotero_format (fun _ => Raise TypeError)
                 "2026-11-03" p = Ok item) by (vm_compute; reflexivity).
  split; [exact Hb |]. split; [exact Hp |].
  exact (record_keys _ _ _ _ Hb Hp).
Defined.

(** X8: a [url] that is [None], a number or [bytes] makes the converter
    raise [TypeError] (the test ['arxiv.org' in url] is outside the
    [try]); with a string, a list or no [url] at all it returns a
    record. *)
Theorem record_url_type orig today p :
  builds_record p = true ->
  match Py.get p "url" (VStr "") with
  | VNone | VInt _ | VBytes _ =>
      patched_convert_to_zotero_format orig today p = Raise TypeError
  | VStr _ | VList _ =>
      exists item, patched_convert_to_zotero_format orig today p = Ok item
  end.
Proof.
  intros Hb. destruct (patched_builds orig today p Hb) as [authors ->].
  unfold build_item. destruct (Py.get p "url" (VStr "")); simpl; eauto.
Qed.

Lemma record_url_type_witness :
  let p : gmap string value := {[ "url" := VNone ]} in
  builds_record p = true
  /\ patched_convert_to_zotero_format (fun _ => Ok ∅) "2026-11-03" p
     = Raise TypeError.
Proof.
  intros p.
  assert (Hb : builds_record p = true) by (vm_compute; reflexivity).
  split; [exact Hb |].
  exact (record_url_type (fun _ => Ok ∅) "2026-11-03" p Hb).
Defined.

(** The fields of a built record, read off the input. *)
Lemma built_fields today authors p b :
  let item := strip_empty (zotero_item_fields today authors p b) in
  item !! "title" = kept (Py.get p "title" (VStr ""))
  /\ item !! "url" = kept (Py.get p "url" (VStr ""))
  /\ item !! "DOI" = kept (Py.get_none p "DOI")
  /\ item !! "repository" = kept (Py.get_none p "repository")
  /\ item !! "libraryCatalog" = kept (Py.get_none p "libraryCatalog")
  /\ item !! "date" = kept (normalize_date_value (Py.get p "date" (VStr "")))
  /\ item !! "itemType"
     = kept (if b then VStr "preprint"
             else Py.get p "itemType" (VStr "journalArticle"))
  /\ item !! "abstractNote"
     = kept (Py.or (Py.get_none p "abstractNote")
                   (Py.get p "abstract" (VStr ""))).
Proof.
  intros item. unfold item.
  assert (Hcopy : forall (key : string) (m : gmap string value),
            m !! key = None ->
            copy_if_set p key m !! key ≫= kept = kept (Py.get_none p key)).
  { intros key m Hm. unfold copy_if_set, kept.
    destruct (truthy (Py.get_none p key)) eqn:Ht.
    - rewrite lookup_insert_eq. simpl. by rewrite Ht.
    - by rewrite Hm. }
  rewrite !strip_empty_kept. repeat split.
  - rewrite fields_lookup by done.
    rewrite lookup_insert_ne by done. by rewrite lookup_insert_eq.
  - rewrite fields_lookup by done.
    rewrite !lookup_insert_ne by done. by rewrite lookup_insert_eq.
  - unfold zotero_item_fields. rewrite lookup_insert_ne by done.
    rewrite !copy_if_set_lookup_ne by done. apply Hcopy.
    rewrite !lookup_insert_ne by done. apply lookup_empty.
  - unfold zotero_item_fields. rewrite lookup_insert_ne by done.
    rewrite !copy_if_set_lookup_ne by done. apply Hcopy.
    rewrite copy_if_set_lookup_ne by done.
    rewrite !lookup_insert_ne by done. apply lookup_empty.
  - unfold zotero_item_fields. rewrite lookup_insert_ne by done. apply Hcopy.
    rewrite !copy_if_set_lookup_ne by done.
    rewrite !lookup_insert_ne by done. apply lookup_empty.
  - rewrite fields_lookup by done.
    rewrite !lookup_insert_ne by done. by rewrite lookup_insert_eq.
  - rewrite fields_lookup by done. by rewrite lookup_insert_eq.
  - rewrite fields_lookup by done.
    rewrite !lookup_insert_ne by done. by rewrite lookup_insert_eq.
Qed.

(** X9: the fields [title], [url], [DOI], [repository] and
    [libraryCatalog] are those of the input, each one present exactly when
    its value is truthy; the date of the record is the normalised date of
    the input when that is an ASCII string, and the input's own value when
    it is not a string. *)
Theorem record_copied_fields orig today p item :
  builds_record p = true ->
  patched_convert_to_zotero_format orig today p = Ok item ->
  item !! "title" = kept (Py.get p "title" (VStr ""))
  /\ item !! "url" = kept (Py.get p "url" (VStr ""))
  /\ item !! "DOI" = kept (Py.get_none p "DOI")
  /\ item !! "repository" = kept (Py.get_none p "repository")
  /\ item !! "libraryCatalog" = kept (Py.get_none p "libraryCatalog")
  /\ match Py.get p "date" (VStr "") with
     | VStr date =>
         ascii_text date = true ->
         item !! "date" = kept (VStr (normalize_date date))
     | date => item !! "date" = kept date
     end.
Proof.
  intros Hb Hp. destruct (patched_built _ _ _ _ Hb Hp) as (authors & b & _ & ->).
  destruct (built_fields today authors p b) as (? & ? & ? & ? & ? & Hd & _).
  repeat split; try done.
  by destruct (Py.get p "date" (VStr "")).
Qed.

Lemma record_copied_fields_witness :
  let p : gmap string value :=
    <["title" := VStr "T"]>
    (<["DOI" := VStr ""]> {[ "date" := VStr "3 Mar 2021" ]}) in
  let item : gmap string value :=
    <["itemType" := VStr "journalArticle"]>
    (<["title" := VStr "T"]>
    (<["date" := VStr "2021-03-03"]> {[ "accessDate" := VStr "2026-11-03" ]})) in
  builds_record p = true
  /\ patched_convert_to_zotero_format (fun _ => Raise TypeError) "2026-11-03" p
     = Ok item
  /\ item !! "DOI" = kept (Py.get_none p "DOI")
  /\ item !! "date" = kept (VStr (normalize_date "3 Mar 2021")).
Proof.
  intros p item.
  assert (Hb : builds_record p = true) by (vm_compute; reflexivity).
  assert (Hp : patched_convert_to_zotero_format (fun _ => Raise TypeError)
                 "2026-11-03" p = Ok item) by (vm_compute; reflexivity).
  split; [exact Hb |]. split; [exact Hp |].
  destruct (record_copied_fields _ _ _ _ Hb Hp) as (_ & _ & H3 & _ & _ & H6).
  exact (conj H3 (H6 eq_refl)).
Defined.

(** X10: the item type of the record.  With ['arxiv.org'] in the url it is
    ['preprint']; otherwise it is the [itemType] of the input,
    ['journalArticle'] when the input has none, and absent from the
    record when the input's [itemType] is falsy (an empty string, say). *)
Theorem record_item_type orig today p item :
  builds_record p = true ->
  patched_convert_to_zotero_format orig today p = Ok item ->
  exists is_arxiv,
    Py.contains "arxiv.org" (Py.get p "url" (VStr "")) = Ok is_arxiv
    /\ item !! "itemType"
       = if (is_arxiv : bool) then Some (VStr "preprint")
         else match p !! "itemType" with
              | None => Some (VStr "journalArticle")
              | Some v => kept v
              end.
Proof.
  intros Hb Hp. destruct (patched_built _ _ _ _ Hb Hp) as (authors & b & Hc & ->).
  exists b. split; [done |].
  rewrite strip_empty_kept, fields_lookup by done.
  rewrite lookup_insert_eq. simpl. destruct b; [done |].
  unfold Py.get. by destruct (p !! "itemType").
Qed.

Lemma record_item_type_witness :
  let p : gmap string value :=
    <["itemType" := VStr ""]> {[ "url" := VStr "https://www.nature.com/x" ]} in
  let item : gmap string value :=
    <["url" := VStr "https://www.nature.com/x"]>
    {[ "accessDate" := VStr "2026-11-03" ]} in
  builds_record p = true
  /\ patched_convert_to_zotero_format (fun _ => Raise TypeError) "2026-11-03" p
     = Ok item
  /\ item !! "itemType" = None.
Proof.
  intros p item.
  assert (Hb : builds_record p = true) by (vm_compute; reflexivity).
  assert (Hp : patched_convert_to_zotero_format (fun _ => Raise TypeError)
                 "2026-11-03" p = Ok item) by (vm_compute; reflexivity).
  split; [exact Hb |]. split; [exact Hp |].
  destruct (record_item_type _ _ _ _ Hb Hp) as (b & Hc & Ht).
  vm_compute in Hc. injection Hc as <-. exact Ht.
Defined.

(** X11: the abstract of the record is [abstractNote] when that is truthy,
    otherwise [abstract]; when neither is, the record has no abstract. *)
Theorem record_abstract orig today p item :
  builds_record p = true ->
  patched_convert_to_zotero_format orig today p = Ok item ->
  item !! "abstractNote"
  = if truthy (Py.get_none p "abstractNote")
    then Some (Py.get_none p "abstractNote")
    else kept (Py.get p "abstract" (VStr "")).
Proof.
  intros Hb Hp. destruct (patched_built _ _ _ _ Hb Hp) as (authors & b & Hc & ->).
  rewrite strip_empty_kept, fields_lookup by done.
  rewrite !lookup_insert_ne by done. rewrite lookup_insert_eq. simpl.
  unfold Py.or, kept.
  destruct (truthy (Py.get_none p "abstractNote")) eqn:H1; [by rewrite H1 | done].
Qed.

Lemma record_abstract_witness :
  let p : gmap string value :=
    <["abstractNote" := VStr ""]> {[ "abstract" := VStr "We show." ]} in
  let item : gmap string value :=
    <["itemType" := VStr "journalArticle"]>
    (<["abstractNote" := VStr "We show."]>
    {[ "accessDate" := VStr "2026-11-03" ]}) in
  builds_record p = true
  /\ patched_convert_to_zotero_format (fun _ => Raise TypeError) "2026-11-03" p
     = Ok item
  /\ item !! "abstractNote" = Some (VStr "We show.").
Proof.
  intros p item.
  assert (Hb : builds_record p = true) by (vm_compute; reflexivity).
  assert (Hp : patched_convert_to_zotero_format (fun _ => Raise TypeError)
                 "2026-11-03" p = Ok item) by (vm_compute; reflexivity).
  split; [exact Hb |]. split; [exact Hp |].
  exact (record_abstract _ _ _ _ Hb Hp).
Defined.

(** X12: without [creators] and without [authors] the record has no
    creators at all: the empty list is filtered out like any empty field. *)
Theorem record_without_creators orig today p item :
  truthy (Py.get_none p "creators") = false ->
  truthy (Py.get_none p "authors") = false ->
  patched_convert_to_zotero_format orig today p = Ok item ->
  item !! "creators" = None.
Proof.
  intros Hc Ha. unfold patched_convert_to_zotero_format. rewrite Hc, Ha. simpl.
  intros Hp. destruct (build_item_Ok _ _ _ _ Hp) as (b & _ & ->).
  rewrite strip_empty_kept, fields_lookup by done.
  rewrite !lookup_insert_ne by done. by rewrite lookup_insert_eq.
Qed.

Lemma record_without_creators_witness :
  let p : gmap string value :=
    <["creators" := VList []]> {[ "title" := VStr "T" ]} in
  let item : gmap string value :=
    <["itemType" := VStr "journalArticle"]>
    (<["title" := VStr "T"]> {[ "accessDate" := VStr "2026-11-03" ]}) in
  patched_convert_to_zotero_format (fun _ => Raise TypeError) "2026-11-03" p
  = Ok item
  /\ item !! "creators" = None.
Proof.
  intros p item.
  assert (Hp : patched_convert_to_zotero_format (fun _ => Raise TypeError)
                 "2026-11-03" p = Ok item) by (vm_compute; reflexivity).
  split; [exact Hp |].
  exact (record_without_creators _ _ p item eq_refl eq_refl Hp).
Defined.

(** ** The title shown *)

(** X13: the title shown to the user is never empty, with the plain
    placeholder as with the arXiv one: one of the result's title, the
    caller's title and the placeholder is always truthy. *)
Theorem shown_title_not_empty result paper_title arxiv_id :
  truthy (actual_title result paper_title) = true
  /\ truthy (actual_title_arxiv arxiv_id result paper_title) = true.
Proof.
  unfold actual_title, actual_title_arxiv. rewrite !title_or_cases.
  destruct (truthy (Py.get_none result "title")) eqn:H1; [done |].
  by destruct (truthy paper_title) eqn:H2.
Qed.

(** ** [trace_url_processing]: what reaches the converter *)

Lemma show_initial_spec url metadata :
  show_initial (initial_paper_info url metadata)
  = if from_option Py.sized true (metadata !! "creators")
    then Ok tt else Raise TypeError.
Proof.
  unfold show_initial. rewrite initial_paper_info_lookup. simpl.
  destruct (metadata !! "creators") as [v |]; simpl; [| done].
  unfold Py.check_len, Py.check_slice. by destruct (Py.sized v).
Qed.

Lemma show_input_spec url metadata :
  show_input (initial_paper_info url metadata)
  = if displayable metadata then Ok tt else Raise TypeError.
Proof.
  unfold show_input, displayable. rewrite !initial_paper_info_lookup. simpl.
  unfold Py.check_len, Py.check_slice.
  destruct (metadata !! "authors") as [a |]; simpl;
    destruct (metadata !! "creators") as [c |]; simpl;
    repeat match goal with |- context [Py.sized ?v] => destruct (Py.sized v) end;
    done.
Qed.

Lemma show_creators_built today authors p b :
  show_creators (strip_empty (zotero_item_fields today authors p b)) = Ok tt.
Proof.
  unfold show_creators, Py.get. rewrite strip_empty_kept.
  rewrite fields_lookup by done.
  rewrite !lookup_insert_ne by done. rewrite lookup_insert_eq. simpl.
  by destruct authors.
Qed.

(** X14: the trace of a URL without [arxiv.org] whose extraction gave
    sound metadata, when the converter builds the record itself.  If the
    [creators] or the [authors] of the metadata is [None] or a number, the
    steps that show them raise [TypeError] and the converter is not
    called.  Otherwise the converter is called once, with a [paper_info]
    built from four things only: the title of the metadata (['Unknown'] if
    it has none), the URL that was given (not the metadata's), and
    [authors] and [creators] when the metadata has them.  So the record
    shown has neither date, DOI nor abstract, whatever the metadata held;
    it has the given URL and the default item type. *)
Theorem trace_record extract arxiv enhance orig today (url : string) metadata :
  Str.contains "arxiv.org" url = false ->
  extract url = Ok metadata ->
  metadata <> ∅ ->
  metadata !! "error" = None ->
  builds_record (initial_paper_info url metadata) = true ->
  let run := trace_url_processing extract arxiv enhance orig today url in
  (displayable metadata = false -> run = ([], Failed TypeError))
  /\ (displayable metadata = true ->
      exists item,
        run = ([Convert (initial_paper_info url metadata)], Traced item)
        /\ item !! "url" = kept (VStr url)
        /\ item !! "title" = kept (Py.get metadata "title" (VStr "Unknown"))
        /\ item !! "itemType" = Some (VStr "journalArticle")
        /\ item !! "date" = None
        /\ item !! "DOI" = None
        /\ item !! "abstractNote" = None
        /\ item !! "repository" = None).
Proof.
  intros Hurl Hex Hne Herr Hb run. unfold run, trace_url_processing.
  unfold extracted_metadata. rewrite Hurl, Hex.
  assert (Hf : faulted metadata = false).
  { unfold faulted. rewrite (bool_decide_eq_false_2 _ Hne).
    rewrite bool_decide_eq_false_2; [done |]. rewrite Herr. by intros [? ?]. }
  rewrite Hf. unfold convert_extracted.
  rewrite show_initial_spec, Hurl. simpl.
  split.
  - intros Hd. unfold displayable in Hd.
    destruct (from_option Py.sized true (metadata !! "creators")) eqn:Hc;
      [| done].
    rewrite show_input_spec. unfold displayable. by rewrite Hc, Hd.
  - intros Hd. pose proof Hd as Hd'. unfold displayable in Hd'.
    apply andb_true_iff in Hd' as [Hc _]. rewrite Hc.
    rewrite show_input_spec, Hd.
    set (p := initial_paper_info url metadata) in *.
    assert (Hget : forall (k : string) d,
              k <> "creators" -> k <> "authors" -> k <> "title" -> k <> "url" ->
              Py.get p k d = d).
    { intros k d ? ? ? ?. unfold Py.get, p. rewrite initial_paper_info_lookup.
      by repeat case_decide. }
    assert (Hu : Py.get p "url" (VStr "") = VStr url).
    { unfold Py.get, p. by rewrite initial_paper_info_lookup. }
    assert (Ht : Py.get p "title" (VStr "")
                 = Py.get metadata "title" (VStr "Unknown")).
    { unfold Py.get at 1. unfold p. by rewrite initial_paper_info_lookup. }
    destruct (patched_builds orig today p Hb) as [authors E].
    rewrite E. unfold build_item. rewrite Hu. simpl. rewrite Hurl. simpl.
    rewrite show_creators_built. eexists. split; [reflexivity |].
    destruct (built_fields today authors p false)
      as (H1 & H2 & H3 & H4 & _ & H6 & H7 & H8).
    rewrite Hu in H2. rewrite Ht in H1.
    unfold Py.get_none in *. rewrite !Hget in * by done.
    by repeat split.
Qed.

Lemma trace_record_witness :
  let url := "https://www.biorxiv.org/content/10.1101/2024.06.26.600822v2" in
  let metadata : gmap string value :=
    <["title" := VStr "A title"]>
    (<["date" := VStr "2024-06-26"]>
    (<["DOI" := VStr "10.1101/2024.06.26.600822"]>
    {[ "url" := VStr "https://elsewhere.example/" ]})) in
  let extract : string -> result (gmap string value) := fun _ => Ok metadata in
  Str.contains "arxiv.org" url = false
  /\ metadata <> ∅ /\ metadata !! "error" = None
  /\ builds_record (initial_paper_info url metadata) = true
  /\ displayable metadata = true
  /\ exists item,
       trace_url_processing extract extract Ok Ok "2026-11-03" url
       = ([Convert (initial_paper_info url metadata)], Traced item)
       /\ item !! "url" = kept (VStr url)
       /\ item !! "date" = None
       /\ item !! "DOI" = None.
Proof.
  intros url metadata extract.
  assert (Hne : metadata <> ∅).
  { intros E. apply (f_equal (fun m : gmap string value => m !! "title")) in E.
    vm_compute in E. discriminate. }
  assert (Herr : metadata !! "error" = None) by (vm_compute; reflexivity).
  assert (Hurl : Str.contains "arxiv.org" url = false) by (vm_compute; reflexivity).
  assert (Hb : builds_record (initial_paper_info url metadata) = true)
    by (vm_compute; reflexivity).
  assert (Hd : displayable metadata = true) by (vm_compute; reflexivity).
  split; [exact Hurl |]. split; [exact Hne |]. split; [exact Herr |].
  split; [exact Hb |]. split; [exact Hd |].
  destruct (proj2 (trace_record extract extract Ok Ok "2026-11-03" url metadata
                     Hurl eq_refl Hne Herr Hb) Hd)
    as (item & H0 & H1 & _ & _ & H4 & H5 & _).
  exists item. by repeat split.
Defined.

(** ** The choice of a PDF in an archive ([zip_extractor.py]) *)

Lemma insert_head {A} (key : A -> Z) (x : A) (l : list A) :
  exists t rest,
    Seq.insert key x l = t :: rest
    /\ match l with
       | [] => t = x
       | y :: _ => t = if (key x <? key y)%Z then y else x
       end.
Proof.
  destruct l as [| y l]; simpl; [eauto |].
  destruct (key x <? key y)%Z; eauto.
Qed.

(** The head of a list sorted by decreasing key is the first element of
    the list that has the largest key. *)
Lemma sort_desc_head {A} (key : A -> Z) (l : list A) (t : A) rest :
  Seq.sort_desc key l = t :: rest ->
  exists pre post,
    l = (pre ++ t :: post)%list
    /\ (forall x, In x pre -> (key x < key t)%Z)
    /\ (forall x, In x post -> (key x <= key t)%Z).
Proof.
  revert t rest. induction l as [| x l IH]; intros t rest; [done |].
  unfold Seq.sort_desc. simpl. fold (Seq.sort_desc key l).
  destruct (Seq.sort_desc key l) as [| t' rest'] eqn:E.
  - simpl. intros [= <- <-]. destruct l as [| y l].
    + exists [], []. by repeat split.
    + exfalso. unfold Seq.sort_desc in E. simpl in E.
      destruct (insert_head key y (List.fold_right (Seq.insert key) [] l))
        as (? & ? & Hi & _).
      congruence.
  - destruct (IH _ _ eq_refl) as (pre & post & -> & Hpre & Hpost).
    simpl. destruct (key x <? key t')%Z eqn:Hlt.
    + intros [= <- <-]. apply Z.ltb_lt in Hlt.
      exists (x :: pre), post. repeat split; [| done].
      intros y [<- | Hy]; [done | by apply Hpre].
    + intros [= <- <-]. apply Z.ltb_ge in Hlt.
      exists [], (pre ++ t' :: post)%list. repeat split; [done |].
      intros y Hy. apply in_app_iff in Hy as [Hy | [<- | Hy]].
      * specialize (Hpre _ Hy). lia.
      * done.
      * specialize (Hpost _ Hy). lia.
Qed.

Lemma sort_desc_nonempty {A} (key : A -> Z) (x : A) (l : list A) :
  Seq.sort_desc key (x :: l) <> [].
Proof.
  unfold Seq.sort_desc. simpl.
  destruct (insert_head key x (List.fold_right (Seq.insert key) [] l))
    as (? & ? & -> & _).
  done.
Qed.

(** X15: the priority of a PDF name is one of -50, 0, 50, 100 and 150, and
    a name without [/] (a file at the top of the archive) never ranks
    below a name with one. *)
Theorem pdf_priority_range (a b : string) :
  In (ZipPDFExtractor._get_pdf_priority a) [-50; 0; 50; 100; 150]%Z
  /\ (Str.contains "/" a = false -> Str.contains "/" b = true ->
      (ZipPDFExtractor._get_pdf_priority b
       <= ZipPDFExtractor._get_pdf_priority a)%Z).
Proof.
  unfold ZipPDFExtractor._get_pdf_priority. split.
  - destruct (Str.contains "/" a);
      destruct (List.existsb _ ZipPDFExtractor.main_keywords);
      destruct (List.existsb _ ZipPDFExtractor.supplement_keywords);
      simpl; tauto.
  - intros -> ->. simpl negb. cbv iota.
    destruct (List.existsb _ ZipPDFExtractor.main_keywords);
      destruct (List.existsb _ ZipPDFExtractor.supplement_keywords);
      destruct (List.existsb _ ZipPDFExtractor.main_keywords);
      destruct (List.existsb _ ZipPDFExtractor.supplement_keywords);
      lia.
Qed.

Lemma pdf_priority_range_witness :
  Str.contains "/" "thesis.pdf" = false
  /\ Str.contains "/" "docs/main_paper.pdf" = true
  /\ (ZipPDFExtractor._get_pdf_priority "docs/main_paper.pdf"
      <= ZipPDFExtractor._get_pdf_priority "thesis.pdf")%Z.
Proof.
  assert (Ha : Str.contains "/" "thesis.pdf" = false) by reflexivity.
  assert (Hb : Str.contains "/" "docs/main_paper.pdf" = true) by reflexivity.
  split; [exact Ha |]. split; [exact Hb |].
  exact (proj2 (pdf_priority_range "thesis.pdf" "docs/main_paper.pdf") Ha Hb).
Defined.

Lemma split_whole sep (s : string) :
  Str.existsb (fun c => Ascii.eqb c sep) s = false -> Path.split sep s = [s].
Proof.
  induction s as [| c s IH]; simpl; [done |].
  intros [Hc Hs]%orb_false_iff. by rewrite Hc, (IH Hs).
Qed.

Lemma split_cons sep (s : string) :
  exists piece pieces, Path.split sep s = piece :: pieces.
Proof.
  induction s as [| c s (p & ps & IH)]; simpl; [eauto |].
  destruct (Ascii.eqb c sep); [eauto |]. rewrite IH. eauto.
Qed.

Lemma split_two sep (s : string) :
  Str.existsb (fun c => Ascii.eqb c sep) s = true ->
  exists p q qs, Path.split sep s = p :: q :: qs.
Proof.
  induction s as [| c s IH]; simpl; [done |].
  destruct (Ascii.eqb c sep) eqn:Hc.
  - intros _. destruct (split_cons sep s) as (q & qs & ->). eauto.
  - simpl. intros Hs. destruct (IH Hs) as (p & q & qs & ->). eauto.
Qed.

Lemma last_piece_cons sep c (s : string) :
  Path.last_piece sep (String c s)
  = if Str.existsb (fun x => Ascii.eqb x sep) (String c s)
    then Path.last_piece sep s
    else String c s.
Proof.
  unfold Path.last_piece. simpl.
  destruct (Ascii.eqb c sep) eqn:Hc; simpl.
  - by destruct (split_cons sep s) as (q & qs & ->).
  - destruct (Str.existsb (fun x => Ascii.eqb x sep) s) eqn:Hs.
    + by destruct (split_two sep s Hs) as (p & q & qs & ->).
    + by rewrite (split_whole sep s Hs).
Qed.

Lemma last_piece_spec sep (s : string) :
  Str.existsb (fun c => Ascii.eqb c sep) (Path.last_piece sep s) = false
  /\ (exists dir, s = dir ++ Path.last_piece sep s)
  /\ (Str.existsb (fun c => Ascii.eqb c sep) s = false ->
      Path.last_piece sep s = s).
Proof.
  induction s as [| c s (IH1 & (dir & IH2) & IH3)].
  - split; [done |]. split; [by exists "" | done].
  - rewrite last_piece_cons.
    destruct (Str.existsb _ (String c s)) eqn:E.
    + split; [done |]. split; [| done].
      exists (String c dir). simpl. by rewrite <- IH2.
    + split; [done |]. split; [by exists "" | done].
Qed.

Lemma starts_with_length (prefix data : list Byte.byte) :
  Seq.starts_with prefix data = true -> length prefix <= length data.
Proof.
  revert data. induction prefix as [| p prefix IH]; intros [| d data]; simpl;
    try done; try lia.
  intros [_ H]%andb_true_iff. specialize (IH _ H). lia.
Qed.

Section ZipChoice.

Variable read : string -> option (list Byte.byte).

Lemma extract_pdf_entry_Some file_list source_url r :
  ZipPDFExtractor.extract_pdf_entry read file_list source_url = Some r ->
  exists t rest,
    Seq.sort_desc ZipPDFExtractor._get_pdf_priority
      (ZipPDFExtractor._find_pdf_files file_list) = t :: rest
    /\ read t = Some (ZipPDFExtractor.pdf_data r)
    /\ ZipPDFExtractor._is_pdf_data (ZipPDFExtractor.pdf_data r) = true
    /\ r = ZipPDFExtractor.PdfResult (ZipPDFExtractor.pdf_data r)
             (Path.last_piece "/" t)
             (Z.of_nat (length (ZipPDFExtractor.pdf_data r)))
             ("ZIP文件 (来源: " ++ source_url ++ ")") "PDF" t
             (Z.of_nat (length file_list)).
Proof.
  unfold ZipPDFExtractor.extract_pdf_entry.
  destruct (ZipPDFExtractor._find_pdf_files file_list) as [| f fs]; [done |].
  destruct (Seq.sort_desc _ (f :: fs)) as [| t rest]; [done |].
  destruct (read t) as [data |] eqn:Hr; [| done].
  destruct (ZipPDFExtractor._is_pdf_data data) eqn:Hd; [| done].
  simpl. intros [= <-]. exists t, rest. by repeat split.
Qed.

(** X16: the PDF taken out of an archive with ASCII names is the entry
    with the largest priority among the names ending in [.pdf] (in any
    letter case), and of several with that priority the one that comes
    first in the archive. *)
Theorem pdf_choice file_list source_url r :
  List.forallb ascii_text file_list = true ->
  ZipPDFExtractor.extract_pdf_entry read file_list source_url = Some r ->
  exists pre post,
    ZipPDFExtractor._find_pdf_files file_list
    = (pre ++ ZipPDFExtractor.original_path r :: post)%list
    /\ (forall x, In x pre ->
          (ZipPDFExtractor._get_pdf_priority x
           < ZipPDFExtractor._get_pdf_priority (ZipPDFExtractor.original_path r))%Z)
    /\ (forall x, In x post ->
          (ZipPDFExtractor._get_pdf_priority x
           <= ZipPDFExtractor._get_pdf_priority (ZipPDFExtractor.original_path r))%Z)
    /\ In (ZipPDFExtractor.original_path r) file_list
    /\ ZipPDFExtractor.is_pdf_name (ZipPDFExtractor.original_path r) = true
    /\ read (ZipPDFExtractor.original_path r) = Some (ZipPDFExtractor.pdf_data r).
Proof.
  intros _ (t & rest & Hsort & Hread & _ & Hr)%extract_pdf_entry_Some.
  rewrite Hr. simpl.
  destruct (sort_desc_head _ _ _ _ Hsort) as (pre & post & Hl & Hpre & Hpost).
  exists pre, post. repeat split; try done.
  - apply (proj1 (List.filter_In ZipPDFExtractor.is_pdf_name t file_list)).
    fold (ZipPDFExtractor._find_pdf_files file_list). rewrite Hl.
    apply in_app_iff. right. by left.
  - apply (proj1 (List.filter_In ZipPDFExtractor.is_pdf_name t file_list)).
    fold (ZipPDFExtractor._find_pdf_files file_list). rewrite Hl.
    apply in_app_iff. right. by left.
Qed.

(** X17: the result of an extraction from an archive with ASCII names is
    consistent: the data starts with [%PDF], [size] is its length,
    [zip_file_count] is the number of names in the archive, and [filename]
    is the path without its folders: it has no [/] and the path ends with
    it. *)
Theorem pdf_result_fields file_list source_url r :
  List.forallb ascii_text file_list = true ->
  ZipPDFExtractor.extract_pdf_entry read file_list source_url = Some r ->
  ZipPDFExtractor._is_pdf_data (ZipPDFExtractor.pdf_data r) = true
  /\ ZipPDFExtractor.size r = Z.of_nat (length (ZipPDFExtractor.pdf_data r))
  /\ (4 <= ZipPDFExtractor.size r)%Z
  /\ ZipPDFExtractor.zip_file_count r = Z.of_nat (length file_list)
  /\ ZipPDFExtractor.format r = "PDF"
  /\ Str.existsb (fun c => Ascii.eqb c "/") (ZipPDFExtractor.filename r) = false
  /\ (exists dir,
        ZipPDFExtractor.original_path r = dir ++ ZipPDFExtractor.filename r)
  /\ (Str.existsb (fun c => Ascii.eqb c "/") (ZipPDFExtractor.original_path r)
      = false ->
      ZipPDFExtractor.filename r = ZipPDFExtractor.original_path r).
Proof.
  intros _ (t & rest & _ & _ & Hpdf & Hr)%extract_pdf_entry_Some.
  rewrite Hr. simpl.
  destruct (last_piece_spec "/" t) as (H1 & H2 & H3).
  repeat split; try done.
  apply starts_with_length in Hpdf. simpl in Hpdf. lia.
Qed.

(** X18: in an archive with ASCII names only the best-ranked PDF is
    looked at.  If it cannot be read, or does not start with [%PDF], the
    extraction gives nothing, whatever the other entries are; and there is
    nothing to extract when no name ends in [.pdf]. *)
Theorem pdf_choice_not_retried file_list source_url :
  List.forallb ascii_text file_list = true ->
  (ZipPDFExtractor._find_pdf_files file_list = [] ->
   ZipPDFExtractor.extract_pdf_entry read file_list source_url = None)
  /\ (forall t rest,
        Seq.sort_desc ZipPDFExtractor._get_pdf_priority
          (ZipPDFExtractor._find_pdf_files file_list) = t :: rest ->
        (read t = None
         \/ exists data,
              read t = Some data /\ ZipPDFExtractor._is_pdf_data data = false) ->
        ZipPDFExtractor.extract_pdf_entry read file_list source_url = None).
Proof.
  intros _. unfold ZipPDFExtractor.extract_pdf_entry. split.
  - by intros ->.
  - intros t rest Hsort Hbad.
    destruct (ZipPDFExtractor._find_pdf_files file_list) as [| f fs]; [done |].
    rewrite Hsort.
    destruct Hbad as [-> | (data & -> & Hd)]; [done |]. by rewrite Hd.
Qed.

End ZipChoice.

Lemma sample_ascii : List.forallb ascii_text sample_names = true.
Proof. reflexivity. Qed.

Lemma sample_extracted :
  ZipPDFExtractor.extract_pdf_entry sample_read sample_names "u"
  = Some sample_result.
Proof. vm_compute. reflexivity. Qed.

Lemma pdf_choice_witness :
  List.forallb ascii_text sample_names = true
  /\ ZipPDFExtractor.extract_pdf_entry sample_read sample_names "u"
     = Some sample_result
  /\ exists pre post,
       ZipPDFExtractor._find_pdf_files sample_names
       = (pre ++ ZipPDFExtractor.original_path sample_result :: post)%list
       /\ (forall x, In x pre ->
             (ZipPDFExtractor._get_pdf_priority x
              < ZipPDFExtractor._get_pdf_priority
                  (ZipPDFExtractor.original_path sample_result))%Z)
       /\ (forall x, In x post ->
             (ZipPDFExtractor._get_pdf_priority x
              <= ZipPDFExtractor._get_pdf_priority
                   (ZipPDFExtractor.original_path sample_result))%Z)
       /\ In (ZipPDFExtractor.original_path sample_result) sample_names
       /\ ZipPDFExtractor.is_pdf_name
            (ZipPDFExtractor.original_path sample_result) = true
       /\ sample_read (ZipPDFExtractor.original_path sample_result)
          = Some (ZipPDFExtractor.pdf_data sample_result).
Proof.
  split; [exact sample_ascii |]. split; [exact sample_extracted |].
  exact (pdf_choice sample_read sample_names "u" sample_result
           sample_ascii sample_extracted).
Defined.

Lemma pdf_result_fields_witness :
  List.forallb ascii_text sample_names = true
  /\ ZipPDFExtractor.extract_pdf_entry sample_read sample_names "u"
     = Some sample_result
  /\ ZipPDFExtractor.size sample_result
     = Z.of_nat (length (ZipPDFExtractor.pdf_data sample_result))
  /\ Str.existsb (fun c => Ascii.eqb c "/")
       (ZipPDFExtractor.filename sample_result) = false.
Proof.
  split; [exact sample_ascii |]. split; [exact sample_extracted |].
  destruct (pdf_result_fields sample_read sample_names "u" sample_result
              sample_ascii sample_extracted) as (_ & H2 & _ & _ & _ & H6 & _).
  exact (conj H2 H6).
Defined.

Lemma pdf_choice_not_retried_witness :
  let names := ["main.pdf"; "paper.pdf"] in
  List.forallb ascii_text names = true
  /\ Seq.sort_desc ZipPDFExtractor._get_pdf_priority
    (ZipPDFExtractor._find_pdf_files names) = ["main.pdf"; "paper.pdf"]
  /\ sample_read "main.pdf" = None
  /\ sample_read "paper.pdf"
     = Some [Byte.x25; Byte.x50; Byte.x44; Byte.x46; Byte.x2d]
  /\ ZipPDFExtractor.extract_pdf_entry sample_read names "u" = None.
Proof.
  intros names.
  assert (Hs : Seq.sort_desc ZipPDFExtractor._get_pdf_priority
                 (ZipPDFExtractor._find_pdf_files names)
               = ["main.pdf"; "paper.pdf"]) by (vm_compute; reflexivity).
  assert (Hr : sample_read "main.pdf" = None) by reflexivity.
  split; [reflexivity |].
  split; [exact Hs |]. split; [exact Hr |]. split; [reflexivity |].
  exact (proj2 (pdf_choice_not_retried sample_read names "u" eq_refl)
           "main.pdf" ["paper.pdf"] Hs (or_introl Hr)).
Defined.

(** ** The rewriting of [extractor_manager.py] ([cleanup_nature.py]) *)

Lemma filter_lines_sublist b (lines : list string) :
  sublist (Cleanup.filter_lines b lines) lines.
Proof.
  revert b. induction lines as [| line lines IH]; intros b; simpl; [done |].
  destruct (Str.contains Cleanup.IMPORT_LINE line); [by apply sublist_cons |].
  destruct (Str.contains Cleanup.CONSTRUCTION line); [by apply sublist_cons |].
  destruct (b && _); [by apply sublist_cons | by apply sublist_skip].
Qed.

Lemma filter_lines_clean b (lines : list string) (line : string) :
  In line (Cleanup.filter_lines b lines) ->
  Str.contains Cleanup.IMPORT_LINE line = false
  /\ Str.contains Cleanup.CONSTRUCTION line = false.
Proof.
  revert b. induction lines as [| l lines IH]; intros b; simpl; [done |].
  destruct (Str.contains Cleanup.IMPORT_LINE l) eqn:H1; [apply IH |].
  destruct (Str.contains Cleanup.CONSTRUCTION l) eqn:H2; [apply IH |].
  destruct (b && _); [apply IH |].
  intros [<- | H]; [done | by apply (IH false)].
Qed.

Lemma filter_lines_id (lines : list string) :
  (forall line, In line lines ->
     Str.contains Cleanup.IMPORT_LINE line = false
     /\ Str.contains Cleanup.CONSTRUCTION line = false) ->
  Cleanup.filter_lines false lines = lines.
Proof.
  induction lines as [| l lines IH]; intros H; simpl; [done |].
  destruct (H l (or_introl eq_refl)) as [-> ->]. simpl.
  f_equal. apply IH. intros line Hl. apply H. by right.
Qed.

(** [split] and [join] *)
Lemma join_split sep (s : string) :
  String.concat (String sep "") (Path.split sep s) = s.
Proof.
  induction s as [| c s IH]; [done |].
  simpl Path.split. destruct (split_cons sep s) as (q & qs & E).
  rewrite E in IH |- *.
  destruct (Ascii.eqb_spec c sep) as [-> | Hne].
  - by rewrite concat_cons, IH.
  - destruct qs as [| q' qs].
    + simpl in IH |- *. by rewrite IH.
    + rewrite concat_cons in IH |- *. by rewrite <- IH.
Qed.

Lemma split_pieces_free sep (s : string) (piece : string) :
  In piece (Path.split sep s) ->
  Str.existsb (fun c => Ascii.eqb c sep) piece = false.
Proof.
  revert piece. induction s as [| c s IH]; intros piece; simpl.
  - by intros [<- | []].
  - destruct (Ascii.eqb c sep) eqn:Hc.
    + intros [<- | H]; [done | by apply IH].
    + destruct (split_cons sep s) as (q & qs & E). rewrite E in IH |- *.
      intros [<- | H].
      * simpl. rewrite Hc. apply IH. by left.
      * apply IH. by right.
Qed.

Lemma split_at_sep sep (s : string) :
  Path.split sep (String sep s) = "" :: Path.split sep s.
Proof. simpl. by rewrite Ascii.eqb_refl. Qed.

Lemma split_before_sep sep (p rest : string) (pieces : list string) :
  Str.existsb (fun c => Ascii.eqb c sep) p = false ->
  Path.split sep rest = pieces ->
  Path.split sep (p ++ String sep rest) = p :: pieces.
Proof.
  intros Hp <-. induction p as [| c p IH].
  - apply split_at_sep.
  - simpl in Hp. apply orb_false_iff in Hp as [Hc Hp].
    change (String c p ++ String sep rest) with (String c (p ++ String sep rest)).
    simpl Path.split. by rewrite Hc, (IH Hp).
Qed.

Lemma split_join sep (pieces : list string) :
  pieces <> [] ->
  (forall piece, In piece pieces ->
     Str.existsb (fun c => Ascii.eqb c sep) piece = false) ->
  Path.split sep (String.concat (String sep "") pieces) = pieces.
Proof.
  induction pieces as [| p pieces IH]; [done |]. intros _ Hfree.
  destruct pieces as [| q pieces].
  - simpl. apply split_whole. apply Hfree. by left.
  - rewrite concat_cons.
    change (p ++ String sep "" ++ String.concat (String sep "") (q :: pieces))
      with (p ++ String sep (String.concat (String sep "") (q :: pieces))).
    apply split_before_sep; [apply Hfree; by left |].
    apply IH; [done |]. intros x Hx. apply Hfree. by right.
Qed.

(** X19: the rewriting of [extractor_manager.py] only deletes lines; no
    line that is left mentions the import or the construction of the
    Nature extractor; and it is idempotent: rewriting the rewritten text
    changes nothing. *)
Theorem rewrite_manager_idempotent (content : string) :
  sublist (Cleanup.filter_lines false (Path.split Cleanup.NEWLINE content))
          (Path.split Cleanup.NEWLINE content)
  /\ (forall line,
        In line (Cleanup.filter_lines false (Path.split Cleanup.NEWLINE content)) ->
        Str.contains Cleanup.IMPORT_LINE line = false
        /\ Str.contains Cleanup.CONSTRUCTION line = false)
  /\ Cleanup.rewrite_manager (Cleanup.rewrite_manager content)
     = Cleanup.rewrite_manager content.
Proof.
  split; [apply filter_lines_sublist |].
  split; [apply filter_lines_clean |].
  unfold Cleanup.rewrite_manager.
  set (kept := Cleanup.filter_lines false (Path.split Cleanup.NEWLINE content)).
  destruct kept as [| l ls] eqn:E; [reflexivity |].
  rewrite split_join; [| done |].
  - f_equal. apply filter_lines_id. intros line Hl.
    apply (filter_lines_clean false (Path.split Cleanup.NEWLINE content)).
    fold kept. by rewrite E.
  - intros piece Hp. apply (split_pieces_free _ content).
    pose proof (filter_lines_sublist false (Path.split Cleanup.NEWLINE content))
      as Hsub.
    fold kept in Hsub. rewrite E in Hsub.
    apply list_elem_of_In in Hp. apply list_elem_of_In.
    by apply (elem_of_sublist _ _ _ Hp Hsub).
Qed.

Lemma rewrite_manager_idempotent_witness :
  let content :=
    String.concat (String Cleanup.NEWLINE "")
      [ "from .nature_extractor import NatureExtractor";
        "        nature_extractor = NatureExtractor(self.session)";
        "        self.extractors.append(nature_extractor)";
        "        self.extractors.append(biorxiv)" ] in
  Cleanup.rewrite_manager content = "        self.extractors.append(biorxiv)"
  /\ Cleanup.rewrite_manager (Cleanup.rewrite_manager content)
     = Cleanup.rewrite_manager content.
Proof.
  intros content. split; [reflexivity |].
  exact (proj2 (proj2 (rewrite_manager_idempotent content))).
Defined.

(** X20: a text in which no line mentions the import or the construction
    of the Nature extractor is written back unchanged, character for
    character, even if it has lines that register an extractor. *)
Theorem rewrite_manager_unchanged (content : string) :
  (forall line, In line (Path.split Cleanup.NEWLINE content) ->
     Str.contains Cleanup.IMPORT_LINE line = false
     /\ Str.contains Cleanup.CONSTRUCTION line = false) ->
  Cleanup.rewrite_manager content = content.
Proof.
  intros H. unfold Cleanup.rewrite_manager.
  rewrite (filter_lines_id _ H). apply join_split.
Qed.

Lemma rewrite_manager_unchanged_witness :
  (forall line, In line (Path.split Cleanup.NEWLINE sample_manager) ->
     Str.contains Cleanup.IMPORT_LINE line = false
     /\ Str.contains Cleanup.CONSTRUCTION line = false)
  /\ Cleanup.rewrite_manager sample_manager = sample_manager.
Proof.
  assert (H : forall line, In line (Path.split Cleanup.NEWLINE sample_manager) ->
            Str.contains Cleanup.IMPORT_LINE line = false
            /\ Str.contains Cleanup.CONSTRUCTION line = false).
  { intros line Hl. vm_compute in Hl.
    repeat (destruct Hl as [<- | Hl]; [by vm_compute |]). done. }
  split; [exact H |]. exact (rewrite_manager_unchanged sample_manager H).
Defined.

(** ** Cookie strings ([downloader.py]) *)

Lemma rstrip_nonempty (a b : string) :
  Cookies.rstrip b = b -> b <> "" -> Cookies.rstrip (a ++ b) = a ++ b.
Proof.
  intros Hb Hne. induction a as [| c a IH]; [done |].
  change (String c a ++ b) with (String c (a ++ b)).
  simpl. rewrite IH. destruct (a ++ b) eqn:E; [| done].
  destruct a; simpl in E; [by subst | done].
Qed.

Lemma rstrip_after_eq (v : string) :
  Cookies.rstrip v = v -> Cookies.rstrip (String "=" v) = String "=" v.
Proof. intros Hv. simpl. rewrite Hv. by destruct v. Qed.

Lemma lstrip_key (k rest : string) :
  Cookies.lstrip k = k ->
  Cookies.lstrip (k ++ String "=" rest) = k ++ String "=" rest.
Proof.
  destruct k as [| c k]; [done |]. simpl.
  destruct (Str.is_space c); [| done].
  intros H. exfalso.
  assert (Hlen : forall s, String.length (Cookies.lstrip s) <= String.length s).
  { induction s as [| x s IHs]; simpl; [lia |].
    destruct (Str.is_space x); simpl; lia. }
  specialize (Hlen k). rewrite H in Hlen. simpl in Hlen. lia.
Qed.

Lemma split_once_key (k v : string) :
  Str.existsb (fun c => Ascii.eqb c "=") k = false ->
  Cookies.split_once "=" (k ++ String "=" v) = (k, v).
Proof.
  induction k as [| c k IH]; [done |]. simpl.
  intros [Hc Hk]%orb_false_iff. by rewrite Hc, (IH Hk).
Qed.

Lemma plain_key_spec (k : string) :
  Cookies.plain_key k = true ->
  Str.existsb (fun c => Ascii.eqb c ";") k = false
  /\ Str.existsb (fun c => Ascii.eqb c "=") k = false
  /\ Cookies.lstrip k = k.
Proof.
  unfold Cookies.plain_key.
  intros [[[_ H1]%andb_true_iff H2]%andb_true_iff H3]%andb_true_iff.
  apply negb_true_iff in H1, H2. by apply String.eqb_eq in H3.
Qed.

Lemma plain_value_spec (v : string) :
  Cookies.plain_value v = true ->
  Str.existsb (fun c => Ascii.eqb c ";") v = false /\ Cookies.rstrip v = v.
Proof.
  unfold Cookies.plain_value.
  intros [[_ H1]%andb_true_iff H2]%andb_true_iff.
  apply negb_true_iff in H1. by apply String.eqb_eq in H2.
Qed.

(** One pair, with or without the space that follows a [;]. *)
Lemma add_item_pair cookies (k v : string) (lead : bool) :
  Cookies.plain_key k = true -> Cookies.plain_value v = true ->
  Cookies.add_item cookies
    ((if lead then " " else "") ++ k ++ String "=" v)
  = <[k := v]> cookies.
Proof.
  intros (_ & Hk & Hl)%plain_key_spec (_ & Hr)%plain_value_spec.
  unfold Cookies.add_item.
  assert (He : Str.existsb (fun c => Ascii.eqb c "=")
                 ((if lead then " " else "") ++ k ++ String "=" v) = true).
  { rewrite !existsb_app. simpl. by rewrite !orb_true_r. }
  rewrite He.
  assert (Hs : Cookies.strip ((if lead then " " else "") ++ k ++ String "=" v)
               = k ++ String "=" v).
  { unfold Cookies.strip. rewrite <- app_assoc_str.
    rewrite rstrip_nonempty; [| by apply rstrip_after_eq | done].
    rewrite app_assoc_str. destruct lead; simpl; by apply lstrip_key. }
  by rewrite Hs, (split_once_key _ _ Hk).
Qed.

Lemma pair_no_semicolon (k v : string) :
  Cookies.plain_key k = true -> Cookies.plain_value v = true ->
  Str.existsb (fun c => Ascii.eqb c ";") (k ++ String "=" v) = false.
Proof.
  intros (Hk & _)%plain_key_spec (Hv & _)%plain_value_spec.
  rewrite existsb_app. simpl. by rewrite Hk, Hv.
Qed.

Lemma parse_items (pairs : list (string * string)) cookies (lead : bool) :
  (forall k v, In (k, v) pairs ->
     Cookies.plain_key k = true /\ Cookies.plain_value v = true) ->
  pairs <> [] ->
  List.fold_left Cookies.add_item
    (Path.split ";" ((if lead then " " else "") ++ Cookies.render pairs)) cookies
  = List.fold_left (fun m kv => <[fst kv := snd kv]> m) pairs cookies.
Proof.
  revert cookies lead. induction pairs as [| [k v] pairs IH];
    intros cookies lead Hwf Hne; [done |].
  destruct (Hwf k v (or_introl eq_refl)) as [Hk Hv].
  assert (Hfree : Str.existsb (fun c => Ascii.eqb c ";")
                    ((if lead then " " else "") ++ k ++ String "=" v) = false).
  { rewrite existsb_app, (pair_no_semicolon _ _ Hk Hv). by destruct lead. }
  destruct pairs as [| kv' pairs].
  - unfold Cookies.render. simpl List.map. simpl String.concat.
    rewrite (split_whole _ _ Hfree). simpl.
    by rewrite (add_item_pair cookies k v lead Hk Hv).
  - assert (E : (if lead then " " else "") ++ Cookies.render ((k, v) :: kv' :: pairs)
               = ((if lead then " " else "") ++ k ++ String "=" v)
                 ++ String ";" (" " ++ Cookies.render (kv' :: pairs))).
    { unfold Cookies.render. simpl List.map. rewrite concat_cons.
      simpl fst. simpl snd. rewrite !app_assoc_str. reflexivity. }
    rewrite E.
    rewrite (split_before_sep ";" _ _ _ Hfree eq_refl).
    simpl List.fold_left. rewrite (add_item_pair cookies k v lead Hk Hv).
    apply (IH _ true); [| done].
    intros k0 v0 H0. apply Hwf. by right.
Qed.

(** X21: a cookie header written as [k1=v1; k2=v2; ...], with plain ASCII
    names and values, is read back as the dictionary built by assigning
    the pairs in order (a later pair with the same name replaces an
    earlier one); a value may hold [=] and spaces. *)
Theorem cookie_string_round_trip (pairs : list (string * string)) :
  (forall k v, In (k, v) pairs ->
     Cookies.plain_key k = true /\ Cookies.plain_value v = true) ->
  Cookies._parse_cookie_string (Cookies.render pairs)
  = List.fold_left (fun m kv => <[fst kv := snd kv]> m) pairs ∅.
Proof.
  intros Hwf. destruct pairs as [| kv pairs]; [reflexivity |].
  unfold Cookies._parse_cookie_string.
  by apply (parse_items (kv :: pairs) ∅ false).
Qed.

Lemma cookie_string_round_trip_witness :
  let pairs := [("session", "abc=="); ("theme", "dark mode"); ("session", "xyz")] in
  (forall k v, In (k, v) pairs ->
     Cookies.plain_key k = true /\ Cookies.plain_value v = true)
  /\ Cookies.render pairs = "session=abc==; theme=dark mode; session=xyz"
  /\ Cookies._parse_cookie_string (Cookies.render pairs) !! "session" = Some "xyz".
Proof.
  intros pairs.
  assert (Hwf : forall k v, In (k, v) pairs ->
            Cookies.plain_key k = true /\ Cookies.plain_value v = true).
  { intros k v H. simpl in H.
    repeat (destruct H as [[= <- <-] | H]; [by vm_compute |]). done. }
  split; [exact Hwf |]. split; [reflexivity |].
  rewrite (cookie_string_round_trip pairs Hwf). vm_compute. reflexivity.
Defined.
